(** * The deterministic fallback classifier of [server/routes.ts]

    A shallow embedding of [analyzeFile] (routes.ts, lines 869-1070) and of the
    two closures it defines, [analyzeMediaContent] and [generateBoundingBoxes],
    followed by the properties the specification states about them.

    JavaScript numbers are IEEE-754 binary64 values: they are modelled by
    Rocq's primitive floats, whose operations are the same binary64
    operations, so every threshold comparison and every confidence formula is
    evaluated exactly as the program evaluates it.  Numbers that the program
    only ever uses as integers (the character-code sum, the clock in
    milliseconds, results of [Math.floor]) are kept as [N] or [Z]; they stay
    far below 2^53, where binary64 integer arithmetic is exact.  The
    numbers of a range request, which the client chooses, are binary64
    values. *)

From Stdlib Require Import ZArith NArith List String Ascii Bool Lia.
From Stdlib Require Import Floats Uint63 DecimalString.
From Stdlib Require Import Permutation Sorted.
Import ListNotations.

Set Warnings "-inexact-float".

(** ** The JavaScript values and built-ins the classifier uses *)

Module JS.

(** A string is its sequence of UTF-16 code units. *)
Definition codeUnit := N.
Definition jsstring := list codeUnit.

(** A string literal of the source (all of them are ASCII). *)
Definition js (s : string) : jsstring := map N_of_ascii (list_ascii_of_string s).

(** An integer below 2^53 as a number. *)
Definition ofN (n : N) : float := PrimFloat.of_uint63 (Uint63.of_Z (Z.of_N n)).

(** [s.split('')]: the one-unit strings of [s]. *)
Definition split_chars (s : jsstring) : list jsstring := map (fun c => [c]) s.

(** [char.charCodeAt(0)].  On the empty string JavaScript answers NaN; the
    classifier only calls it on the elements of [split_chars], which all
    have one unit. *)
Definition charCodeAt0 (char : jsstring) : N :=
  match char with
  | c :: _ => c
  | [] => 0%N
  end.

(** [l.reduce(f, init)] *)
Definition reduce {A B : Type} (f : B -> A -> B) (init : B) (l : list A) : B :=
  fold_left f l init.

(** [l.some(p)] *)
Definition some {A : Type} (p : A -> bool) (l : list A) : bool := existsb p l.

(** [s.startsWith(p)] *)
Fixpoint startsWith (s p : jsstring) {struct p} : bool :=
  match p with
  | [] => true
  | c :: p' =>
      match s with
      | [] => false
      | d :: s' => N.eqb d c && startsWith s' p'
      end
  end.

(** [s.includes(w)] *)
Fixpoint includes (s w : jsstring) {struct s} : bool :=
  startsWith s w ||
  match s with
  | [] => false
  | _ :: s' => includes s' w
  end.

(** [s.replace(pat, rep)] with a string pattern: only the first occurrence
    is replaced. *)
Fixpoint replace (s pat rep : jsstring) {struct s} : jsstring :=
  if startsWith s pat then rep ++ skipn (List.length pat) s
  else match s with
       | [] => []
       | c :: s' => c :: replace s' pat rep
       end.

(** [Math.max(a, b)] and [Math.min(a, b)]: NaN if an argument is NaN, and
    +0 is larger than -0. *)
Definition Math_max (a b : float) : float :=
  if is_nan a || is_nan b then nan
  else if (a <? b)%float then b
  else if (b <? a)%float then a
  else if get_sign a then b else a.

Definition Math_min (a b : float) : float :=
  if is_nan a || is_nan b then nan
  else if (a <? b)%float then a
  else if (b <? a)%float then b
  else if get_sign a then a else b.

(** A number is finite when it is neither NaN nor an infinity. *)
Definition isFinite (x : float) : bool := negb (is_nan x) && negb (is_infinity x).

(** [Math.floor(x)] for a finite [x], as the integer it denotes.  A finite
    binary64 value is [m * 2^e]; shifting right rounds towards minus
    infinity.  NaN and the infinities have no integer floor: the model
    answers 0 there, and [floor_arguments_finite] below shows that the
    classifier never takes the floor of such a value. *)
Definition Math_floor (x : float) : Z :=
  match Prim2SF x with
  | S754_finite s m e =>
      let v := if s then Z.neg m else Z.pos m in
      if (0 <=? e)%Z then Z.shiftl v e else Z.shiftr v (- e)
  | _ => 0%Z
  end.

End JS.
Import JS.

(** ** Data of the classifier *)

(** The [type] strings of [selectedAnomaly]. *)
Inductive AnomalyType : Set :=
  | weapon_detected | burglary | fighting | suspicious_activity
  | trespassing | loitering | normal.

(** The [severity] strings; ['uncertain'] is only assigned by
    [analyzeFile] (line 995), never by a ladder. *)
Inductive Severity : Set := low | medium | high | critical | uncertain.

(** The [recommendedAction] strings (line 1051). *)
Inductive Action : Set := manual_review | alert | none.

Definition AnomalyType_eqb (a b : AnomalyType) : bool :=
  match a, b with
  | weapon_detected, weapon_detected | burglary, burglary
  | fighting, fighting | suspicious_activity, suspicious_activity
  | trespassing, trespassing | loitering, loitering | normal, normal => true
  | _, _ => false
  end.

(** The strings the program writes for the two enumerations. *)
Definition typeString (t : AnomalyType) : jsstring :=
  match t with
  | weapon_detected => js "weapon_detected"
  | burglary => js "burglary"
  | fighting => js "fighting"
  | suspicious_activity => js "suspicious_activity"
  | trespassing => js "trespassing"
  | loitering => js "loitering"
  | normal => js "normal"
  end.

Definition severityString (s : Severity) : jsstring :=
  match s with
  | low => js "low"
  | medium => js "medium"
  | high => js "high"
  | critical => js "critical"
  | uncertain => js "uncertain"
  end.

(** The two fields of [Express.Multer.File] that [analyzeFile] reads. *)
Record File : Set := { originalname : jsstring; mimetype : jsstring }.

(** [{ type, severity }] *)
Record SelectedAnomaly : Set := { type : AnomalyType; sa_severity : Severity }.

(** What [analyzeMediaContent] returns (line 987); [rawConfidence] is its
    [confidence] field, before any clamping. *)
Record MediaAnalysis : Set := {
  selectedAnomaly : SelectedAnomaly;
  rawConfidence : float;
  deterministicRandom : float;
  isVideo : bool
}.

(** An element of [bounding_boxes]; [bbox] is [[x1, y1, x2, y2]]. *)
Record BoundingBox : Set := {
  class_name : jsstring;
  box_confidence : float;
  bbox : float * float * float * float;
  is_anomaly : bool;
  priority : jsstring
}.

Record PrivacyImpact : Set := { epsilon : float; delta : float }.

Record Metadata : Set := {
  fileType : jsstring;
  analysisMethod : jsstring;
  timestamp : jsstring;
  confidenceThreshold : float;
  frames_analyzed : Z;
  privacy_impact : PrivacyImpact;
  trainingDatasets : list jsstring;
  privacyPreserving : bool;
  federatedLearning : bool;
  source : jsstring
}.

(** The object returned on the fallback path (lines 1038-1069). *)
Record Classification : Set := {
  anomalyDetected : bool;
  anomalyType : AnomalyType;
  severity : Severity;
  confidence : float;
  description : jsstring;
  modelUsed : jsstring;
  processingTime : Z;
  bounding_boxes : list BoundingBox;
  recommendedAction : Action;
  metadata : Metadata
}.

(** The object returned for an unsupported media type (lines 874-880);
    its [processingTime] is [Date.now()]. *)
Record UnsupportedResult : Set := {
  u_anomalyDetected : bool;
  u_confidence : float;
  u_modelUsed : jsstring;
  u_processingTime : Z;
  u_error : jsstring
}.

Inductive AnalysisResult : Set :=
  | Unsupported (u : UnsupportedResult)
  | Classified (c : Classification).

(** Property reads on the returned object; a property the object does not
    have reads as [None] ([undefined]). *)
Definition get_anomalyDetected (r : AnalysisResult) : bool :=
  match r with Unsupported u => u_anomalyDetected u | Classified c => anomalyDetected c end.
Definition get_confidence (r : AnalysisResult) : float :=
  match r with Unsupported u => u_confidence u | Classified c => confidence c end.
Definition get_processingTime (r : AnalysisResult) : Z :=
  match r with Unsupported u => u_processingTime u | Classified c => processingTime c end.
Definition get_error (r : AnalysisResult) : option jsstring :=
  match r with Unsupported u => Some (u_error u) | Classified _ => None end.
Definition get_anomalyType (r : AnalysisResult) : option AnomalyType :=
  match r with Unsupported _ => None | Classified c => Some (anomalyType c) end.
Definition get_severity (r : AnalysisResult) : option Severity :=
  match r with Unsupported _ => None | Classified c => Some (severity c) end.
Definition get_description (r : AnalysisResult) : option jsstring :=
  match r with Unsupported _ => None | Classified c => Some (description c) end.
Definition get_bounding_boxes (r : AnalysisResult) : option (list BoundingBox) :=
  match r with Unsupported _ => None | Classified c => Some (bounding_boxes c) end.
Definition get_metadata (r : AnalysisResult) : option Metadata :=
  match r with Unsupported _ => None | Classified c => Some (metadata c) end.

(** ** The classifier *)

Section Classifier.

Local Open Scope float_scope.

(** Three built-ins are left abstract, as their full definitions lie outside
    the repository (the Unicode case mapping, number formatting and date
    formatting): every result below holds for whatever functions they
    are. *)
Variable toLowerCase : jsstring -> jsstring.       (* [s.toLowerCase()] *)
Variable toFixed : float -> N -> jsstring.         (* [x.toFixed(digits)] *)
Variable toISOString : Z -> jsstring.              (* [new Date(ms).toISOString()] *)

(** Lines 939-960: the ladder for video files. *)
Definition videoLadder (hasWeaponKeywords hasBurglaryKeywords hasFightKeywords
                        hasMovementKeywords : bool) (deterministicRandom : float)
  : SelectedAnomaly * float :=
  if hasWeaponKeywords || (0.75 <? deterministicRandom) then
    ({| type := weapon_detected; sa_severity := critical |},
     0.88 + (deterministicRandom * 0.11))
  else if hasBurglaryKeywords || (0.65 <? deterministicRandom) then
    ({| type := burglary; sa_severity := critical |},
     0.82 + (deterministicRandom * 0.15))
  else if hasFightKeywords || (0.55 <? deterministicRandom) then
    ({| type := fighting; sa_severity := high |},
     0.75 + (deterministicRandom * 0.20))
  else if hasMovementKeywords || (0.45 <? deterministicRandom) then
    ({| type := suspicious_activity; sa_severity := medium |},
     0.65 + (deterministicRandom * 0.25))
  else if 0.35 <? deterministicRandom then
    ({| type := trespassing; sa_severity := medium |},
     0.55 + (deterministicRandom * 0.30))
  else if 0.20 <? deterministicRandom then
    ({| type := loitering; sa_severity := low |},
     0.40 + (deterministicRandom * 0.25))
  else
    ({| type := normal; sa_severity := low |},
     0.25 + (deterministicRandom * 0.30)).

(** Lines 963-984: the ladder for everything else (images).  The movement
    keywords are computed but not consulted here. *)
Definition imageLadder (hasWeaponKeywords hasBurglaryKeywords hasFightKeywords
                        : bool) (deterministicRandom : float)
  : SelectedAnomaly * float :=
  if hasWeaponKeywords || (0.85 <? deterministicRandom) then
    ({| type := weapon_detected; sa_severity := critical |},
     0.85 + (deterministicRandom * 0.14))
  else if hasBurglaryKeywords || (0.75 <? deterministicRandom) then
    ({| type := burglary; sa_severity := critical |},
     0.78 + (deterministicRandom * 0.17))
  else if hasFightKeywords || (0.70 <? deterministicRandom) then
    ({| type := fighting; sa_severity := high |},
     0.72 + (deterministicRandom * 0.18))
  else if 0.60 <? deterministicRandom then
    ({| type := trespassing; sa_severity := high |},
     0.65 + (deterministicRandom * 0.25))
  else if 0.45 <? deterministicRandom then
    ({| type := suspicious_activity; sa_severity := medium |},
     0.50 + (deterministicRandom * 0.30))
  else if 0.30 <? deterministicRandom then
    ({| type := loitering; sa_severity := low |},
     0.35 + (deterministicRandom * 0.25))
  else
    ({| type := normal; sa_severity := low |},
     0.20 + (deterministicRandom * 0.30)).

(** Line 921 (and again line 1035): the sum of the character codes. *)
Definition seedOf (filename : jsstring) : N :=
  reduce (fun acc char => (acc + charCodeAt0 char)%N) 0%N (split_chars filename).

(** Lines 919-988. *)
Definition analyzeMediaContent (filename mimeType : jsstring) : MediaAnalysis :=
  let seed := seedOf filename in
  let deterministicRandom := ofN (seed mod 1000) / 1000 in
  let lowerFilename := toLowerCase filename in
  let hasWeaponKeywords :=
    some (fun w => includes lowerFilename w)
      [js "gun"; js "weapon"; js "pistol"; js "rifle"; js "knife"; js "armed"] in
  let hasBurglaryKeywords :=
    some (fun w => includes lowerFilename w)
      [js "burglar"; js "thief"; js "robbery"; js "break"; js "steal"; js "intrude"] in
  let hasFightKeywords :=
    some (fun w => includes lowerFilename w)
      [js "fight"; js "violence"; js "assault"; js "attack"] in
  let hasMovementKeywords :=
    some (fun w => includes lowerFilename w)
      [js "running"; js "chase"; js "escape"; js "movement"] in
  let isVideoFile := startsWith mimeType (js "video/") in
  let '(selectedAnomaly, confidence) :=
    if isVideoFile
    then videoLadder hasWeaponKeywords hasBurglaryKeywords hasFightKeywords
           hasMovementKeywords deterministicRandom
    else imageLadder hasWeaponKeywords hasBurglaryKeywords hasFightKeywords
           deterministicRandom in
  {| selectedAnomaly := selectedAnomaly;
     rawConfidence := confidence;
     deterministicRandom := deterministicRandom;
     isVideo := isVideoFile |}.

(** The indices [0, 1, ..., n-1] of a counting [for] loop. *)
Definition range (n : Z) : list N := map N.of_nat (seq 0 (Z.to_nat n)).

(** Lines 998-1032.  The closure reads [confidence] and [selectedAnomaly]
    of the enclosing function: they are its first two arguments here. *)
Definition generateBoundingBoxes (confidence : float) (selectedAnomaly : SelectedAnomaly)
    (anomalyType : AnomalyType) (isAnomaly : bool) (seed : N) (isVideoFile : bool)
  : list BoundingBox :=
  let seededRandom (offset : N) := ofN ((seed + offset) mod 1000) / 1000 in
  if negb isAnomaly then
    [ {| class_name := js "person";
         box_confidence := 0.85 + seededRandom 1%N * 0.1;
         bbox := (120 + seededRandom 2%N * 200, 80 + seededRandom 3%N * 150,
                  300 + seededRandom 4%N * 100, 280 + seededRandom 5%N * 120);
         is_anomaly := false;
         priority := js "normal" |} ]
  else
    let numBoxes := (Math_floor (seededRandom 10%N * 2) + 1)%Z in
    map (fun i : N =>
           let x := 50 + seededRandom (i * 10 + 20)%N * 350 in
           let y := 30 + seededRandom (i * 10 + 21)%N * 200 in
           let width := 120 + seededRandom (i * 10 + 22)%N * 80 in
           let height := 180 + seededRandom (i * 10 + 23)%N * 100 in
           {| class_name := if (i =? 0)%N
                            then replace (typeString anomalyType) (js "_") (js " ")
                            else js "person";
              box_confidence := if (i =? 0)%N then confidence
                                else 0.6 + seededRandom (i * 10 + 24)%N * 0.3;
              bbox := (x, y, x + width, y + height);
              is_anomaly := (i =? 0)%N;
              priority := if (i =? 0)%N
                          then severityString (sa_severity selectedAnomaly)
                          else js "normal" |})
        (range numBoxes).

(** Lines 869-1070, on the path that does not take the answer of the
    external inference service (lines 883-910: the service is unavailable,
    fails, or answers without success), which is the fallback classifier
    of the specification.  [now] is the reading of the clock, in
    milliseconds, at the one place where the path taken reads it
    ([Date.now()] at line 878, [new Date()] at line 1055).  The awaited
    delay of line 916 and the console output leave no trace in the
    result. *)
Definition analyzeFile (now : Z) (file : File) : AnalysisResult :=
  let isVideoType := startsWith (mimetype file) (js "video/") in
  let isImageType := startsWith (mimetype file) (js "image/") in
  if negb isVideoType && negb isImageType then
    Unsupported
      {| u_anomalyDetected := false;
         u_confidence := 0;
         u_modelUsed := js "PPFL Anomaly Detector v1.2.0";
         u_processingTime := now;
         u_error := js "Unsupported file type" |}
  else
    let m := analyzeMediaContent (originalname file) (mimetype file) in
    let selectedAnomaly := selectedAnomaly m in
    let confidence := rawConfidence m in
    let deterministicRandom := deterministicRandom m in
    let mediaIsVideo := isVideo m in
    let isAnomaly :=
      negb (AnomalyType_eqb (type selectedAnomaly) normal) && (0.50 <=? confidence) in
    let displayConfidence := Math_min 0.99 (Math_max 0.35 confidence) in
    let actualSeverity :=
      if confidence <? 0.50 then uncertain else sa_severity selectedAnomaly in
    let seed := seedOf (originalname file) in
    let boundingBoxes :=
      generateBoundingBoxes confidence selectedAnomaly (type selectedAnomaly)
        isAnomaly seed mediaIsVideo in
    let media := if mediaIsVideo then js "video" else js "image" in
    Classified
      {| anomalyDetected := isAnomaly || (0.35 <=? confidence);
         anomalyType := type selectedAnomaly;
         severity := actualSeverity;
         confidence := displayConfidence;
         description :=
           if confidence <? 0.50 then
             js "Uncertain detection: possible "
             ++ replace (typeString (type selectedAnomaly)) (js "_") (js " ")
             ++ js " in " ++ media ++ js " with "
             ++ toFixed (displayConfidence * 100) 1%N ++ js "% confidence"
           else if isAnomaly then
             replace (typeString (type selectedAnomaly)) (js "_") (js " ")
             ++ js " detected in " ++ media ++ js " with "
             ++ toFixed (displayConfidence * 100) 1%N ++ js "% confidence"
           else js "Normal activity detected in " ++ media;
         modelUsed :=
           if mediaIsVideo then js "Enhanced PPFL Video Analyzer v2.1 (Fallback)"
           else js "Enhanced PPFL Image Detector v2.0 (Fallback)";
         processingTime :=
           Math_floor (if mediaIsVideo then 2500 + deterministicRandom * 2000
                       else 1500 + deterministicRandom * 1000);
         bounding_boxes := boundingBoxes;
         recommendedAction :=
           if confidence <? 0.50 then manual_review
           else if isAnomaly then alert else none;
         metadata :=
           {| fileType := media;
              analysisMethod :=
                if mediaIsVideo then js "temporal_video_analysis_pipeline"
                else js "enhanced_detection_pipeline";
              timestamp := toISOString now;
              confidenceThreshold := 0.50;
              frames_analyzed :=
                if mediaIsVideo then Math_floor (5 + deterministicRandom * 10)
                else 1%Z;
              privacy_impact :=
                {| epsilon := 0.08 + deterministicRandom * 0.04;
                   delta := 0.00001 |};
              trainingDatasets :=
                if mediaIsVideo then
                  [js "UCF-Crime"; js "ShanghaiTech Campus"; js "Avenue Dataset";
                   js "Kinetics-400"; js "ActivityNet"]
                else
                  [js "UCF-Crime"; js "ShanghaiTech Campus"; js "Avenue Dataset";
                   js "Custom Weapon Detection"];
              privacyPreserving := true;
              federatedLearning := true;
              source := js "enhanced_local_fallback" |} |}.

End Classifier.

(** ** Concrete built-ins

    Instances of the three abstract built-ins, used to run the classifier
    on concrete inputs.  Each agrees with JavaScript on the stated
    domain. *)

Module Builtins.

(** [toLowerCase] on strings whose letters are ASCII: A-Z map to a-z, every
    other code unit is kept. *)
Definition toLowerCase (s : jsstring) : jsstring :=
  map (fun c => if (65 <=? c)%N && (c <=? 90)%N then (c + 32)%N else c) s.

(** The decimal digits of [n], padded with zeros on the left to [width]. *)
Definition digits (width : nat) (n : N) : jsstring :=
  let d := js (NilZero.string_of_uint (N.to_uint n)) in
  repeat 48%N (width - List.length d) ++ d.

(** [x.toFixed(d)] for a finite [x] of magnitude below 1e21: the integer
    [n] nearest to [x * 10^d] (the larger one on a tie), written with [d]
    fractional digits. *)
Definition toFixed (x : float) (d : N) : jsstring :=
  match Prim2SF x with
  | S754_nan => js "NaN"
  | S754_infinity s => js (if s then "-Infinity" else "Infinity")
  | S754_zero _ =>
      js "0" ++ (if (d =? 0)%N then [] else js "." ++ digits (N.to_nat d) 0)
  | S754_finite s m e =>
      let num := (Z.pos m * 10 ^ Z.of_N d * (if (0 <=? e)%Z then 2 ^ e else 1))%Z in
      let den := (if (0 <=? e)%Z then 1 else 2 ^ (- e))%Z in
      let n := Z.to_N ((2 * num + den) / (2 * den)) in
      let p := (10 ^ d)%N in
      (if s then js "-" else [])
      ++ digits 1 (n / p)
      ++ (if (d =? 0)%N then [] else js "." ++ digits (N.to_nat d) (n mod p))
  end.

(** [new Date(ms).toISOString()] for an instant in the years 0000-9999: the
    proleptic Gregorian date of the day number and the time of day, in
    UTC. *)
Definition toISOString (ms : Z) : jsstring :=
  let day := (ms / 86400000)%Z in
  let t := (ms mod 86400000)%Z in
  let z := (day + 719468)%Z in
  let era := (z / 146097)%Z in
  let doe := (z - era * 146097)%Z in
  let yoe := ((doe - doe / 1460 + doe / 36524 - doe / 146096) / 365)%Z in
  let doy := (doe - (365 * yoe + yoe / 4 - yoe / 100))%Z in
  let mp := ((5 * doy + 2) / 153)%Z in
  let d := (doy - (153 * mp + 2) / 5 + 1)%Z in
  let mo := (if mp <? 10 then mp + 3 else mp - 9)%Z in
  let y := (yoe + era * 400 + (if mo <=? 2 then 1 else 0))%Z in
  digits 4 (Z.to_N y) ++ js "-" ++ digits 2 (Z.to_N mo) ++ js "-" ++ digits 2 (Z.to_N d)
  ++ js "T" ++ digits 2 (Z.to_N (t / 3600000))
  ++ js ":" ++ digits 2 (Z.to_N (t / 60000 mod 60))
  ++ js ":" ++ digits 2 (Z.to_N (t / 1000 mod 60))
  ++ js "." ++ digits 3 (Z.to_N (t mod 1000)) ++ js "Z".

End Builtins.

(** The classifier with the concrete built-ins, and sample uploads. *)
Definition classify : Z -> File -> AnalysisResult :=
  analyzeFile Builtins.toLowerCase Builtins.toFixed Builtins.toISOString.

Definition clip : File :=
  {| originalname := js "armed_robbery_clip.mp4"; mimetype := js "video/mp4" |}.
Definition hallway : File :=
  {| originalname := js "normal_hallway.jpg"; mimetype := js "image/jpeg" |}.
Definition corridor : File :=
  {| originalname := js "1.png"; mimetype := js "image/png" |}.
Definition report : File :=
  {| originalname := js "report.pdf"; mimetype := js "application/pdf" |}.
(** An empty name, and a name of two non-ASCII code units. *)
Definition unnamed : File := {| originalname := []; mimetype := js "image/png" |}.
Definition kanji : File :=
  {| originalname := [20013%N; 25991%N]; mimetype := js "video/webm" |}.

(** ** The decision ladders as the specification words them

    Each ladder is an ordered list of rules (condition, category, severity,
    confidence range); the first rule whose condition holds is selected. *)

Module Spec.

Record Keywords : Set := {
  weaponKw : bool; burglaryKw : bool; fightKw : bool; movementKw : bool
}.

Record Rule : Set := {
  condition : Keywords -> float -> bool;
  category : AnomalyType;
  ladderSeverity : Severity;
  base : float;
  slope : float
}.

Local Open Scope float_scope.

Definition rule c t s b k : Rule :=
  {| condition := c; category := t; ladderSeverity := s; base := b; slope := k |}.

Definition videoRules : list Rule :=
  [ rule (fun kw r => weaponKw kw || (0.75 <? r)) weapon_detected critical 0.88 0.11;
    rule (fun kw r => burglaryKw kw || (0.65 <? r)) burglary critical 0.82 0.15;
    rule (fun kw r => fightKw kw || (0.55 <? r)) fighting high 0.75 0.20;
    rule (fun kw r => movementKw kw || (0.45 <? r)) suspicious_activity medium 0.65 0.25;
    rule (fun _ r => 0.35 <? r) trespassing medium 0.55 0.30;
    rule (fun _ r => 0.20 <? r) loitering low 0.40 0.25;
    rule (fun _ _ => true) normal low 0.25 0.30 ].

Definition imageRules : list Rule :=
  [ rule (fun kw r => weaponKw kw || (0.85 <? r)) weapon_detected critical 0.85 0.14;
    rule (fun kw r => burglaryKw kw || (0.75 <? r)) burglary critical 0.78 0.17;
    rule (fun kw r => fightKw kw || (0.70 <? r)) fighting high 0.72 0.18;
    rule (fun _ r => 0.60 <? r) trespassing high 0.65 0.25;
    rule (fun _ r => 0.45 <? r) suspicious_activity medium 0.50 0.30;
    rule (fun _ r => 0.30 <? r) loitering low 0.35 0.25;
    rule (fun _ _ => true) normal low 0.20 0.30 ].

(** First matching rule, top-down. *)
Definition firstMatch (rules : list Rule) (kw : Keywords) (r : float) : option Rule :=
  find (fun rl => condition rl kw r) rules.

(** The seed: the sum of the character codes of the file name. *)
Definition seed (filename : jsstring) : N := fold_right N.add 0%N filename.

(** Keyword gating: a group matches when one of its words is a substring
    of the lower-cased file name. *)
Definition matches (lower : jsstring -> jsstring) (filename : jsstring)
    (words : list string) : bool :=
  existsb (fun w => includes (lower filename) (js w)) words.

Definition keywords (lower : jsstring -> jsstring) (filename : jsstring) : Keywords :=
  {| weaponKw := matches lower filename ["gun"; "weapon"; "pistol"; "rifle"; "knife"; "armed"]%string;
     burglaryKw := matches lower filename ["burglar"; "thief"; "robbery"; "break"; "steal"; "intrude"]%string;
     fightKw := matches lower filename ["fight"; "violence"; "assault"; "attack"]%string;
     movementKw := matches lower filename ["running"; "chase"; "escape"; "movement"]%string |}.

(** The category, ladder severity and raw confidence the specification
    assigns to a file name and media type. *)
Definition select (lower : jsstring -> jsstring) (filename mimeType : jsstring)
  : option (AnomalyType * Severity * float) :=
  let r := ofN (seed filename mod 1000) / 1000 in
  let rules := if startsWith mimeType (js "video/") then videoRules else imageRules in
  match firstMatch rules (keywords lower filename) r with
  | Some rl => Some (category rl, ladderSeverity rl, base rl + r * slope rl)
  | None => None
  end.

(** [clamp(x, lo, hi)] *)
Definition clamp (x lo hi : float) : float :=
  if x <? lo then lo else if hi <? x then hi else x.

(** A category name with every underscore replaced by a space. *)
Definition spaced (t : AnomalyType) : jsstring :=
  map (fun c => if (c =? 95)%N then 32%N else c) (typeString t).

End Spec.

(** ** Enumeration over the residues of the seed

    Every number the classifier computes depends on the file name only
    through [seed mod 1000] and the four keyword flags, so a property of
    its numbers is decided by evaluating it on the 1000 residues. *)

Definition residues : list N := map N.of_nat (seq 0 1000).

(** [(seed % 1000) / 1000] *)
Definition rnd (k : N) : float := (ofN k / 1000)%float.

(** The ladder selected by the media kind. *)
Definition ladder (iv w b f m : bool) (r : float) : SelectedAnomaly * float :=
  if iv then videoLadder w b f m r else imageLadder w b f r.

(** Line 991. *)
Definition isAnomalyOf (s : SelectedAnomaly) (c : float) : bool :=
  negb (AnomalyType_eqb (type s) normal) && (0.50 <=? c)%float.

(** A supported media type (lines 870-873). *)
Definition supported (mimeType : jsstring) : bool :=
  startsWith mimeType (js "video/") || startsWith mimeType (js "image/").

Definition bools : list bool := [true; false].

(** A check holds in every case: both media kinds, all keyword flags, all
    residues. *)
Definition everywhere (p : bool -> bool -> bool -> bool -> bool -> N -> bool) : bool :=
  forallb (fun iv => forallb (fun w => forallb (fun b => forallb (fun f =>
    forallb (fun m => forallb (p iv w b f m) residues) bools) bools) bools) bools) bools.

(** The arguments of [Math.floor] in the classifier. *)
Definition floorArguments (iv : bool) (k : N) : list float :=
  [ (ofN ((k + 10) mod 1000) / 1000 * 2)%float;
    (if iv then 2500 + rnd k * 2000 else 1500 + rnd k * 1000)%float;
    (5 + rnd k * 10)%float ].

(** ** Predicates and checks *)

(** [x1 < x2] and [y1 < y2] *)
Definition ordered (b : BoundingBox) : bool :=
  let '(x1, y1, x2, y2) := bbox b in (x1 <? x2)%float && (y1 <? y2)%float.

(** The classification record of section 3 of the specification: the
    confidences lie in [0,1], there are one or two boxes, each box is
    ordered, and the integer fields are not negative. *)
Definition wellFormed (r : Classification) : bool :=
  ((0 <=? confidence r) && (confidence r <=? 1))%float
  && (1 <=? List.length (bounding_boxes r))%nat
  && (List.length (bounding_boxes r) <=? 2)%nat
  && forallb (fun b => ((0 <=? box_confidence b) && (box_confidence b <=? 1))%float
                       && ordered b) (bounding_boxes r)
  && (0 <=? processingTime r)%Z
  && (1 <=? frames_analyzed (metadata r))%Z.

(** The raw confidence is a finite number, its two comparisons with each
    threshold are complementary, and the displayed confidence lies in
    [0.35, 0.99]. *)
Definition confidenceCheck (iv w b f m : bool) (k : N) : bool :=
  let c := snd (ladder iv w b f m (rnd k)) in
  let d := Math_min 0.99 (Math_max 0.35 c) in
  (JS.isFinite c
   && Bool.eqb (c <? 0.50) (negb (0.50 <=? c))
   && Bool.eqb (c <? 0.35) (negb (0.35 <=? c))
   && (0.35 <=? d) && (d <=? 0.99))%float.

(** A normal selection comes from the last rule of its ladder and has a
    raw confidence below 0.35; and a selection of confidence at least 0.50
    is an anomaly. *)
Definition normalCheck (iv w b f m : bool) (k : N) : bool :=
  let s := fst (ladder iv w b f m (rnd k)) in
  let c := snd (ladder iv w b f m (rnd k)) in
  ((if AnomalyType_eqb (type s) normal
    then (c <? 0.35) && (rnd k <=? (if iv then 0.20 else 0.30))
    else true)
   && ((c <? 0.50) || isAnomalyOf s c))%float.

(** [wellFormed], on the fields of the result of this case: in particular
    every generated box is ordered. *)
Definition wellFormedCheck (iv w b f m : bool) (k : N) : bool :=
  let s := fst (ladder iv w b f m (rnd k)) in
  let c := snd (ladder iv w b f m (rnd k)) in
  let d := Math_min 0.99 (Math_max 0.35 c) in
  let boxes := generateBoundingBoxes c s (type s) (isAnomalyOf s c) k iv in
  ((0 <=? d) && (d <=? 1))%float
  && (1 <=? List.length boxes)%nat
  && (List.length boxes <=? 2)%nat
  && forallb (fun x => ((0 <=? box_confidence x) && (box_confidence x <=? 1))%float
                       && ordered x) boxes
  && (0 <=? Math_floor (if iv then 2500 + rnd k * 2000
                        else 1500 + rnd k * 1000)%float)%Z
  && (1 <=? (if iv then Math_floor (5 + rnd k * 10)%float else 1))%Z.

(** [numBoxes] is 1 or 2, and [Math.floor] is only applied to finite
    numbers, with a result that is not negative. *)
Definition floorCheck (iv : bool) (k : N) : bool :=
  let n := (Math_floor (ofN ((k + 10) mod 1000) / 1000 * 2) + 1)%Z in
  ((n =? 1) || (n =? 2))%Z
  && forallb JS.isFinite (floorArguments iv k)
  && forallb (fun x => (0 <=? Math_floor x)%Z) (floorArguments iv k)
  && (1 <=? Math_floor (5 + rnd k * 10)%float)%Z.

(** The result with the two readings of the clock blanked: the
    [timestamp] of the metadata, and the [processingTime] of the
    unsupported-type result. *)
Definition withoutClock (res : AnalysisResult) : AnalysisResult :=
  match res with
  | Unsupported u =>
      Unsupported
        {| u_anomalyDetected := u_anomalyDetected u;
           u_confidence := u_confidence u;
           u_modelUsed := u_modelUsed u;
           u_processingTime := 0;
           u_error := u_error u |}
  | Classified r =>
      let md := metadata r in
      Classified
        {| anomalyDetected := anomalyDetected r;
           anomalyType := anomalyType r;
           severity := severity r;
           confidence := confidence r;
           description := description r;
           modelUsed := modelUsed r;
           processingTime := processingTime r;
           bounding_boxes := bounding_boxes r;
           recommendedAction := recommendedAction r;
           metadata :=
             {| fileType := fileType md;
                analysisMethod := analysisMethod md;
                timestamp := [];
                confidenceThreshold := confidenceThreshold md;
                frames_analyzed := frames_analyzed md;
                privacy_impact := privacy_impact md;
                trainingDatasets := trainingDatasets md;
                privacyPreserving := privacyPreserving md;
                federatedLearning := federatedLearning md;
                source := source md |} |}
  end.

(** ** More of JavaScript: optional properties, JSON, Map, sort *)

(** A property of a request body or of an insert record: missing
    ([undefined]), [null], or present. *)
Inductive Optional (A : Type) : Type :=
  | Absent
  | Null
  | Present (a : A).
Arguments Absent {A}.
Arguments Null {A}.
Arguments Present {A} a.

(** A JSON value (the [jsonb] columns). *)
#[warnings="-register-all"]
Inductive Json : Type :=
  | JNull
  | JBool (b : bool)
  | JNumber (x : float)
  | JString (s : jsstring)
  | JArray (items : list Json)
  | JObject (fields : list (jsstring * Json)).

(** [a === b] on strings. *)
Fixpoint String_eqb (a b : jsstring) {struct a} : bool :=
  match a, b with
  | [], [] => true
  | c :: a', d :: b' => N.eqb c d && String_eqb a' b'
  | _, _ => false
  end.

(** Truthiness: the empty string, 0, NaN, [null], [false] and [undefined]
    are falsy; objects and arrays are truthy. *)
Definition truthyString (s : jsstring) : bool :=
  match s with [] => false | _ => true end.
Definition truthyNumber (x : float) : bool := negb (PrimFloat.is_zero x || PrimFloat.is_nan x).
Definition truthyInteger (n : Z) : bool := negb (n =? 0)%Z.
Definition truthyJson (j : Json) : bool :=
  match j with
  | JNull => false
  | JBool b => b
  | JNumber x => truthyNumber x
  | JString s => truthyString s
  | JArray _ | JObject _ => true
  end.

(** [x || d] for a string property, and [x || null] for the nullable
    columns. *)
Definition orString (x : Optional jsstring) (d : jsstring) : jsstring :=
  match x with
  | Present s => if truthyString s then s else d
  | _ => d
  end.
Definition orNullString (x : Optional jsstring) : option jsstring :=
  match x with
  | Present s => if truthyString s then Some s else None
  | _ => None
  end.
Definition orNullNumber (x : Optional float) : option float :=
  match x with
  | Present v => if truthyNumber v then Some v else None
  | _ => None
  end.
Definition orNullInteger (x : Optional Z) : option Z :=
  match x with
  | Present v => if truthyInteger v then Some v else None
  | _ => None
  end.
Definition orJson (x : option Json) (d : Json) : Json :=
  match x with
  | Some j => if truthyJson j then j else d
  | None => d
  end.

(** A [Map] with string keys: its entries in insertion order.  [set] on a
    key that is present replaces the value where it stands; on a new key
    it appends. *)
Module JSMap.
Section WithValues.

Context {V : Type}.

Definition t : Type := list (jsstring * V).

Fixpoint get (m : t) (k : jsstring) : option V :=
  match m with
  | [] => None
  | (k', v) :: m' => if String_eqb k' k then Some v else get m' k
  end.

Definition has (m : t) (k : jsstring) : bool :=
  match get m k with Some _ => true | None => false end.

Fixpoint set (m : t) (k : jsstring) (v : V) : t :=
  match m with
  | [] => [(k, v)]
  | (k', v') :: m' =>
      if String_eqb k' k then (k', v) :: m' else (k', v') :: set m' k v
  end.

(** [m.delete(k)]: whether the key was present, and the map without it. *)
Fixpoint delete (m : t) (k : jsstring) : bool * t :=
  match m with
  | [] => (false, [])
  | (k', v) :: m' =>
      if String_eqb k' k then (true, m')
      else let '(found, rest) := delete m' k in (found, (k', v) :: rest)
  end.

(** [Array.from(m.values())] *)
Definition values (m : t) : list V := map snd m.

Definition keys (m : t) : list jsstring := map fst m.

End WithValues.
Arguments t V : clear implicits.
End JSMap.

(** [l.sort(compareFn)] for a comparator that is a consistent order: the
    sort is stable, so its result is the one arrangement that is ordered by
    the comparator and keeps equal elements in their original order;
    inserting from the right computes it, whichever algorithm the engine
    runs. *)
Fixpoint insertSorted {A : Type} (compareFn : A -> A -> Z) (x : A) (l : list A)
  : list A :=
  match l with
  | [] => [x]
  | y :: l' =>
      if (compareFn x y <=? 0)%Z then x :: l else y :: insertSorted compareFn x l'
  end.

Definition sort {A : Type} (compareFn : A -> A -> Z) (l : list A) : list A :=
  fold_right (insertSorted compareFn) [] l.

(** [new Date(d).getTime()] for a stored date or [null] ([new Date(null)]
    is the epoch). *)
Definition getTime (d : option Z) : Z :=
  match d with Some t => t | None => 0%Z end.

(** ** The in-memory storage (class [MemStorage] of [server/storage.ts])

    The tables the routes below read and write.  [randomUUID()] and
    [new Date()] are inputs of the methods that call them ([id], [now]).
    The tables of users, privacy budgets, security logs, AI models and
    training datasets follow the same pattern and are not modelled. *)

Module Device.
Record t : Type := {
  id : jsstring;
  name : jsstring;
  status : jsstring;
  location : option jsstring;
  lastSeen : option Z;
  uptime : option float;
  capabilities : Json;
  securityLevel : option jsstring
}.
End Device.

(** [InsertDevice]: what [insertDeviceSchema] lets through. *)
Module InsertDevice.
Record t : Type := {
  name : jsstring;
  status : Optional jsstring;
  location : Optional jsstring;
  uptime : Optional float;
  capabilities : option Json;
  securityLevel : Optional jsstring
}.
End InsertDevice.

(** [Partial<Device>]: each property present ([Some]) or not. *)
Module PartialDevice.
Record t : Type := {
  id : option jsstring;
  name : option jsstring;
  status : option jsstring;
  location : option (option jsstring);
  lastSeen : option (option Z);
  uptime : option (option float);
  capabilities : option Json;
  securityLevel : option (option jsstring)
}.
End PartialDevice.

Module FLRound.
Record t : Type := {
  id : jsstring;
  roundNumber : Z;
  algorithm : jsstring;
  status : jsstring;
  totalClients : option Z;
  participatingClients : option Z;
  convergenceMetric : option float;
  accuracy : option float;
  precision : option float;
  recall : option float;
  privacyBudget : option float;
  startedAt : option Z;
  completedAt : option Z;
  aggregationMethod : option jsstring
}.
End FLRound.

Module InsertFLRound.
Record t : Type := {
  roundNumber : Z;
  algorithm : Optional jsstring;
  status : Optional jsstring;
  totalClients : Optional Z;
  participatingClients : Optional Z;
  convergenceMetric : Optional float;
  accuracy : Optional float;
  precision : Optional float;
  recall : Optional float;
  privacyBudget : Optional float;
  aggregationMethod : Optional jsstring
}.
End InsertFLRound.

Module Anomaly.
Record t : Type := {
  id : jsstring;
  deviceId : option jsstring;
  type : jsstring;
  severity : Optional jsstring;
  confidence : float;
  description : option jsstring;
  metadata : Json;
  imageUrl : option jsstring;
  detectedAt : option Z;
  privacyImpact : Json;
  actionsTaken : Json
}.
End Anomaly.

Module InsertAnomaly.
Record t : Type := {
  deviceId : Optional jsstring;
  type : jsstring;
  severity : Optional jsstring;
  confidence : float;
  description : Optional jsstring;
  metadata : option Json;
  imageUrl : Optional jsstring;
  privacyImpact : option Json;
  actionsTaken : option Json
}.
End InsertAnomaly.

Module SystemSettings.
Record t : Type := {
  id : jsstring;
  key : jsstring;
  value : jsstring;
  description : Optional jsstring;
  category : Optional jsstring;
  updatedAt : option Z
}.
End SystemSettings.

Module InsertSystemSettings.
Record t : Type := {
  key : jsstring;
  value : jsstring;
  description : Optional jsstring;
  category : Optional jsstring
}.
End InsertSystemSettings.

(** What the server keeps in [analysisResults]: a JSON value, or the
    object [analyzeFile] returned. *)
Inductive Analysis : Type :=
  | AnalysisJson (j : Json)
  | AnalysisOf (r : AnalysisResult).

Module UploadedFile.
Record t : Type := {
  id : jsstring;
  filename : jsstring;
  originalName : jsstring;
  mimeType : jsstring;
  size : Z;
  path : jsstring;
  uploadedBy : option jsstring;
  deviceId : option jsstring;
  status : jsstring;
  analysisResults : Analysis;
  uploadedAt : option Z;
  imageUrl : jsstring
}.
End UploadedFile.

Module InsertUploadedFile.
Record t : Type := {
  filename : jsstring;
  originalName : jsstring;
  mimeType : jsstring;
  size : Z;
  path : jsstring;
  uploadedBy : Optional jsstring;
  deviceId : Optional jsstring;
  status : Optional jsstring;
  analysisResults : option Json
}.
End InsertUploadedFile.

Module PartialUploadedFile.
Record t : Type := {
  id : option jsstring;
  filename : option jsstring;
  originalName : option jsstring;
  mimeType : option jsstring;
  size : option Z;
  path : option jsstring;
  uploadedBy : option (option jsstring);
  deviceId : option (option jsstring);
  status : option jsstring;
  analysisResults : option Analysis;
  uploadedAt : option (option Z);
  imageUrl : option jsstring
}.
(** [{ status, analysisResults }] *)
Definition statusAndResults (s : jsstring) (a : Analysis) : t :=
  {| id := None; filename := None; originalName := None; mimeType := None;
     size := None; path := None; uploadedBy := None; deviceId := None;
     status := Some s; analysisResults := Some a; uploadedAt := None;
     imageUrl := None |}.
End PartialUploadedFile.

(** A [Date] argument: [Invalid Date] has the time NaN. *)
Inductive DateValue : Type :=
  | InvalidDate
  | DateAt (ms : Z).

(** [{ ...x, ...updates }] on one property. *)
Definition spread {A : Type} (update : option A) (current : A) : A :=
  match update with Some v => v | None => current end.

Module MemStorage.

Record t : Type := {
  devices : JSMap.t Device.t;
  flRounds : JSMap.t FLRound.t;
  anomalies : JSMap.t Anomaly.t;
  systemSettings : JSMap.t SystemSettings.t;
  uploadedFiles : JSMap.t UploadedFile.t
}.

Definition withDevices (st : t) (m : JSMap.t Device.t) : t :=
  {| devices := m; flRounds := flRounds st; anomalies := anomalies st;
     systemSettings := systemSettings st; uploadedFiles := uploadedFiles st |}.
Definition withFLRounds (st : t) (m : JSMap.t FLRound.t) : t :=
  {| devices := devices st; flRounds := m; anomalies := anomalies st;
     systemSettings := systemSettings st; uploadedFiles := uploadedFiles st |}.
Definition withAnomalies (st : t) (m : JSMap.t Anomaly.t) : t :=
  {| devices := devices st; flRounds := flRounds st; anomalies := m;
     systemSettings := systemSettings st; uploadedFiles := uploadedFiles st |}.
Definition withSystemSettings (st : t) (m : JSMap.t SystemSettings.t) : t :=
  {| devices := devices st; flRounds := flRounds st; anomalies := anomalies st;
     systemSettings := m; uploadedFiles := uploadedFiles st |}.
Definition withUploadedFiles (st : t) (m : JSMap.t UploadedFile.t) : t :=
  {| devices := devices st; flRounds := flRounds st; anomalies := anomalies st;
     systemSettings := systemSettings st; uploadedFiles := m |}.

(** *** Devices (lines 323-358) *)

Definition getAllDevices (st : t) : list Device.t := JSMap.values (devices st).

Definition getDevice (st : t) (id : jsstring) : option Device.t :=
  JSMap.get (devices st) id.

Definition createDevice (id : jsstring) (now : Z) (insertDevice : InsertDevice.t)
    (st : t) : Device.t * t :=
  let device :=
    {| Device.id := id;
       Device.name := InsertDevice.name insertDevice;
       Device.status := orString (InsertDevice.status insertDevice) (js "offline");
       Device.location := orNullString (InsertDevice.location insertDevice);
       Device.lastSeen := Some now;
       Device.uptime := orNullNumber (InsertDevice.uptime insertDevice);
       Device.capabilities :=
         orJson (InsertDevice.capabilities insertDevice) (JObject []);
       Device.securityLevel :=
         Some (orString (InsertDevice.securityLevel insertDevice) (js "standard")) |} in
  (device, withDevices st (JSMap.set (devices st) id device)).

Definition updateDevice (now : Z) (id : jsstring) (updates : PartialDevice.t)
    (st : t) : option Device.t * t :=
  match JSMap.get (devices st) id with
  | None => (None, st)
  | Some device =>
      let updatedDevice :=
        {| Device.id := spread (PartialDevice.id updates) (Device.id device);
           Device.name := spread (PartialDevice.name updates) (Device.name device);
           Device.status := spread (PartialDevice.status updates) (Device.status device);
           Device.location :=
             spread (PartialDevice.location updates) (Device.location device);
           Device.lastSeen := Some now;
           Device.uptime := spread (PartialDevice.uptime updates) (Device.uptime device);
           Device.capabilities :=
             spread (PartialDevice.capabilities updates) (Device.capabilities device);
           Device.securityLevel :=
             spread (PartialDevice.securityLevel updates)
               (Device.securityLevel device) |} in
      (Some updatedDevice, withDevices st (JSMap.set (devices st) id updatedDevice))
  end.

Definition deleteDevice (id : jsstring) (st : t) : bool * t :=
  let '(found, m) := JSMap.delete (devices st) id in (found, withDevices st m).

(** *** FL rounds (lines 361-389) *)

Definition getAllFLRounds (st : t) : list FLRound.t :=
  sort (fun a b => (FLRound.roundNumber b - FLRound.roundNumber a)%Z)
    (JSMap.values (flRounds st)).

Definition getFLRound (st : t) (id : jsstring) : option FLRound.t :=
  JSMap.get (flRounds st) id.

Definition createFLRound (id : jsstring) (now : Z) (insertRound : InsertFLRound.t)
    (st : t) : FLRound.t * t :=
  let round :=
    {| FLRound.id := id;
       FLRound.status := orString (InsertFLRound.status insertRound) (js "active");
       FLRound.roundNumber := InsertFLRound.roundNumber insertRound;
       FLRound.algorithm := orString (InsertFLRound.algorithm insertRound) (js "fedavg");
       FLRound.totalClients := orNullInteger (InsertFLRound.totalClients insertRound);
       FLRound.participatingClients :=
         orNullInteger (InsertFLRound.participatingClients insertRound);
       FLRound.convergenceMetric :=
         orNullNumber (InsertFLRound.convergenceMetric insertRound);
       FLRound.accuracy := orNullNumber (InsertFLRound.accuracy insertRound);
       FLRound.precision := orNullNumber (InsertFLRound.precision insertRound);
       FLRound.recall := orNullNumber (InsertFLRound.recall insertRound);
       FLRound.privacyBudget := orNullNumber (InsertFLRound.privacyBudget insertRound);
       FLRound.aggregationMethod :=
         orNullString (InsertFLRound.aggregationMethod insertRound);
       FLRound.startedAt := Some now;
       FLRound.completedAt := None |} in
  (round, withFLRounds st (JSMap.set (flRounds st) id round)).

(** *** Anomalies (lines 401-435) *)

Definition getAllAnomalies (st : t) : list Anomaly.t :=
  sort (fun a b => (getTime (Anomaly.detectedAt b) - getTime (Anomaly.detectedAt a))%Z)
    (JSMap.values (anomalies st)).

Definition getAnomaly (st : t) (id : jsstring) : option Anomaly.t :=
  JSMap.get (anomalies st) id.

Definition createAnomaly (id : jsstring) (now : Z) (insertAnomaly : InsertAnomaly.t)
    (st : t) : Anomaly.t * t :=
  let anomaly :=
    {| Anomaly.id := id;
       Anomaly.type := InsertAnomaly.type insertAnomaly;
       Anomaly.description := orNullString (InsertAnomaly.description insertAnomaly);
       Anomaly.deviceId := orNullString (InsertAnomaly.deviceId insertAnomaly);
       Anomaly.severity := InsertAnomaly.severity insertAnomaly;
       Anomaly.confidence := InsertAnomaly.confidence insertAnomaly;
       Anomaly.imageUrl := orNullString (InsertAnomaly.imageUrl insertAnomaly);
       Anomaly.detectedAt := Some now;
       Anomaly.privacyImpact :=
         orJson (InsertAnomaly.privacyImpact insertAnomaly) (JObject []);
       Anomaly.actionsTaken :=
         orJson (InsertAnomaly.actionsTaken insertAnomaly) (JObject []);
       Anomaly.metadata := orJson (InsertAnomaly.metadata insertAnomaly) (JObject []) |} in
  (anomaly, withAnomalies st (JSMap.set (anomalies st) id anomaly)).

(** A comparison with the time of a [Date] argument; with NaN it is
    false. *)
Definition timeGe (t : Z) (d : DateValue) : bool :=
  match d with InvalidDate => false | DateAt ms => (ms <=? t)%Z end.
Definition timeLe (t : Z) (d : DateValue) : bool :=
  match d with InvalidDate => false | DateAt ms => (t <=? ms)%Z end.

Definition getAnomaliesByTimeRange (startDate endDate : DateValue) (st : t)
  : list Anomaly.t :=
  filter (fun anomaly =>
            let detectedTime := getTime (Anomaly.detectedAt anomaly) in
            timeGe detectedTime startDate && timeLe detectedTime endDate)
    (JSMap.values (anomalies st)).

(** *** System settings, keyed by [key] (lines 492-510) *)

Definition getAllSettings (st : t) : list SystemSettings.t :=
  JSMap.values (systemSettings st).

Definition getSetting (st : t) (key : jsstring) : option SystemSettings.t :=
  JSMap.get (systemSettings st) key.

(** [freshId] is what [randomUUID()] answers if it is called. *)
Definition setSetting (freshId : jsstring) (now : Z)
    (insertSetting : InsertSystemSettings.t) (st : t) : SystemSettings.t * t :=
  let existing := JSMap.get (systemSettings st) (InsertSystemSettings.key insertSetting) in
  let id :=
    match existing with
    | Some e => if truthyString (SystemSettings.id e) then SystemSettings.id e else freshId
    | None => freshId
    end in
  let setting :=
    {| SystemSettings.key := InsertSystemSettings.key insertSetting;
       SystemSettings.value := InsertSystemSettings.value insertSetting;
       SystemSettings.description := InsertSystemSettings.description insertSetting;
       SystemSettings.category := InsertSystemSettings.category insertSetting;
       SystemSettings.id := id;
       SystemSettings.updatedAt := Some now |} in
  (setting,
   withSystemSettings st
     (JSMap.set (systemSettings st) (InsertSystemSettings.key insertSetting) setting)).

(** *** Uploaded files (lines 596-633) *)

Definition getAllUploadedFiles (st : t) : list UploadedFile.t :=
  sort (fun a b =>
          (getTime (UploadedFile.uploadedAt b) - getTime (UploadedFile.uploadedAt a))%Z)
    (JSMap.values (uploadedFiles st)).

Definition getUploadedFile (st : t) (id : jsstring) : option UploadedFile.t :=
  JSMap.get (uploadedFiles st) id.

Definition createUploadedFile (id : jsstring) (now : Z)
    (insertFile : InsertUploadedFile.t) (st : t) : UploadedFile.t * t :=
  let file :=
    {| UploadedFile.id := id;
       UploadedFile.path := InsertUploadedFile.path insertFile;
       UploadedFile.size := InsertUploadedFile.size insertFile;
       UploadedFile.status := orString (InsertUploadedFile.status insertFile) (js "uploaded");
       UploadedFile.deviceId := orNullString (InsertUploadedFile.deviceId insertFile);
       UploadedFile.filename := InsertUploadedFile.filename insertFile;
       UploadedFile.originalName := InsertUploadedFile.originalName insertFile;
       UploadedFile.mimeType := InsertUploadedFile.mimeType insertFile;
       UploadedFile.uploadedBy := orNullString (InsertUploadedFile.uploadedBy insertFile);
       UploadedFile.analysisResults :=
         AnalysisJson (orJson (InsertUploadedFile.analysisResults insertFile) (JObject []));
       UploadedFile.uploadedAt := Some now;
       UploadedFile.imageUrl := js "/uploads/" ++ InsertUploadedFile.filename insertFile |} in
  (file, withUploadedFiles st (JSMap.set (uploadedFiles st) id file)).

Definition updateUploadedFile (id : jsstring) (updates : PartialUploadedFile.t)
    (st : t) : option UploadedFile.t * t :=
  match JSMap.get (uploadedFiles st) id with
  | None => (None, st)
  | Some file =>
      let updatedFile :=
        {| UploadedFile.id := spread (PartialUploadedFile.id updates) (UploadedFile.id file);
           UploadedFile.filename :=
             spread (PartialUploadedFile.filename updates) (UploadedFile.filename file);
           UploadedFile.originalName :=
             spread (PartialUploadedFile.originalName updates)
               (UploadedFile.originalName file);
           UploadedFile.mimeType :=
             spread (PartialUploadedFile.mimeType updates) (UploadedFile.mimeType file);
           UploadedFile.size :=
             spread (PartialUploadedFile.size updates) (UploadedFile.size file);
           UploadedFile.path :=
             spread (PartialUploadedFile.path updates) (UploadedFile.path file);
           UploadedFile.uploadedBy :=
             spread (PartialUploadedFile.uploadedBy updates) (UploadedFile.uploadedBy file);
           UploadedFile.deviceId :=
             spread (PartialUploadedFile.deviceId updates) (UploadedFile.deviceId file);
           UploadedFile.status :=
             spread (PartialUploadedFile.status updates) (UploadedFile.status file);
           UploadedFile.analysisResults :=
             spread (PartialUploadedFile.analysisResults updates)
               (UploadedFile.analysisResults file);
           UploadedFile.uploadedAt :=
             spread (PartialUploadedFile.uploadedAt updates) (UploadedFile.uploadedAt file);
           UploadedFile.imageUrl :=
             spread (PartialUploadedFile.imageUrl updates) (UploadedFile.imageUrl file) |} in
      (Some updatedFile,
       withUploadedFiles st (JSMap.set (uploadedFiles st) id updatedFile))
  end.

End MemStorage.

(** The keys of the devices table are distinct, as the keys of a Map
    are. *)
Definition distinctDeviceKeys (st : MemStorage.t) : Prop :=
  NoDup (JSMap.keys (MemStorage.devices st)).

(** ** Other routes of [server/routes.ts] *)

(** *** GET /api/status (lines 464-505) *)

Record StatusReport : Type := {
  devices_total : Z;
  devices_online : Z;
  devices_participating : Z;
  devices_offline : Z;
  fl_activeRounds : Z;
  fl_totalRounds : Z;
  fl_currentRound : Z;
  security_recentAnomalies : Z;
  security_privacyBudgetRemaining : float;
  security_systemHealth : jsstring;
  performance_accuracy : float;
  performance_precision : float;
  performance_recall : float
}.

(** [l.length] *)
Definition lengthOf {A : Type} (l : list A) : Z := Z.of_nat (List.length l).

(** [x || d] on a nullable number. *)
Definition orNumber (x : option float) (d : float) : float :=
  match x with
  | Some v => if truthyNumber v then v else d
  | None => d
  end.

(** The object the handler answers with ([now] is [Date.now()]); no call
    in its [try] block can fail on the in-memory storage. *)
Definition statusReport (now : Z) (st : MemStorage.t) : StatusReport :=
  let devices := MemStorage.getAllDevices st in
  let rounds := MemStorage.getAllFLRounds st in
  let anomalies := MemStorage.getAllAnomalies st in
  let onlineDevices :=
    lengthOf (filter (fun d => String_eqb (Device.status d) (js "online")) devices) in
  let participatingDevices :=
    lengthOf (filter (fun d => String_eqb (Device.status d) (js "participating")) devices) in
  let activeRounds :=
    lengthOf (filter (fun r => String_eqb (FLRound.status r) (js "active")) rounds) in
  let recentAnomalies :=
    lengthOf (filter (fun a =>
                        match Anomaly.detectedAt a with
                        | Some t => (now - 24 * 60 * 60 * 1000 <? t)%Z
                        | None => false
                        end) anomalies) in
  {| devices_total := lengthOf devices;
     devices_online := onlineDevices;
     devices_participating := participatingDevices;
     devices_offline := (lengthOf devices - onlineDevices)%Z;
     fl_activeRounds := activeRounds;
     fl_totalRounds := lengthOf rounds;
     fl_currentRound :=
       match find (fun r => String_eqb (FLRound.status r) (js "active")) rounds with
       | Some r => if truthyInteger (FLRound.roundNumber r)
                   then FLRound.roundNumber r else 0%Z
       | None => 0%Z
       end;
     security_recentAnomalies := recentAnomalies;
     security_privacyBudgetRemaining := 4.2;
     security_systemHealth := js "good";
     performance_accuracy :=
       orNumber (match rounds with r :: _ => FLRound.accuracy r | [] => None end) 0.947;
     performance_precision :=
       orNumber (match rounds with r :: _ => FLRound.precision r | [] => None end) 0.912;
     performance_recall :=
       orNumber (match rounds with r :: _ => FLRound.recall r | [] => None end) 0.895 |}.

(** *** POST /api/upload (lines 643-721) *)

(** The fields of [Express.Multer.File] the handler reads. *)
Record MulterFile : Type := {
  mf_originalname : jsstring;
  mf_mimetype : jsstring;
  mf_size : Z;
  mf_filename : jsstring;
  mf_path : jsstring
}.

(** The text fields of the multipart body the handler reads. *)
Record UploadBody : Type := {
  body_uploadedBy : option jsstring;
  body_deviceId : option jsstring
}.

Definition optional {A : Type} (x : option A) : Optional A :=
  match x with Some a => Present a | None => Absent end.

Inductive UploadResponse : Type :=
  | Status400 (error : jsstring)
  | Status201 (uploadedFile : UploadedFile.t).

(** Lines 644-661 and 716: the synchronous part of the handler. *)
Definition uploadHandler (id : jsstring) (now : Z) (reqFile : option MulterFile)
    (body : UploadBody) (st : MemStorage.t) : UploadResponse * MemStorage.t :=
  match reqFile with
  | None => (Status400 (js "No file uploaded"), st)
  | Some file =>
      let fileData :=
        {| InsertUploadedFile.filename := mf_filename file;
           InsertUploadedFile.originalName := mf_originalname file;
           InsertUploadedFile.mimeType := mf_mimetype file;
           InsertUploadedFile.size := mf_size file;
           InsertUploadedFile.path := mf_path file;
           InsertUploadedFile.uploadedBy :=
             Present (orString (optional (body_uploadedBy body)) (js "anonymous"));
           InsertUploadedFile.deviceId := optional (body_deviceId body);
           InsertUploadedFile.status := Present (js "uploaded");
           InsertUploadedFile.analysisResults := Some (JObject []) |} in
      let '(uploadedFile, st') := MemStorage.createUploadedFile id now fileData st in
      (Status201 uploadedFile, st')
  end.

(** What [broadcast] is given. *)
Inductive MessageData : Type :=
  | AnomalyData (anomaly : Anomaly.t)
  | FileAnalyzed (fileId : jsstring) (analysisResults : AnalysisResult).

Record Message : Type := {
  messageType : jsstring;
  messageData : MessageData;
  messageTimestamp : jsstring
}.

Definition get_modelUsed (r : AnalysisResult) : jsstring :=
  match r with Unsupported u => u_modelUsed u | Classified c => modelUsed c end.

(** The clock readings of the analysis callback, in the order taken. *)
Record CallbackClock : Type := {
  atAnalysis : Z;
  atAnomaly : Z;
  atAnomalyBroadcast : Z;
  atFileBroadcast : Z
}.

(** Lines 665-714: the callback of the timer, with [analyzeFile] on its
    fallback path.  On that path nothing in the [try] block fails, so the
    [catch] branch is not entered.  The result is the storage and the
    messages broadcast, in order. *)
Definition analysisCallback
    (toLowerCase : jsstring -> jsstring) (toFixed : float -> N -> jsstring)
    (toISOString : Z -> jsstring)
    (clock : CallbackClock) (anomalyId : jsstring)
    (uploadedFileId : jsstring) (deviceId : option jsstring)
    (fileForAnalysis : MulterFile) (st : MemStorage.t)
  : MemStorage.t * list Message :=
  let analysisResults :=
    analyzeFile toLowerCase toFixed toISOString (atAnalysis clock)
      {| originalname := mf_originalname fileForAnalysis;
         mimetype := mf_mimetype fileForAnalysis |} in
  let '(_, st1) :=
    MemStorage.updateUploadedFile uploadedFileId
      (PartialUploadedFile.statusAndResults (js "analyzed") (AnalysisOf analysisResults))
      st in
  let '(st2, sent) :=
    if get_anomalyDetected analysisResults then
      let '(anomaly, st2) :=
        MemStorage.createAnomaly anomalyId (atAnomaly clock)
          {| InsertAnomaly.deviceId :=
               Present (orString (optional deviceId) (js "upload-device"));
             InsertAnomaly.type :=
               orString (optional (option_map typeString (get_anomalyType analysisResults)))
                 (js "unknown");
             InsertAnomaly.severity :=
               Present (orString
                          (optional (option_map severityString
                                       (get_severity analysisResults)))
                          (js "medium"));
             InsertAnomaly.confidence :=
               (if truthyNumber (get_confidence analysisResults)
                then get_confidence analysisResults else 0.5)%float;
             InsertAnomaly.description :=
               Present (orString (optional (get_description analysisResults))
                          (js "Anomaly detected"));
             InsertAnomaly.metadata :=
               Some (JObject
                       [ (js "uploadedFileId", JString uploadedFileId);
                         (js "fileName", JString (mf_originalname fileForAnalysis));
                         (js "analysisModel", JString (get_modelUsed analysisResults)) ]);
             InsertAnomaly.imageUrl :=
               Present (js "/uploads/" ++ mf_filename fileForAnalysis);
             InsertAnomaly.privacyImpact :=
               Some (JObject [ (js "epsilon", JNumber 0.1);
                               (js "delta", JNumber 0.00001) ]);
             InsertAnomaly.actionsTaken :=
               Some (JArray [ JString (js "file_uploaded");
                              JString (js "analysis_completed") ]) |}
          st1 in
      (st2, [ {| messageType := js "anomaly_detected";
                 messageData := AnomalyData anomaly;
                 messageTimestamp := toISOString (atAnomalyBroadcast clock) |} ])
    else (st1, []) in
  (st2,
   sent ++ [ {| messageType := js "file_analyzed";
                messageData := FileAnalyzed uploadedFileId analysisResults;
                messageTimestamp := toISOString (atFileBroadcast clock) |} ]).

(** *** Upload filter and GET /uploads/:filename *)

(** [/jpeg|jpg|png|gif|mp4|avi|mov|mkv/.test(s)] (line 103): an unanchored
    alternation of literals. *)
Definition allowedTypes_test (s : jsstring) : bool :=
  existsb (fun w => includes s (js w))
    ["jpeg"; "jpg"; "png"; "gif"; "mp4"; "avi"; "mov"; "mkv"]%string.

(** Lines 102-112: whether the upload is let through ([cb(null, true)]);
    otherwise the callback gets the error "Only images and videos are
    allowed".  [extname] is [path.extname]. *)
Definition fileFilter (extname toLowerCase : jsstring -> jsstring)
    (originalname mimetype : jsstring) : bool :=
  let extnameOk := allowedTypes_test (toLowerCase (extname originalname)) in
  let mimetypeOk := allowedTypes_test mimetype in
  mimetypeOk && extnameOk.

(** Lines 751-760, on [ext = path.extname(filename).toLowerCase()]. *)
Definition contentTypeFor (ext : jsstring) : jsstring :=
  if existsb (String_eqb ext) [js ".jpg"; js ".jpeg"] then js "image/jpeg"
  else if String_eqb ext (js ".png") then js "image/png"
  else if String_eqb ext (js ".gif") then js "image/gif"
  else if String_eqb ext (js ".mp4") then js "video/mp4"
  else if String_eqb ext (js ".avi") then js "video/x-msvideo"
  else if String_eqb ext (js ".mov") then js "video/quicktime"
  else if String_eqb ext (js ".mkv") then js "video/x-matroska"
  else js "application/octet-stream".

(** [s.split(sep)] for a separator of one code unit. *)
Fixpoint splitOn (sep : codeUnit) (s : jsstring) : list jsstring :=
  match s with
  | [] => [[]]
  | c :: s' =>
      if N.eqb c sep then [] :: splitOn sep s'
      else match splitOn sep s' with
           | part :: parts => (c :: part) :: parts
           | [] => [[c]]
           end
  end.

(** White space and line terminators, as [parseInt] skips them. *)
Definition isWhiteSpace (c : codeUnit) : bool :=
  existsb (N.eqb c)
    [9; 10; 11; 12; 13; 32; 160; 5760; 8232; 8233; 8239; 8287; 12288; 65279]%N
  || ((8192 <=? c)%N && (c <=? 8202)%N).

Fixpoint skipWhiteSpace (s : jsstring) : jsstring :=
  match s with
  | c :: s' => if isWhiteSpace c then skipWhiteSpace s' else s
  | [] => []
  end.

(** The value of the longest prefix of decimal digits, if it is not
    empty. *)
Fixpoint digitsValue (acc : option Z) (s : jsstring) : option Z :=
  match s with
  | c :: s' =>
      if (48 <=? c)%N && (c <=? 57)%N
      then digitsValue
             (Some (10 * match acc with Some a => a | None => 0 end
                    + Z.of_N (c - 48))%Z) s'
      else acc
  | [] => acc
  end.

(** The Number for an integer: the binary64 value nearest to it, ties to
    even (ECMAScript's conversion of a mathematical value to a Number). *)
Definition canon (z : Z) : spec_float := binary_normalize prec emax z 0 false.
Definition numberOfZ (z : Z) : float := SF2Prim (canon z).

(** [parseInt(s, 10)]: white space is skipped, a sign is read, and the
    longest prefix of decimal digits is converted; without a digit the
    result is NaN.  (Past the 20th significant digit an implementation may
    read zeros; here every digit counts.) *)
Definition parseInt10 (s : jsstring) : float :=
  let number (v : option Z) : float :=
    match v with
    | Some n => numberOfZ n
    | None => PrimFloat.nan
    end in
  match skipWhiteSpace s with
  | 45%N :: s' => (- number (digitsValue None s'))%float
  | 43%N :: s' => number (digitsValue None s')
  | s' => number (digitsValue None s')
  end.

(** Lines 770-773: [start], [end] and [chunksize] of a range request, on
    the header and [stats.size]. *)
Definition rangeOf (range : jsstring) (fileSize : float) : float * float * float :=
  let parts := splitOn 45%N (replace range (js "bytes=") []) in
  let start := parseInt10 (nth 0 parts []) in
  let end_ :=
    match nth_error parts 1 with
    | Some p => if truthyString p then parseInt10 p else (fileSize - 1)%float
    | None => (fileSize - 1)%float
    end in
  let chunksize := ((end_ - start) + 1)%float in
  (start, end_, chunksize).

(** ** The simulation services ([server/services/clientSimulator.ts] and
    [flOrchestrator.ts])

    [Math.random()] and the clock are inputs: [rand i] is the number the
    i-th call of [Math.random()] in the method returns, and [now i] the
    time [new Date()] reads while the i-th client is handled. *)

Module ClientSimulator.

Record Client : Type := {
  id : jsstring;
  status : jsstring;
  lastSeen : Z
}.

Record t : Type := {
  isRunning : bool;
  clients : list Client
}.

(** [`client-${i}`] *)
Definition clientId (i : nat) : jsstring :=
  js "client-" ++ Builtins.digits 1 (N.of_nat i).

(** The loop of [initializeClients], for [i] from 1 to 10; the i-th pass
    makes the i-th call of [Math.random()]. *)
Definition initializeClients (rand : nat -> float) (now : nat -> Z) : list Client :=
  map (fun i =>
         {| id := clientId i;
            status := if (0.3 <? rand i)%float then js "online" else js "offline";
            lastSeen := now i |})
    (seq 1 10).

Definition constructor (rand : nat -> float) (now : nat -> Z) : t :=
  {| isRunning := false; clients := initializeClients rand now |}.

(** The state change of [startSimulation] (the interval timer it installs
    calls [simulateClientActivity] every 10 seconds). *)
Definition startSimulation (sim : t) : t :=
  if isRunning sim then sim
  else {| isRunning := true; clients := clients sim |}.

Definition stopSimulation (sim : t) : t :=
  {| isRunning := false; clients := clients sim |}.

(** The body of the [forEach] callback on one client. *)
Definition activity (rand : float) (now : Z) (client : Client) : Client :=
  if (rand <? 0.1)%float then
    {| id := id client;
       status := if String_eqb (status client) (js "online")
                 then js "offline" else js "online";
       lastSeen := now |}
  else if (rand <? 0.15)%float && String_eqb (status client) (js "online") then
    {| id := id client; status := js "participating"; lastSeen := now |}
  else client.

(** [clients.forEach] with the i-th call of [Math.random()] made for the
    i-th client (counted from [i]). *)
Fixpoint forEachClient (rand : nat -> float) (now : nat -> Z) (i : nat)
    (l : list Client) : list Client :=
  match l with
  | [] => []
  | client :: l' =>
      activity (rand i) (now i) client :: forEachClient rand now (S i) l'
  end.

Definition simulateClientActivity (rand : nat -> float) (now : nat -> Z) (sim : t) : t :=
  if negb (isRunning sim) then sim
  else {| isRunning := isRunning sim;
          clients := forEachClient rand now 0 (clients sim) |}.

Definition getOnlineCount (sim : t) : Z :=
  lengthOf (filter (fun c => String_eqb (status c) (js "online")
                             || String_eqb (status c) (js "participating"))
              (clients sim)).

Definition getParticipatingCount (sim : t) : Z :=
  lengthOf (filter (fun c => String_eqb (status c) (js "participating")) (clients sim)).

(** A run of the simulator after construction: timer ticks with their
    random numbers and clock, and calls of start and stop. *)
Inductive Event : Type :=
  | Start
  | Stop
  | Tick (rand : nat -> float) (now : nat -> Z).

Definition fire (e : Event) (sim : t) : t :=
  match e with
  | Start => startSimulation sim
  | Stop => stopSimulation sim
  | Tick rand now => simulateClientActivity rand now sim
  end.

Definition run (events : list Event) (sim : t) : t :=
  fold_left (fun s e => fire e s) events sim.

End ClientSimulator.

Module FLOrchestrator.

Record t : Type := {
  isTraining : bool;
  currentRound : Z;
  maxRounds : Z
}.

Definition constructor : t :=
  {| isTraining := false; currentRound := 0; maxRounds := 20 |}.

Definition stopTraining (o : t) : t :=
  {| isTraining := false; currentRound := currentRound o; maxRounds := maxRounds o |}.

(** [startTraining] up to its [await]: the new state, and whether the
    call goes on (it then waits a second and calls [trainingLoop]). *)
Definition startTraining (o : t) : t * bool :=
  if isTraining o then (o, false)
  else ({| isTraining := true; currentRound := 0; maxRounds := maxRounds o |}, true).

(** [trainingLoop] from one test of the [while] condition to its next
    [await] or to its end: the new state, and whether the loop goes on.
    The awaited steps of a round change nothing of the object. *)
Definition trainingLoop (o : t) : t * bool :=
  if isTraining o && (currentRound o <? maxRounds o)%Z then
    ({| isTraining := isTraining o;
        currentRound := (currentRound o + 1)%Z;
        maxRounds := maxRounds o |}, true)
  else if isTraining o then (stopTraining o, false)
  else (o, false).

(** The object with the calls in flight: starts waiting out their first
    second, and loops waiting inside a round.  JavaScript runs each piece
    between two [await]s to completion, so a run is a sequence of such
    pieces. *)
Record System : Type := {
  object : t;
  startsWaiting : nat;
  loopsWaiting : nat
}.

Inductive Event : Type :=
  | CallStart       (* a caller invokes [startTraining] *)
  | CallStop        (* a caller invokes [stopTraining] *)
  | ResumeStart     (* a waiting start wakes up and enters [trainingLoop] *)
  | ResumeLoop.     (* a waiting loop wakes up and tests its condition *)

Definition initial : System :=
  {| object := constructor; startsWaiting := 0; loopsWaiting := 0 |}.

Definition fire (e : Event) (s : System) : System :=
  match e with
  | CallStart =>
      let '(o, goesOn) := startTraining (object s) in
      {| object := o;
         startsWaiting := if goesOn then S (startsWaiting s) else startsWaiting s;
         loopsWaiting := loopsWaiting s |}
  | CallStop =>
      {| object := stopTraining (object s);
         startsWaiting := startsWaiting s;
         loopsWaiting := loopsWaiting s |}
  | ResumeStart =>
      match startsWaiting s with
      | O => s
      | S n =>
          let '(o, goesOn) := trainingLoop (object s) in
          {| object := o;
             startsWaiting := n;
             loopsWaiting := if goesOn then S (loopsWaiting s) else loopsWaiting s |}
      end
  | ResumeLoop =>
      match loopsWaiting s with
      | O => s
      | S n =>
          let '(o, goesOn) := trainingLoop (object s) in
          {| object := o;
             startsWaiting := startsWaiting s;
             loopsWaiting := if goesOn then S n else n |}
      end
  end.

Definition run (events : list Event) (s : System) : System :=
  fold_left (fun s e => fire e s) events s.

End FLOrchestrator.

(** ** More checks on the residues *)

(** The two categories whose ladder severity is "low". *)
Definition lowCategory (t : AnomalyType) : bool :=
  match t with
  | loitering | normal => true
  | _ => false
  end.

Definition isLow (s : Severity) : bool :=
  match s with low => true | _ => false end.

Definition isCriticalOrHigh (s : Severity) : bool :=
  match s with critical | high => true | _ => false end.

(** How category, raw confidence and keywords go together in a case: the
    raw confidence is below 0.50 exactly for the low categories, which are
    exactly those of ladder severity "low"; the reported detection flag is
    set exactly for the categories other than normal; a weapon, burglary
    or fight keyword gives an anomaly of severity critical or high; and
    the displayed confidence is a truthy number. *)
Definition shapeCheck (iv w b f m : bool) (k : N) : bool :=
  let s := fst (ladder iv w b f m (rnd k)) in
  let c := snd (ladder iv w b f m (rnd k)) in
  let d := Math_min 0.99 (Math_max 0.35 c) in
  (Bool.eqb (c <? 0.50) (lowCategory (type s))
   && Bool.eqb (isAnomalyOf s c) (negb (lowCategory (type s)))
   && Bool.eqb (isAnomalyOf s c || (0.35 <=? c))
        (negb (AnomalyType_eqb (type s) normal))
   && Bool.eqb (isLow (sa_severity s)) (lowCategory (type s))
   && (if w || b || f then isAnomalyOf s c && isCriticalOrHigh (sa_severity s)
       else true)
   && truthyNumber d)%float.

(** The closed forms of the integer fields: the processing time, the
    number of frames and the number of boxes. *)
Definition integerCheck (iv : bool) (k : N) : bool :=
  ((Math_floor (if iv then 2500 + rnd k * 2000 else 1500 + rnd k * 1000)%float
    =? (if iv then 2500 + 2 * Z.of_N k else 1500 + Z.of_N k))
   && (Math_floor (5 + rnd k * 10)%float =? 5 + Z.of_N k / 100)
   && (Math_floor (ofN ((k + 10) mod 1000) / 1000 * 2)%float + 1
       =? (if ((k + 10) mod 1000 <? 500)%N then 1 else 2)))%Z.

(** The three statuses of a simulated client. *)
Definition clientStatus (s : jsstring) : Prop :=
  s = js "online" \/ s = js "offline" \/ s = js "participating".

(** The pieces of a second start issued after a stop while the first loop
    is still waiting. *)
Definition restart : list FLOrchestrator.Event :=
  [FLOrchestrator.CallStop; FLOrchestrator.CallStart; FLOrchestrator.ResumeStart].

(** The decimal notation of a sequence of digits, and its value. *)
Definition digitChars (ds : list N) : jsstring := map (fun d => (48 + d)%N) ds.
Definition digitsNumber (ds : list N) : Z :=
  fold_left (fun acc d => (10 * acc + Z.of_N d)%Z) ds 0%Z.

(** A storage with no entries, and a request to register a camera. *)
Definition emptyStorage : MemStorage.t :=
  {| MemStorage.devices := []; MemStorage.flRounds := [];
     MemStorage.anomalies := []; MemStorage.systemSettings := [];
     MemStorage.uploadedFiles := [] |}.

Definition camera (name : string) : InsertDevice.t :=
  {| InsertDevice.name := js name;
     InsertDevice.status := Present (js "online");
     InsertDevice.location := Absent;
     InsertDevice.uptime := Absent;
     InsertDevice.capabilities := None;
     InsertDevice.securityLevel := Absent |}.

(** Two cameras registered one after the other. *)
Definition twoCameras : MemStorage.t :=
  snd (MemStorage.createDevice (js "id-2") 20 (camera "Main Entrance Camera")
         (snd (MemStorage.createDevice (js "id-1") 10 (camera "Parking Lot Camera A")
                 emptyStorage))).

(** ** Basic facts *)

Lemma residues_complete : forall k : N, (k < 1000)%N -> In k residues.
Proof.
  intros k Hk. unfold residues.
  rewrite <- (N2Nat.id k). apply in_map. apply in_seq. lia.
Qed.

Lemma mod_1000_lt : forall seed : N, (seed mod 1000 < 1000)%N.
Proof. intros seed. apply N.mod_lt. discriminate. Qed.

Lemma in_bools : forall x : bool, In x bools.
Proof. intros [|]; simpl; auto. Qed.

Lemma everywhere_spec :
  forall p, everywhere p = true ->
  forall iv w b f m k, (k < 1000)%N -> p iv w b f m k = true.
Proof.
  intros p H iv w b f m k Hk. unfold everywhere in H.
  rewrite forallb_forall in H. specialize (H iv (in_bools iv)).
  rewrite forallb_forall in H. specialize (H w (in_bools w)).
  rewrite forallb_forall in H. specialize (H b (in_bools b)).
  rewrite forallb_forall in H. specialize (H f (in_bools f)).
  rewrite forallb_forall in H. specialize (H m (in_bools m)).
  rewrite forallb_forall in H. apply H. apply residues_complete. exact Hk.
Qed.

Lemma equal_on_residues :
  forall (A : Type) (g h : N -> A), map g residues = map h residues ->
  forall k, (k < 1000)%N -> g k = h k.
Proof.
  intros A g h H k Hk. apply residues_complete in Hk.
  revert H Hk. generalize residues as l.
  induction l as [|x l IH]; simpl; intros H Hin.
  - contradiction.
  - injection H as Hx Hl. destruct Hin as [->|Hin]; auto.
Qed.

(** The character-code sum of the program is the sum of the code units. *)
Lemma seedOf_sum : forall filename, seedOf filename = Spec.seed filename.
Proof.
  intros filename. unfold seedOf, reduce, split_chars, Spec.seed.
  assert (G : forall l a,
             fold_left (fun acc char => (acc + charCodeAt0 char)%N)
               (map (fun c : codeUnit => [c]) l) a
             = (a + fold_right N.add 0 l)%N).
  { induction l as [|c l IH]; intros a; simpl.
    - now rewrite N.add_0_r.
    - rewrite IH. lia. }
  rewrite G. reflexivity.
Qed.

(** The seed enters the bounding boxes only through its residue. *)
Lemma generateBoundingBoxes_residue :
  forall c s t a seed iv,
    generateBoundingBoxes c s t a seed iv
    = generateBoundingBoxes c s t a (seed mod 1000) iv.
Proof.
  intros c s t a seed iv. unfold generateBoundingBoxes.
  assert (E : forall off, ((seed mod 1000 + off) mod 1000 = (seed + off) mod 1000)%N)
    by (intros off; apply N.Div0.add_mod_idemp_l).
  rewrite !E. destruct (negb a); [reflexivity|].
  apply map_ext. intros i. rewrite !E. reflexivity.
Qed.

Lemma matches_some :
  forall lower filename words,
    Spec.matches lower filename words
    = some (fun w => includes (lower filename) w) (map js words).
Proof.
  intros lower filename words. unfold Spec.matches, some.
  induction words as [|w ws IH]; simpl.
  - reflexivity.
  - now rewrite IH.
Qed.

(** [analyzeMediaContent] is the ladder of the media kind, at the keyword
    flags of the file name and the residue of its seed. *)
Lemma analyzeMediaContent_ladder :
  forall lower filename mimeType,
    analyzeMediaContent lower filename mimeType
    = let iv := startsWith mimeType (js "video/") in
      let k := (seedOf filename mod 1000)%N in
      let kw := Spec.keywords lower filename in
      let l := ladder iv (Spec.weaponKw kw) (Spec.burglaryKw kw) (Spec.fightKw kw)
                 (Spec.movementKw kw) (rnd k) in
      {| selectedAnomaly := fst l;
         rawConfidence := snd l;
         deterministicRandom := rnd k;
         isVideo := iv |}.
Proof.
  intros lower filename mimeType.
  unfold analyzeMediaContent, ladder, rnd, Spec.keywords.
  cbn [Spec.weaponKw Spec.burglaryKw Spec.fightKw Spec.movementKw].
  rewrite !matches_some. cbn [map]. cbv zeta.
  destruct (startsWith mimeType (js "video/"));
    match goal with
    | |- (let '(_, _) := ?l in _) = _ => destruct l; reflexivity
    end.
Qed.

(** Rule 1 of either ladder is selected as soon as a weapon keyword
    matches, whatever the other keywords and whatever [r]. *)
Lemma weapon_keyword_first :
  forall iv b f m r, type (fst (ladder iv true b f m r)) = weapon_detected.
Proof. intros [|] b f m r; reflexivity. Qed.

(** The if-chains of the program select the first matching rule of the
    specification's lists. *)
Lemma firstMatch_ladder :
  forall (iv w b f m : bool) (r : float),
    match Spec.firstMatch (if iv then Spec.videoRules else Spec.imageRules)
            {| Spec.weaponKw := w; Spec.burglaryKw := b;
               Spec.fightKw := f; Spec.movementKw := m |} r with
    | Some rl => Some (Spec.category rl, Spec.ladderSeverity rl,
                       (Spec.base rl + r * Spec.slope rl)%float)
    | None => None
    end
    = Some (type (fst (ladder iv w b f m r)), sa_severity (fst (ladder iv w b f m r)),
            snd (ladder iv w b f m r)).
Proof.
  intros iv w b f m r. unfold ladder, videoLadder, imageLadder, Spec.firstMatch.
  destruct iv;
    cbn [find Spec.videoRules Spec.imageRules Spec.rule Spec.condition
         Spec.weaponKw Spec.burglaryKw Spec.fightKw Spec.movementKw];
    repeat match goal with
           | |- context [if ?c then _ else _] => destruct c
           end; reflexivity.
Qed.

(** ** Facts decided on the residues *)

Lemma confidence_everywhere : everywhere confidenceCheck = true.
Proof. vm_compute. reflexivity. Qed.

Lemma normal_everywhere : everywhere normalCheck = true.
Proof. vm_compute. reflexivity. Qed.

Lemma wellFormed_everywhere : everywhere wellFormedCheck = true.
Proof. vm_compute. reflexivity. Qed.

Lemma floor_on_residues :
  forallb (fun iv => forallb (floorCheck iv) residues) bools = true.
Proof. vm_compute. reflexivity. Qed.

Lemma floor_everywhere : forall iv k, (k < 1000)%N -> floorCheck iv k = true.
Proof.
  intros iv k Hk. pose proof floor_on_residues as H.
  rewrite forallb_forall in H. specialize (H iv (in_bools iv)).
  rewrite forallb_forall in H. apply H. apply residues_complete. exact Hk.
Qed.

(** The program's [Math.min(0.99, Math.max(0.35, c))] is the clamp of the
    specification on every raw confidence a ladder produces. *)
Lemma clamp_everywhere :
  forall iv w b f m k, (k < 1000)%N ->
    let c := snd (ladder iv w b f m (rnd k)) in
    Math_min 0.99 (Math_max 0.35 c) = Spec.clamp c 0.35 0.99.
Proof.
  intros iv w b f m k H. cbv zeta. revert k H.
  destruct iv, w, b, f, m; apply equal_on_residues; vm_compute; reflexivity.
Qed.

(** [Math.floor] is never applied to NaN or to an infinity. *)
Lemma floor_arguments_finite :
  forall iv k, (k < 1000)%N -> forallb JS.isFinite (floorArguments iv k) = true.
Proof.
  intros iv k Hk.
  pose proof (floor_everywhere iv k Hk) as H.
  unfold floorCheck in H. rewrite !andb_true_iff in H. tauto.
Qed.

(** A ladder never assigns the severity "uncertain". *)
Lemma ladder_severity_certain :
  forall iv w b f m r, sa_severity (fst (ladder iv w b f m r)) <> uncertain.
Proof.
  intros iv w b f m r. unfold ladder, videoLadder, imageLadder.
  destruct iv;
    repeat match goal with
           | |- context [if ?c then _ else _] => destruct c
           end; discriminate.
Qed.

(** The one underscore of a category name is the only one: replacing the
    first replaces all. *)
Lemma replace_spaced :
  forall t, replace (typeString t) (js "_") (js " ") = Spec.spaced t.
Proof. intros []; vm_compute; reflexivity. Qed.

Lemma AnomalyType_eqb_eq : forall a b, AnomalyType_eqb a b = true <-> a = b.
Proof. intros [] []; simpl; split; intros H; try reflexivity; discriminate. Qed.

(** ** Properties of the classifier *)

Section Properties.

Variable toLowerCase : jsstring -> jsstring.
Variable toFixed : float -> N -> jsstring.
Variable toISOString : Z -> jsstring.

(** C1: for a supported media type, with seed the sum of the character
    codes of the file name and r = (seed mod 1000)/1000, the category, the
    ladder severity and the raw confidence that [analyzeMediaContent]
    selects are those of the first matching rule of the specification's
    ladder (the video ladder when the type starts with "video/", the image
    ladder otherwise).  In particular "armed_robbery_clip.mp4", which
    matches a weapon and a burglary keyword, is classified weapon_detected,
    and rule 1 wins on a weapon keyword whatever r is. *)
Theorem ladder_follows_spec :
  forall filename mimeType,
    supported mimeType = true ->
    let m := analyzeMediaContent toLowerCase filename mimeType in
    let seed := Spec.seed filename in
    deterministicRandom m = (ofN (seed mod 1000) / 1000)%float
    /\ Spec.select toLowerCase filename mimeType
       = Some (type (selectedAnomaly m), sa_severity (selectedAnomaly m), rawConfidence m)
    /\ (toLowerCase (js "armed_robbery_clip.mp4") = js "armed_robbery_clip.mp4" ->
        filename = js "armed_robbery_clip.mp4" ->
        Spec.weaponKw (Spec.keywords toLowerCase filename) = true
        /\ Spec.burglaryKw (Spec.keywords toLowerCase filename) = true
        /\ type (selectedAnomaly m) = weapon_detected)
    /\ (forall iv b f mv r, type (fst (ladder iv true b f mv r)) = weapon_detected).
Proof.
  intros filename mimeType _ m seed. subst m seed.
  rewrite analyzeMediaContent_ladder. cbv zeta.
  cbn [deterministicRandom selectedAnomaly rawConfidence].
  rewrite seedOf_sum. unfold rnd.
  split; [reflexivity|]. split; [|split].
  - unfold Spec.select.
    destruct (Spec.keywords toLowerCase filename) as [w b f mv].
    cbn [Spec.weaponKw Spec.burglaryKw Spec.fightKw Spec.movementKw].
    apply firstMatch_ladder.
  - intros Hlower ->.
    assert (W : Spec.weaponKw (Spec.keywords toLowerCase (js "armed_robbery_clip.mp4")) = true).
    { unfold Spec.keywords, Spec.matches. cbn [Spec.weaponKw]. rewrite Hlower.
      vm_compute. reflexivity. }
    assert (B : Spec.burglaryKw (Spec.keywords toLowerCase (js "armed_robbery_clip.mp4")) = true).
    { unfold Spec.keywords, Spec.matches. cbn [Spec.burglaryKw]. rewrite Hlower.
      vm_compute. reflexivity. }
    split; [exact W|]. split; [exact B|].
    rewrite W. apply weapon_keyword_first.
  - apply weapon_keyword_first.
Qed.

(** The fields of the result for a supported media type, in terms of the
    ladder's selection [s], its raw confidence [c] and the residue [k] of
    the seed. *)
Lemma analyzeFile_supported :
  forall now file,
    supported (mimetype file) = true ->
    let m := analyzeMediaContent toLowerCase (originalname file) (mimetype file) in
    let s := selectedAnomaly m in
    let c := rawConfidence m in
    let k := (seedOf (originalname file) mod 1000)%N in
    exists r,
      analyzeFile toLowerCase toFixed toISOString now file = Classified r
      /\ anomalyDetected r = isAnomalyOf s c || (0.35 <=? c)%float
      /\ anomalyType r = type s
      /\ severity r = (if (c <? 0.50)%float then uncertain else sa_severity s)
      /\ confidence r = Math_min 0.99 (Math_max 0.35 c)
      /\ bounding_boxes r
         = generateBoundingBoxes c s (type s) (isAnomalyOf s c) k (isVideo m)
      /\ recommendedAction r
         = (if (c <? 0.50)%float then manual_review
            else if isAnomalyOf s c then alert else none)
      /\ processingTime r
         = Math_floor (if isVideo m then 2500 + rnd k * 2000
                       else 1500 + rnd k * 1000)%float
      /\ frames_analyzed (metadata r)
         = (if isVideo m then Math_floor (5 + rnd k * 10)%float else 1%Z).
Proof.
  intros now file Hs m s c k.
  unfold analyzeFile. fold m. cbv zeta. fold s c.
  unfold supported in Hs. rewrite <- negb_orb, Hs. cbn [negb].
  eexists. split; [reflexivity|].
  cbn [anomalyDetected anomalyType severity confidence bounding_boxes
       recommendedAction processingTime metadata frames_analyzed].
  fold (isAnomalyOf s c).
  assert (D : deterministicRandom m = rnd k).
  { unfold m. rewrite analyzeMediaContent_ladder. reflexivity. }
  rewrite D, generateBoundingBoxes_residue. fold k.
  repeat split; reflexivity.
Qed.

(** The selection of [analyzeMediaContent] is a case of the enumeration. *)
Lemma analyzeMediaContent_case :
  forall filename mimeType,
    let m := analyzeMediaContent toLowerCase filename mimeType in
    exists iv w b f mv k,
      (k < 1000)%N
      /\ k = (seedOf filename mod 1000)%N
      /\ iv = startsWith mimeType (js "video/")
      /\ selectedAnomaly m = fst (ladder iv w b f mv (rnd k))
      /\ rawConfidence m = snd (ladder iv w b f mv (rnd k))
      /\ isVideo m = iv.
Proof.
  intros filename mimeType m. unfold m. rewrite analyzeMediaContent_ladder.
  cbv zeta. do 6 eexists.
  split; [apply mod_1000_lt|]. repeat split; reflexivity.
Qed.

(** Brings the result [r] of a supported call into the context, with its
    fields stated on a case [(iv, w, b, f, mv, k)] of the enumeration. *)
Ltac classified now file Hs :=
  let H := fresh "H" in
  pose proof (analyzeFile_supported now file Hs) as H; cbv zeta in H;
  destruct H as (r & Hr & Hdet & Htype & Hsev & Hconf & Hboxes & Hact & Htime & Hframes);
  let C := fresh "C" in
  pose proof (analyzeMediaContent_case (originalname file) (mimetype file)) as C;
  cbv zeta in C;
  destruct C as (iv & w & b & f & mv & k & Hk & Hkeq & Hiv & Hsel & Hraw & Hvid);
  cbv zeta;
  rewrite <- ?Hkeq in *; rewrite ?Hvid in *; rewrite ?Hsel, ?Hraw in *;
  exists r; split; [exact Hr|].

(** Reads an enumerated check at the case in the context. *)
Ltac decided E chk :=
  let H := fresh "E" in
  match goal with
  | Hk : (?k < 1000)%N |- _ =>
      match goal with
      | _ : context [ladder ?iv ?w ?b ?f ?mv (rnd k)] |- _ =>
          pose proof (everywhere_spec _ E iv w b f mv k Hk) as H
      | |- context [ladder ?iv ?w ?b ?f ?mv (rnd k)] =>
          pose proof (everywhere_spec _ E iv w b f mv k Hk) as H
      end
  end;
  cbv beta in H; unfold chk in H; cbv zeta in H;
  rewrite ?andb_true_iff in H.

(** C8: for a supported media type the reported confidence is
    clamp(raw ladder confidence, 0.35, 0.99), and so lies in the closed
    interval [0.35, 0.99]. *)
Theorem confidence_clamped :
  forall now file,
    supported (mimetype file) = true ->
    let m := analyzeMediaContent toLowerCase (originalname file) (mimetype file) in
    exists r,
      analyzeFile toLowerCase toFixed toISOString now file = Classified r
      /\ confidence r = Spec.clamp (rawConfidence m) 0.35 0.99
      /\ (0.35 <=? confidence r)%float = true
      /\ (confidence r <=? 0.99)%float = true.
Proof.
  intros now file Hs. classified now file Hs.
  decided confidence_everywhere confidenceCheck.
  rewrite Hconf. split; [|tauto].
  apply (clamp_everywhere iv w b f mv k Hk).
Qed.

(** C7: for a supported media type the severity of the result is
    "uncertain" exactly when the raw ladder confidence is below 0.50, and
    it is the severity the ladder assigned when the raw confidence is at
    least 0.50. *)
Theorem severity_uncertain_iff :
  forall now file,
    supported (mimetype file) = true ->
    let m := analyzeMediaContent toLowerCase (originalname file) (mimetype file) in
    exists r,
      analyzeFile toLowerCase toFixed toISOString now file = Classified r
      /\ (severity r = uncertain <-> (rawConfidence m <? 0.50)%float = true)
      /\ ((0.50 <=? rawConfidence m)%float = true ->
          severity r = sa_severity (selectedAnomaly m)).
Proof.
  intros now file Hs. classified now file Hs.
  decided confidence_everywhere confidenceCheck.
  destruct E as ((((_ & E50) & _) & _) & _). apply eqb_prop in E50.
  rewrite Hsev.
  destruct (snd (ladder iv w b f mv (rnd k)) <? 0.50)%float eqn:Lt;
    destruct (0.50 <=? snd (ladder iv w b f mv (rnd k)))%float eqn:Le;
    try discriminate E50.
  - split; [tauto|]. discriminate.
  - split; [|reflexivity]. split; [|discriminate].
    intros U. exfalso. exact (ladder_severity_certain _ _ _ _ _ _ U).
Qed.

(** C3: for a supported media type every bounding box (x1,y1,x2,y2) of the
    result has x1 < x2 and y1 < y2, be it the single "person" box of a
    non-anomaly or a box of an anomaly. *)
Theorem boxes_ordered :
  forall now file,
    supported (mimetype file) = true ->
    exists r,
      analyzeFile toLowerCase toFixed toISOString now file = Classified r
      /\ Forall (fun x => ordered x = true) (bounding_boxes r).
Proof.
  intros now file Hs. classified now file Hs.
  rewrite Hboxes.
  decided wellFormed_everywhere wellFormedCheck.
  destruct E as (((_ & E) & _) & _).
  apply Forall_forall. intros x Hx.
  rewrite forallb_forall in E. specialize (E x Hx).
  rewrite andb_true_iff in E. tauto.
Qed.

(** C10: for a supported media type whose ladder category is "normal" the
    raw confidence is below 0.35 (the branch is reached only with
    r <= 0.20 for a video and r <= 0.30 for an image), so the reported
    [anomalyDetected] is false; and [recommendedAction] is never "none":
    it is "manual_review" or "alert" for every supported input. *)
Theorem normal_below_threshold :
  forall now file,
    supported (mimetype file) = true ->
    let m := analyzeMediaContent toLowerCase (originalname file) (mimetype file) in
    exists r,
      analyzeFile toLowerCase toFixed toISOString now file = Classified r
      /\ (type (selectedAnomaly m) = normal ->
          (rawConfidence m <? 0.35)%float = true
          /\ (deterministicRandom m <=? (if isVideo m then 0.20 else 0.30))%float = true
          /\ anomalyDetected r = false)
      /\ (recommendedAction r = manual_review \/ recommendedAction r = alert).
Proof.
  intros now file Hs.
  assert (D : deterministicRandom
                (analyzeMediaContent toLowerCase (originalname file) (mimetype file))
              = rnd (seedOf (originalname file) mod 1000)).
  { rewrite analyzeMediaContent_ladder. reflexivity. }
  classified now file Hs. rewrite D.
  decided normal_everywhere normalCheck. destruct E as (EN & EA).
  decided confidence_everywhere confidenceCheck.
  destruct E as ((((_ & _) & E35) & _) & _).
  split.
  - intros Hn. rewrite Hdet. unfold isAnomalyOf.
    rewrite Hn in *. cbn [AnomalyType_eqb negb andb orb] in *.
    rewrite andb_true_iff in EN. destruct EN as (Lt & Hr').
    apply eqb_prop in E35. rewrite Lt in E35.
    destruct (0.35 <=? snd (ladder iv w b f mv (rnd k)))%float; [discriminate E35|].
    auto.
  - rewrite Hact.
    destruct (snd (ladder iv w b f mv (rnd k)) <? 0.50)%float; [left; reflexivity|].
    cbn [orb] in EA. rewrite EA. right; reflexivity.
Qed.

(** C6: for a supported media type, a non-anomaly (ladder category
    "normal", or raw confidence below 0.50) has exactly one bounding box,
    the "person" box; an anomaly has one or two: box 0 carries the category
    name with its underscore replaced by a space and [is_anomaly] true, and
    a second box, if any, is a "person" box with [is_anomaly] false. *)
Theorem box_count_and_labels :
  forall now file,
    supported (mimetype file) = true ->
    let m := analyzeMediaContent toLowerCase (originalname file) (mimetype file) in
    exists r,
      analyzeFile toLowerCase toFixed toISOString now file = Classified r
      /\ (type (selectedAnomaly m) = normal \/ (rawConfidence m <? 0.50)%float = true ->
          exists x, bounding_boxes r = [x]
                    /\ class_name x = js "person" /\ is_anomaly x = false)
      /\ (type (selectedAnomaly m) <> normal /\ (0.50 <=? rawConfidence m)%float = true ->
          exists x rest,
            bounding_boxes r = x :: rest
            /\ (List.length rest <= 1)%nat
            /\ class_name x = Spec.spaced (type (selectedAnomaly m))
            /\ is_anomaly x = true
            /\ Forall (fun y => class_name y = js "person" /\ is_anomaly y = false) rest).
Proof.
  intros now file Hs. classified now file Hs.
  decided confidence_everywhere confidenceCheck.
  destruct E as ((((_ & E50) & _) & _) & _). apply eqb_prop in E50.
  rewrite Hboxes. unfold generateBoundingBoxes. split.
  - intros Hnon.
    assert (A : isAnomalyOf (fst (ladder iv w b f mv (rnd k)))
                  (snd (ladder iv w b f mv (rnd k))) = false).
    { unfold isAnomalyOf. destruct Hnon as [Hn|Hlt].
      - rewrite Hn. reflexivity.
      - rewrite Hlt in E50.
        destruct (0.50 <=? snd (ladder iv w b f mv (rnd k)))%float;
          [discriminate E50|apply andb_false_r]. }
    rewrite A. cbn [negb]. eexists. repeat split.
  - intros (Hn & Hge).
    assert (A : isAnomalyOf (fst (ladder iv w b f mv (rnd k)))
                  (snd (ladder iv w b f mv (rnd k))) = true).
    { unfold isAnomalyOf. rewrite Hge, andb_true_r.
      destruct (AnomalyType_eqb _ normal) eqn:T; [|reflexivity].
      apply AnomalyType_eqb_eq in T. contradiction. }
    rewrite A. cbn [negb].
    pose proof (floor_everywhere iv k Hk) as F.
    unfold floorCheck in F. cbv zeta in F.
    rewrite !andb_true_iff in F. destruct F as (((F & _) & _) & _).
    apply orb_true_iff in F. rewrite !Z.eqb_eq in F.
    destruct F as [-> | ->].
    + change (range 1) with [0%N]. cbn [map N.eqb]. do 2 eexists.
      split; [reflexivity|]. cbn [class_name is_anomaly List.length].
      split; [lia|]. split; [apply replace_spaced|]. split; [reflexivity|].
      constructor.
    + change (range 2) with [0%N; 1%N]. cbn [map N.eqb]. do 2 eexists.
      split; [reflexivity|]. cbn [class_name is_anomaly List.length].
      split; [lia|]. split; [apply replace_spaced|]. split; [reflexivity|].
      repeat constructor.
Qed.

(** C9: for every file name and every media type (any sequence of code
    units, empty or not, ASCII or not) the classifier returns: a well-formed
    classification when the type starts with "image/" or "video/", and the
    unsupported-type result otherwise.  The embedding has no failing
    operation and no unbounded loop, so returning is all there is to show;
    the only partial built-in, [Math.floor], is applied to finite numbers
    ([floor_arguments_finite]). *)
Theorem always_returns :
  forall now file,
    if supported (mimetype file)
    then exists r,
           analyzeFile toLowerCase toFixed toISOString now file = Classified r
           /\ wellFormed r = true
    else exists u,
           analyzeFile toLowerCase toFixed toISOString now file = Unsupported u.
Proof.
  intros now file. destruct (supported (mimetype file)) eqn:Hs.
  - classified now file Hs.
    decided wellFormed_everywhere wellFormedCheck.
    unfold wellFormed. rewrite Hconf, Hboxes, Htime, Hframes.
    rewrite !andb_true_iff. exact E.
  - unfold analyzeFile. unfold supported in Hs.
    rewrite <- negb_orb, Hs. cbn [negb]. eexists. reflexivity.
Qed.

(** C5: a media type that starts with neither "image/" nor "video/" (such
    as "application/pdf") makes the classifier return, without raising
    anything, a result with [anomalyDetected] false, [confidence] 0, the
    error marker "Unsupported file type" and no bounding boxes. *)
Theorem unsupported_type_result :
  forall now file,
    startsWith (mimetype file) (js "image/") = false ->
    startsWith (mimetype file) (js "video/") = false ->
    let res := analyzeFile toLowerCase toFixed toISOString now file in
    exists u,
      res = Unsupported u
      /\ get_anomalyDetected res = false
      /\ get_confidence res = 0%float
      /\ get_error res = Some (js "Unsupported file type")
      /\ get_bounding_boxes res = None.
Proof.
  intros now file Hi Hv res. unfold res, analyzeFile.
  rewrite Hi, Hv. cbn [negb andb]. eexists. repeat split.
Qed.

(** C2, as amended: for a fixed file name and media type, two invocations (at any two
    readings of the clock) return the same [anomalyType], [severity],
    [confidence], bounding boxes and [description]; and where a seed is
    derived (a supported type) the [processingTime] is the same too, being
    a function of the seed: any file of the same media type and the same
    seed gets the same value. *)
Theorem two_runs_agree :
  forall now1 now2 file,
    let r1 := analyzeFile toLowerCase toFixed toISOString now1 file in
    let r2 := analyzeFile toLowerCase toFixed toISOString now2 file in
    get_anomalyType r1 = get_anomalyType r2
    /\ get_severity r1 = get_severity r2
    /\ get_confidence r1 = get_confidence r2
    /\ get_bounding_boxes r1 = get_bounding_boxes r2
    /\ get_description r1 = get_description r2
    /\ (supported (mimetype file) = true ->
        get_processingTime r1 = get_processingTime r2
        /\ forall file',
             mimetype file' = mimetype file ->
             seedOf (originalname file') = seedOf (originalname file) ->
             get_processingTime
               (analyzeFile toLowerCase toFixed toISOString now2 file')
             = get_processingTime r1).
Proof.
  intros now1 now2 file r1 r2.
  assert (T : forall now g,
             supported (mimetype g) = true ->
             get_processingTime (analyzeFile toLowerCase toFixed toISOString now g)
             = Math_floor
                 (if startsWith (mimetype g) (js "video/")
                  then 2500 + rnd (seedOf (originalname g) mod 1000) * 2000
                  else 1500 + rnd (seedOf (originalname g) mod 1000) * 1000)%float).
  { intros now g Hs.
    pose proof (analyzeFile_supported now g Hs) as H. cbv zeta in H.
    destruct H as (r & Hr & _ & _ & _ & _ & _ & _ & Htime & _).
    rewrite Hr. cbn [get_processingTime]. rewrite Htime.
    rewrite analyzeMediaContent_ladder. reflexivity. }
  repeat split;
    try (unfold r1, r2, analyzeFile;
         destruct (negb (startsWith (mimetype file) (js "video/"))
                   && negb (startsWith (mimetype file) (js "image/")));
         reflexivity).
  - unfold r1, r2. rewrite !T by assumption. reflexivity.
  - intros file' Hm Hseed. unfold r1.
    rewrite !T by (rewrite ?Hm; assumption).
    rewrite Hm, Hseed. reflexivity.
Qed.

(** C4, as amended: for a fixed file name and media type, two calls return
    results that agree in every field except the reading of the clock.
    For a supported type the only such field is [metadata.timestamp], the
    ISO rendering of the time of the call, and [processingTime] is a
    function of the seed and the media kind, not of the time; for an
    unsupported type [anomalyDetected], [confidence], [modelUsed] and
    [error] agree. *)
Theorem deterministic_up_to_clock :
  forall now1 now2 file,
    let r1 := analyzeFile toLowerCase toFixed toISOString now1 file in
    let r2 := analyzeFile toLowerCase toFixed toISOString now2 file in
    let k := (seedOf (originalname file) mod 1000)%N in
    withoutClock r1 = withoutClock r2
    /\ if supported (mimetype file)
       then option_map timestamp (get_metadata r1) = Some (toISOString now1)
            /\ get_processingTime r1
               = Math_floor (if startsWith (mimetype file) (js "video/")
                             then 2500 + rnd k * 2000
                             else 1500 + rnd k * 1000)%float
       else get_metadata r1 = None.
Proof.
  intros now1 now2 file r1 r2 k. split.
  - unfold r1, r2, analyzeFile.
    destruct (negb (startsWith (mimetype file) (js "video/"))
              && negb (startsWith (mimetype file) (js "image/")));
      reflexivity.
  - destruct (supported (mimetype file)) eqn:Hs.
    + pose proof (analyzeFile_supported now1 file Hs) as H. cbv zeta in H.
      destruct H as (r & Hr & _ & _ & _ & _ & _ & _ & Htime & _).
      split.
      * unfold r1, analyzeFile. unfold supported in Hs.
        rewrite <- negb_orb, Hs. reflexivity.
      * unfold r1. rewrite Hr. cbn [get_processingTime]. rewrite Htime.
        rewrite analyzeMediaContent_ladder. reflexivity.
    + unfold r1, analyzeFile. unfold supported in Hs.
      rewrite <- negb_orb, Hs. reflexivity.
Qed.

End Properties.

(** ** The properties on concrete uploads *)

Local Open Scope float_scope.

(** C1 at "armed_robbery_clip.mp4", a video: seed 2211, r = 0.211, both a
    weapon and a burglary keyword; rule 1 is selected. *)
Lemma ladder_follows_spec_witness :
  supported (mimetype clip) = true
  /\ Builtins.toLowerCase (originalname clip) = js "armed_robbery_clip.mp4"
  /\ Spec.seed (originalname clip) = 2211%N
  /\ Spec.select Builtins.toLowerCase (originalname clip) (mimetype clip)
     = Some (weapon_detected, critical, 0.88 + 0.211 * 0.11)
  /\ type (selectedAnomaly
             (analyzeMediaContent Builtins.toLowerCase (originalname clip) (mimetype clip)))
     = weapon_detected.
Proof.
  pose proof (ladder_follows_spec Builtins.toLowerCase (originalname clip)
                (mimetype clip) eq_refl) as H.
  cbv zeta in H. destruct H as (_ & Hsel & Harmed & _).
  split; [reflexivity|]. split; [reflexivity|]. split; [reflexivity|].
  split; [vm_compute; reflexivity|].
  apply Harmed; reflexivity.
Defined.

(** C2 at the same clip, called at two different times. *)
Lemma two_runs_agree_witness :
  supported (mimetype clip) = true
  /\ get_description (classify 1755265202384 clip)
     = get_description (classify 1755265264726 clip)
  /\ get_bounding_boxes (classify 1755265202384 clip)
     = get_bounding_boxes (classify 1755265264726 clip)
  /\ get_processingTime (classify 1755265202384 clip)
     = get_processingTime (classify 1755265264726 clip).
Proof.
  pose proof (two_runs_agree Builtins.toLowerCase Builtins.toFixed
                Builtins.toISOString 1755265202384 1755265264726 clip) as H.
  cbv zeta in H. destruct H as (_ & _ & _ & Hb & Hd & Ht).
  split; [reflexivity|]. split; [exact Hd|]. split; [exact Hb|].
  exact (proj1 (Ht eq_refl)).
Defined.

(** C3 at "normal_hallway.jpg": an anomaly with two boxes. *)
Lemma boxes_ordered_witness :
  supported (mimetype hallway) = true
  /\ exists r, classify 0 hallway = Classified r
               /\ Forall (fun x => ordered x = true) (bounding_boxes r).
Proof.
  split; [reflexivity|].
  exact (boxes_ordered Builtins.toLowerCase Builtins.toFixed Builtins.toISOString
           0%Z hallway eq_refl).
Defined.

(** C5 at "report.pdf" of type "application/pdf". *)
Lemma unsupported_type_result_witness :
  startsWith (mimetype report) (js "image/") = false
  /\ startsWith (mimetype report) (js "video/") = false
  /\ exists u, classify 0 report = Unsupported u
               /\ get_anomalyDetected (classify 0 report) = false
               /\ get_confidence (classify 0 report) = 0
               /\ get_error (classify 0 report) = Some (js "Unsupported file type")
               /\ get_bounding_boxes (classify 0 report) = None.
Proof.
  split; [reflexivity|]. split; [reflexivity|].
  exact (unsupported_type_result Builtins.toLowerCase Builtins.toFixed
           Builtins.toISOString 0%Z report eq_refl eq_refl).
Defined.

(** C6 at "normal_hallway.jpg" (seed 1865, r = 0.865: an anomaly). *)
Lemma box_count_and_labels_witness :
  supported (mimetype hallway) = true
  /\ exists r x rest,
       classify 0 hallway = Classified r
       /\ bounding_boxes r = x :: rest
       /\ (List.length rest <= 1)%nat
       /\ class_name x = js "weapon detected"
       /\ is_anomaly x = true
       /\ Forall (fun y => class_name y = js "person" /\ is_anomaly y = false) rest.
Proof.
  split; [reflexivity|].
  destruct (box_count_and_labels Builtins.toLowerCase Builtins.toFixed
              Builtins.toISOString 0%Z hallway eq_refl) as (r & Hr & _ & Han).
  destruct Han as (x & rest & Hb & Hl & Hc & Ha & Hp).
  { split; [discriminate|reflexivity]. }
  exists r, x, rest. repeat split; assumption.
Defined.

(** C7 at "1.png" (seed 420, r = 0.42: loitering at raw confidence
    0.455, reported as uncertain). *)
Lemma severity_uncertain_iff_witness :
  supported (mimetype corridor) = true
  /\ exists r, classify 0 corridor = Classified r /\ severity r = uncertain.
Proof.
  split; [reflexivity|].
  destruct (severity_uncertain_iff Builtins.toLowerCase Builtins.toFixed
              Builtins.toISOString 0%Z corridor eq_refl) as (r & Hr & Hu & _).
  exists r. split; [exact Hr|]. apply Hu. reflexivity.
Defined.

(** C8 at a name of two non-ASCII code units, as a video (seed 46004,
    r = 0.004: normal, raw confidence 0.2512, displayed as 0.35). *)
Lemma confidence_clamped_witness :
  supported (mimetype kanji) = true
  /\ exists r, classify 0 kanji = Classified r
               /\ confidence r = Spec.clamp (0.25 + 0.004 * 0.30) 0.35 0.99
               /\ (0.35 <=? confidence r) = true
               /\ (confidence r <=? 0.99) = true.
Proof.
  split; [reflexivity|].
  exact (confidence_clamped Builtins.toLowerCase Builtins.toFixed
           Builtins.toISOString 0%Z kanji eq_refl).
Defined.

(** C9 at the empty file name. *)
Lemma always_returns_witness :
  exists r, classify 0 unnamed = Classified r /\ wellFormed r = true.
Proof.
  exact (always_returns Builtins.toLowerCase Builtins.toFixed
           Builtins.toISOString 0%Z unnamed).
Defined.

(** C10 at the empty file name (seed 0: normal, raw confidence 0.20). *)
Lemma normal_below_threshold_witness :
  supported (mimetype unnamed) = true
  /\ exists r, classify 0 unnamed = Classified r
               /\ anomalyType r = normal
               /\ anomalyDetected r = false
               /\ recommendedAction r = manual_review.
Proof.
  split; [reflexivity|].
  destruct (normal_below_threshold Builtins.toLowerCase Builtins.toFixed
              Builtins.toISOString 0%Z unnamed eq_refl) as (r & Hr & Hn & _).
  exists r. split; [exact Hr|].
  destruct (Hn eq_refl) as (_ & _ & Hd).
  split; [|split; [exact Hd|]]; injection Hr as <-; reflexivity.
Defined.

(** C4 as stated fails: the same upload classified at two different times
    gives two different results, because the metadata carries the time of
    the call. *)
Lemma timestamp_follows_clock :
  option_map timestamp (get_metadata (classify 1755265202384 hallway))
  = Some (js "2025-08-15T13:40:02.384Z")
  /\ option_map timestamp (get_metadata (classify 1755265264726 hallway))
     = Some (js "2025-08-15T13:41:04.726Z")
  /\ classify 1755265202384 hallway <> classify 1755265264726 hallway.
Proof.
  split; [vm_compute; reflexivity|]. split; [vm_compute; reflexivity|].
  intros H.
  apply (f_equal (fun res => option_map timestamp (get_metadata res))) in H.
  vm_compute in H. discriminate H.
Qed.

(** C2 as stated fails for a pair without a seed: "report.pdf" of type
    "application/pdf" is not a supported type, and two invocations at
    different times report two different values of [processingTime],
    each the time of its call (line 878). *)
Lemma processingTime_follows_clock :
  supported (mimetype report) = false
  /\ get_processingTime (classify 1755265202384 report) = 1755265202384%Z
  /\ get_processingTime (classify 1755265264726 report) = 1755265264726%Z
  /\ get_processingTime (classify 1755265202384 report)
     <> get_processingTime (classify 1755265264726 report).
Proof.
  split; [reflexivity|]. split; [reflexivity|]. split; [reflexivity|].
  vm_compute. discriminate.
Qed.

(** The unsupported-type result carries the clock as well, in
    [processingTime] (line 878). *)
Lemma unsupported_processingTime_is_clock :
  forall now, get_processingTime (classify now report) = now.
Proof. intros now. reflexivity. Qed.

(** In binary64 the largest raw confidences of the two "normal" branches
    are 0.31 (video, r = 0.20) and 0.29000000000000004 (image, r = 0.30). *)
Lemma normal_confidence_maxima :
  snd (ladder true false false false false (rnd 200)) = 0.31
  /\ snd (ladder false false false false false (rnd 300)) = 0.29000000000000004.
Proof. split; vm_compute; reflexivity. Qed.

(** ** Further properties of the classifier *)

Lemma shape_everywhere : everywhere shapeCheck = true.
Proof. vm_compute. reflexivity. Qed.

Lemma integer_on_residues :
  forallb (fun iv => forallb (integerCheck iv) residues) bools = true.
Proof. vm_compute. reflexivity. Qed.

Lemma integer_everywhere : forall iv k, (k < 1000)%N -> integerCheck iv k = true.
Proof.
  intros iv k Hk. pose proof integer_on_residues as H.
  rewrite forallb_forall in H. specialize (H iv (in_bools iv)).
  rewrite forallb_forall in H. apply H. apply residues_complete. exact Hk.
Qed.

(** The upper bound 0.99 of the clamp is never reached, and the lower
    bound only by the normal category. *)
Lemma displayed_everywhere :
  forall iv w b f m k, (k < 1000)%N ->
    let s := fst (ladder iv w b f m (rnd k)) in
    let c := snd (ladder iv w b f m (rnd k)) in
    Math_min 0.99 (Math_max 0.35 c)
    = if AnomalyType_eqb (type s) normal then 0.35%float else c.
Proof.
  intros iv w b f m k H. cbv zeta. revert k H.
  destruct iv, w, b, f, m; apply equal_on_residues; vm_compute; reflexivity.
Qed.

Lemma lowCategory_spec :
  forall t, lowCategory t = true <-> t = loitering \/ t = normal.
Proof.
  intros []; simpl; split; intros H; auto; try discriminate;
    destruct H; discriminate.
Qed.

Section MoreProperties.

Variable toLowerCase : jsstring -> jsstring.
Variable toFixed : float -> N -> jsstring.
Variable toISOString : Z -> jsstring.

(** The result [r] of a supported call, its fields stated on the ladder
    at the keyword flags [kw] of the name and the residue [k] of its
    seed. *)
Ltac fallback now file Hs :=
  let H := fresh "H" in
  pose proof (analyzeFile_supported toLowerCase toFixed toISOString now file Hs) as H;
  cbv zeta in H;
  destruct H as (r & Hr & Hdet & Htype & Hsev & Hconf & Hboxes & Hact & Htime & Hframes);
  rewrite analyzeMediaContent_ladder in *;
  cbv zeta in *;
  cbn [selectedAnomaly rawConfidence deterministicRandom isVideo] in *;
  pose proof (mod_1000_lt (seedOf (originalname file))) as Hk;
  set (k := (seedOf (originalname file) mod 1000)%N) in *;
  set (kw := Spec.keywords toLowerCase (originalname file)) in *;
  set (iv := startsWith (mimetype file) (js "video/")) in *;
  exists r; split; [exact Hr|].

Ltac shape :=
  match goal with
  | Hk : (?k < 1000)%N, _ : context [ladder ?iv ?w ?b ?f ?mv (rnd ?k)] |- _ =>
      let E := fresh "E" in
      pose proof (everywhere_spec _ shape_everywhere iv w b f mv k Hk) as E;
      cbv beta in E; unfold shapeCheck in E; cbv zeta in E;
      rewrite !andb_true_iff in E;
      destruct E as (((((ELow & EAnom) & EDet) & ESev) & EKey) & ETruthy);
      apply eqb_prop in ELow; apply eqb_prop in EAnom;
      apply eqb_prop in EDet; apply eqb_prop in ESev
  end.

(** The detection flag and the truthiness of the displayed confidence. *)
Lemma detection_flag :
  forall now file,
    supported (mimetype file) = true ->
    exists r,
      analyzeFile toLowerCase toFixed toISOString now file = Classified r
      /\ anomalyDetected r = negb (AnomalyType_eqb (anomalyType r) normal)
      /\ truthyNumber (confidence r) = true.
Proof.
  intros now file Hs. fallback now file Hs. shape.
  rewrite Hdet, Htype, Hconf. auto.
Qed.

Lemma analyzeFile_unsupported :
  forall now file,
    supported (mimetype file) = false ->
    analyzeFile toLowerCase toFixed toISOString now file
    = Unsupported
        {| u_anomalyDetected := false;
           u_confidence := 0;
           u_modelUsed := js "PPFL Anomaly Detector v1.2.0";
           u_processingTime := now;
           u_error := js "Unsupported file type" |}.
Proof.
  intros now file Hs. unfold analyzeFile. unfold supported in Hs.
  rewrite <- negb_orb, Hs. reflexivity.
Qed.

(** X1: For a supported media type the reported [anomalyDetected] is true
    exactly when the category is not "normal". *)
Theorem detection_iff_not_normal :
  forall now file,
    supported (mimetype file) = true ->
    exists r,
      analyzeFile toLowerCase toFixed toISOString now file = Classified r
      /\ (anomalyDetected r = true <-> anomalyType r <> normal).
Proof.
  intros now file Hs. fallback now file Hs. shape.
  rewrite Hdet, Htype, EDet.
  destruct (AnomalyType_eqb _ normal) eqn:T; cbn [negb].
  - apply AnomalyType_eqb_eq in T. split; [discriminate|]. intros N. contradiction.
  - split; [|reflexivity]. intros _ N. apply AnomalyType_eqb_eq in N. congruence.
Qed.

(** X2: For a supported media type the severity "low" is never reported: the
    two categories a ladder rates "low", loitering and normal, always have
    a raw confidence below 0.50, so they are reported as "uncertain" with
    the action "manual_review"; every other category keeps its ladder
    severity, which is medium, high or critical, and gets the action
    "alert". *)
Theorem severity_never_low :
  forall now file,
    supported (mimetype file) = true ->
    let m := analyzeMediaContent toLowerCase (originalname file) (mimetype file) in
    exists r,
      analyzeFile toLowerCase toFixed toISOString now file = Classified r
      /\ severity r <> low
      /\ (anomalyType r = loitering \/ anomalyType r = normal ->
          severity r = uncertain /\ recommendedAction r = manual_review)
      /\ (anomalyType r <> loitering /\ anomalyType r <> normal ->
          severity r = sa_severity (selectedAnomaly m)
          /\ (severity r = medium \/ severity r = high \/ severity r = critical)
          /\ recommendedAction r = alert).
Proof.
  intros now file Hs. fallback now file Hs. shape.
  rewrite Hsev, Hact, Htype, ELow, EAnom.
  destruct (lowCategory _) eqn:L; cbn [negb].
  - split; [discriminate|]. split; [auto|].
    intros (N1 & N2). apply lowCategory_spec in L. tauto.
  - try rewrite L in ESev.
    destruct (sa_severity _) eqn:S; try discriminate ESev;
      try (exfalso; exact (ladder_severity_certain _ _ _ _ _ _ S));
      (split; [discriminate|]; split;
       [intros D; apply lowCategory_spec in D; congruence | auto]).
Qed.

(** X3: For a supported media type the displayed confidence is the raw ladder
    confidence unless the category is "normal", in which case it is 0.35:
    the upper bound 0.99 of the clamp is never reached. *)
Theorem confidence_is_raw_unless_normal :
  forall now file,
    supported (mimetype file) = true ->
    let m := analyzeMediaContent toLowerCase (originalname file) (mimetype file) in
    exists r,
      analyzeFile toLowerCase toFixed toISOString now file = Classified r
      /\ (anomalyType r = normal -> confidence r = 0.35%float)
      /\ (anomalyType r <> normal -> confidence r = rawConfidence m).
Proof.
  intros now file Hs. fallback now file Hs.
  rewrite Hconf, Htype.
  rewrite (displayed_everywhere iv _ _ _ _ k Hk).
  destruct (AnomalyType_eqb _ normal) eqn:T.
  - split; [reflexivity|]. apply AnomalyType_eqb_eq in T. intros N. contradiction.
  - split; [|reflexivity]. intros N. apply AnomalyType_eqb_eq in N. congruence.
Qed.

(** X4: A file whose lower-cased name contains a weapon, burglary or fight
    keyword is, for either supported media type and whatever its seed,
    reported as a detection of severity critical or high with the action
    "alert". *)
Theorem keyword_means_alert :
  forall now file,
    supported (mimetype file) = true ->
    let kw := Spec.keywords toLowerCase (originalname file) in
    Spec.weaponKw kw || Spec.burglaryKw kw || Spec.fightKw kw = true ->
    exists r,
      analyzeFile toLowerCase toFixed toISOString now file = Classified r
      /\ anomalyDetected r = true
      /\ recommendedAction r = alert
      /\ (severity r = critical \/ severity r = high).
Proof.
  intros now file Hs kw0 Hkw. subst kw0. fallback now file Hs. shape.
  fold kw in Hkw. rewrite Hkw in EKey. apply andb_true_iff in EKey.
  destruct EKey as (A & S).
  rewrite Hdet, Hact, Hsev, A. rewrite A in EAnom.
  destruct (lowCategory _); [discriminate EAnom|]. rewrite ELow.
  split; [reflexivity|]. split; [reflexivity|].
  destruct (sa_severity _); try discriminate S; auto.
Qed.

(** X5: For a supported media type the integer fields have closed forms in
    the residue k of the seed: the processing time is 2500 + 2k for a
    video and 1500 + k for an image, and the number of frames is
    5 + (k div 100) for a video and 1 for an image. *)
Theorem integer_fields_closed_form :
  forall now file,
    supported (mimetype file) = true ->
    let k := Z.of_N (seedOf (originalname file) mod 1000) in
    exists r,
      analyzeFile toLowerCase toFixed toISOString now file = Classified r
      /\ processingTime r
         = (if startsWith (mimetype file) (js "video/") then 2500 + 2 * k else 1500 + k)%Z
      /\ frames_analyzed (metadata r)
         = (if startsWith (mimetype file) (js "video/") then 5 + k / 100 else 1)%Z.
Proof.
  intros now file Hs. fallback now file Hs.
  pose proof (integer_everywhere iv k Hk) as E. unfold integerCheck in E.
  rewrite !andb_true_iff, !Z.eqb_eq in E. destruct E as ((Et & Ef) & _).
  rewrite Htime, Hframes, Et. destruct iv; auto.
Qed.

(** X6: For a supported media type the number of bounding boxes is 1 for
    loitering and normal, and otherwise 1 when (seed + 10) mod 1000 is
    below 500 and 2 when it is not; the first box of a detection that is
    not uncertain carries the reported confidence and, as its priority,
    the reported severity. *)
Theorem box_count_closed_form :
  forall now file,
    supported (mimetype file) = true ->
    exists r,
      analyzeFile toLowerCase toFixed toISOString now file = Classified r
      /\ List.length (bounding_boxes r)
         = (if lowCategory (anomalyType r) then 1
            else if ((seedOf (originalname file) + 10) mod 1000 <? 500)%N then 1
                 else 2)%nat
      /\ (lowCategory (anomalyType r) = false ->
          exists x rest,
            bounding_boxes r = x :: rest
            /\ box_confidence x = confidence r
            /\ priority x = severityString (severity r)).
Proof.
  intros now file Hs. fallback now file Hs. shape.
  pose proof (integer_everywhere iv k Hk) as E. unfold integerCheck in E.
  rewrite !andb_true_iff, !Z.eqb_eq in E. destruct E as (_ & En).
  assert (Hmod : ((seedOf (originalname file) + 10) mod 1000 = (k + 10) mod 1000)%N).
  { unfold k. symmetry. apply N.Div0.add_mod_idemp_l. }
  rewrite Hmod.
  rewrite Hboxes, Hconf, Hsev, Htype, ELow, EAnom.
  rewrite (displayed_everywhere iv _ _ _ _ k Hk).
  unfold generateBoundingBoxes.
  destruct (lowCategory _) eqn:L; cbn [negb].
  - split; [reflexivity|]. discriminate.
  - rewrite En.
    assert (T : AnomalyType_eqb (type (fst (ladder iv (Spec.weaponKw kw)
                  (Spec.burglaryKw kw) (Spec.fightKw kw) (Spec.movementKw kw) (rnd k))))
                  normal = false).
    { destruct (AnomalyType_eqb _ normal) eqn:T; [|reflexivity].
      apply AnomalyType_eqb_eq in T. rewrite T in L. discriminate L. }
    rewrite T.
    destruct ((k + 10) mod 1000 <? 500)%N.
    + change (range 1) with [0%N]. cbn [map N.eqb List.length].
      split; [reflexivity|]. intros _. do 2 eexists. repeat split.
    + change (range 2) with [0%N; 1%N]. cbn [map N.eqb List.length].
      split; [reflexivity|]. intros _. do 2 eexists. repeat split.
Qed.

End MoreProperties.

(** ** Facts about Map and sort *)

Lemma String_eqb_eq : forall a b, String_eqb a b = true <-> a = b.
Proof.
  induction a as [|c a IH]; intros [|d b]; simpl; split; intros H;
    try reflexivity; try discriminate.
  - apply andb_true_iff in H. destruct H as (Hc & Ha).
    apply N.eqb_eq in Hc. apply IH in Ha. congruence.
  - injection H as -> ->. rewrite N.eqb_refl. cbn [andb]. now apply IH.
Qed.

Lemma String_eqb_refl : forall a, String_eqb a a = true.
Proof. intros a. now apply String_eqb_eq. Qed.

Lemma String_eqb_neq : forall a b, a <> b -> String_eqb a b = false.
Proof.
  intros a b H. destruct (String_eqb a b) eqn:E; [|reflexivity].
  apply String_eqb_eq in E. contradiction.
Qed.

Module JSMapFacts.
Section WithValues.

Context {V : Type}.
Implicit Types (m : JSMap.t V) (k : jsstring) (v : V).

Lemma get_set_same : forall m k v, JSMap.get (JSMap.set m k v) k = Some v.
Proof.
  induction m as [|[k' v'] m IH]; intros k v; simpl.
  - now rewrite String_eqb_refl.
  - destruct (String_eqb k' k) eqn:E; simpl; rewrite E; auto.
Qed.

Lemma get_set_other :
  forall m k v k', k' <> k -> JSMap.get (JSMap.set m k v) k' = JSMap.get m k'.
Proof.
  induction m as [|[k0 v0] m IH]; intros k v k' Hne; simpl.
  - rewrite String_eqb_neq; auto.
  - destruct (String_eqb k0 k) eqn:E; simpl.
    + apply String_eqb_eq in E. subst k0.
      rewrite (String_eqb_neq k k'); auto.
    + destruct (String_eqb k0 k'); auto.
Qed.

Lemma set_absent :
  forall m k v, JSMap.get m k = None -> JSMap.set m k v = m ++ [(k, v)].
Proof.
  induction m as [|[k' v'] m IH]; intros k v H; simpl in *.
  - reflexivity.
  - destruct (String_eqb k' k); [discriminate|]. now rewrite IH.
Qed.

Lemma keys_set_present :
  forall m k v v0, JSMap.get m k = Some v0 ->
    JSMap.keys (JSMap.set m k v) = JSMap.keys m.
Proof.
  induction m as [|[k' v'] m IH]; intros k v v0 H; simpl in *.
  - discriminate.
  - destruct (String_eqb k' k); simpl; [reflexivity|].
    f_equal. exact (IH _ _ _ H).
Qed.

Lemma get_In : forall m k v, JSMap.get m k = Some v -> In v (JSMap.values m).
Proof.
  induction m as [|[k' v'] m IH]; intros k v H; simpl in *.
  - discriminate.
  - destruct (String_eqb k' k).
    + injection H as ->. now left.
    + right. exact (IH _ _ H).
Qed.

Lemma get_None_keys : forall m k, JSMap.get m k = None <-> ~ In k (JSMap.keys m).
Proof.
  induction m as [|[k' v'] m IH]; intros k; simpl.
  - tauto.
  - destruct (String_eqb k' k) eqn:E.
    + apply String_eqb_eq in E. split; [discriminate|]. intros H. tauto.
    + rewrite IH. split; [|tauto]. intros H [H1|H1]; [|tauto].
      subst k'. rewrite String_eqb_refl in E. discriminate.
Qed.

Lemma delete_found :
  forall m k, fst (JSMap.delete m k) = JSMap.has m k.
Proof.
  unfold JSMap.has.
  induction m as [|[k' v'] m IH]; intros k; simpl.
  - reflexivity.
  - destruct (String_eqb k' k); [reflexivity|].
    specialize (IH k). destruct (JSMap.delete m k). exact IH.
Qed.

Lemma delete_absent :
  forall m k, JSMap.get m k = None -> snd (JSMap.delete m k) = m.
Proof.
  induction m as [|[k' v'] m IH]; intros k H; simpl in *.
  - reflexivity.
  - destruct (String_eqb k' k); [discriminate|].
    specialize (IH k H). destruct (JSMap.delete m k). simpl in *. now rewrite IH.
Qed.

Lemma get_delete_other :
  forall m k k', k' <> k ->
    JSMap.get (snd (JSMap.delete m k)) k' = JSMap.get m k'.
Proof.
  induction m as [|[k0 v0] m IH]; intros k k' Hne; simpl.
  - reflexivity.
  - destruct (String_eqb k0 k) eqn:E; simpl.
    + apply String_eqb_eq in E. subst k0. rewrite String_eqb_neq; auto.
    + specialize (IH k k' Hne). destruct (JSMap.delete m k). simpl in *.
      destruct (String_eqb k0 k'); auto.
Qed.

Lemma get_delete_same :
  forall m k, NoDup (JSMap.keys m) -> JSMap.get (snd (JSMap.delete m k)) k = None.
Proof.
  induction m as [|[k0 v0] m IH]; intros k Hnd; simpl.
  - reflexivity.
  - inversion Hnd as [|? ? Hnin Hnd']; subst.
    destruct (String_eqb k0 k) eqn:E; simpl.
    + apply String_eqb_eq in E. subst k0. now apply get_None_keys.
    + specialize (IH k Hnd'). destruct (JSMap.delete m k). simpl in *.
      now rewrite E.
Qed.

Lemma length_delete :
  forall m k v, JSMap.get m k = Some v ->
    S (List.length (snd (JSMap.delete m k))) = List.length m.
Proof.
  induction m as [|[k0 v0] m IH]; intros k v H; simpl in *.
  - discriminate.
  - destruct (String_eqb k0 k); simpl; [reflexivity|].
    specialize (IH k v H). destruct (JSMap.delete m k). simpl in *. now rewrite IH.
Qed.

End WithValues.
End JSMapFacts.

Section SortFacts.

Context {A : Type}.
Variable key : A -> Z.

(** The comparator [(a, b) => key(b) - key(a)] sorts by [key],
    descending. *)
Lemma insertSorted_perm :
  forall x l,
    Permutation (x :: l) (insertSorted (fun a b => (key b - key a)%Z) x l).
Proof.
  intros x l. induction l as [|y l IH]; simpl.
  - apply Permutation_refl.
  - destruct (key y - key x <=? 0)%Z.
    + apply Permutation_refl.
    + eapply perm_trans; [apply perm_swap|]. now apply perm_skip.
Qed.

Lemma sort_perm :
  forall l, Permutation l (sort (fun a b => (key b - key a)%Z) l).
Proof.
  induction l as [|x l IH]; simpl.
  - apply perm_nil.
  - eapply perm_trans; [|apply insertSorted_perm]. now apply perm_skip.
Qed.

Lemma insertSorted_sorted :
  forall x l,
    StronglySorted (fun a b => (key b <= key a)%Z) l ->
    StronglySorted (fun a b => (key b <= key a)%Z)
      (insertSorted (fun a b => (key b - key a)%Z) x l).
Proof.
  intros x l H. induction H as [|y l Hs IH Hall]; simpl.
  - constructor; constructor.
  - destruct (key y - key x <=? 0)%Z eqn:E.
    + apply Z.leb_le in E. constructor.
      * now constructor.
      * constructor; [lia|].
        eapply Forall_impl; [|exact Hall]. intros z Hz. simpl in Hz. lia.
    + apply Z.leb_gt in E. constructor; [exact IH|].
      apply (Permutation_Forall (insertSorted_perm x l)).
      constructor; [lia|exact Hall].
Qed.

Lemma sort_sorted :
  forall l,
    StronglySorted (fun a b => (key b <= key a)%Z)
      (sort (fun a b => (key b - key a)%Z) l).
Proof.
  induction l as [|x l IH]; simpl.
  - constructor.
  - now apply insertSorted_sorted.
Qed.

End SortFacts.

(** ** Properties of the storage *)

(** X10: [setSetting] is an upsert on the key: the setting it returns is the
    one [getSetting] then finds under that key, with the new value; the
    other keys are unchanged; a key that was present keeps its id (when
    that id is not empty) and the number of settings, a new key takes the
    fresh id and is added at the end. *)
Theorem setSetting_upserts :
  forall freshId now insertSetting st,
    let key := InsertSystemSettings.key insertSetting in
    let setting := fst (MemStorage.setSetting freshId now insertSetting st) in
    let st' := snd (MemStorage.setSetting freshId now insertSetting st) in
    MemStorage.getSetting st' key = Some setting
    /\ SystemSettings.value setting = InsertSystemSettings.value insertSetting
    /\ (forall key', key' <> key ->
          MemStorage.getSetting st' key' = MemStorage.getSetting st key')
    /\ match MemStorage.getSetting st key with
       | Some existing =>
           (SystemSettings.id existing <> [] ->
            SystemSettings.id setting = SystemSettings.id existing)
           /\ List.length (MemStorage.getAllSettings st')
              = List.length (MemStorage.getAllSettings st)
       | None =>
           SystemSettings.id setting = freshId
           /\ MemStorage.getAllSettings st'
              = MemStorage.getAllSettings st ++ [setting]
       end.
Proof.
  intros freshId now ins st key setting st'.
  unfold setting, st', MemStorage.setSetting, MemStorage.getSetting,
    MemStorage.getAllSettings. cbn [fst snd MemStorage.systemSettings
    MemStorage.withSystemSettings]. fold key.
  split; [apply JSMapFacts.get_set_same|]. split; [reflexivity|].
  split; [intros key' Hne; now apply JSMapFacts.get_set_other|].
  destruct (JSMap.get (MemStorage.systemSettings st) key) as [existing|] eqn:G.
  - split.
    + cbn [SystemSettings.id]. destruct (SystemSettings.id existing); [tauto|reflexivity].
    + unfold JSMap.values. rewrite !length_map.
      rewrite <- (length_map fst), <- (length_map fst (MemStorage.systemSettings st)).
      f_equal. exact (JSMapFacts.keys_set_present _ _ _ _ G).
  - split; [reflexivity|].
    rewrite (JSMapFacts.set_absent _ _ _ G). unfold JSMap.values.
    now rewrite map_app.
Qed.

(** X11: [createDevice] stores the device under its id, where [getDevice] finds
    it; its status and security level are never empty (an absent, null or
    empty one becomes "offline" and "standard", any other is kept), an
    empty location and an uptime of 0 are stored as [null], the other
    devices are unchanged, and with an id not yet in use the device is
    added at the end of the list. *)
Theorem createDevice_then_get :
  forall id now insertDevice st,
    let device := fst (MemStorage.createDevice id now insertDevice st) in
    let st' := snd (MemStorage.createDevice id now insertDevice st) in
    MemStorage.getDevice st' id = Some device
    /\ Device.id device = id
    /\ Device.name device = InsertDevice.name insertDevice
    /\ Device.lastSeen device = Some now
    /\ Device.status device <> []
    /\ (InsertDevice.status insertDevice = Absent -> Device.status device = js "offline")
    /\ (exists level, Device.securityLevel device = Some level /\ level <> [])
    /\ (InsertDevice.uptime insertDevice = Present 0%float -> Device.uptime device = None)
    /\ (forall id', id' <> id ->
          MemStorage.getDevice st' id' = MemStorage.getDevice st id')
    /\ (MemStorage.getDevice st id = None ->
        MemStorage.getAllDevices st' = MemStorage.getAllDevices st ++ [device])
    /\ Device.status device
       = match InsertDevice.status insertDevice with
         | Present (c :: s) => c :: s
         | _ => js "offline"
         end
    /\ Device.securityLevel device
       = Some match InsertDevice.securityLevel insertDevice with
              | Present (c :: s) => c :: s
              | _ => js "standard"
              end
    /\ Device.location device
       = match InsertDevice.location insertDevice with
         | Present (c :: s) => Some (c :: s)
         | _ => None
         end.
Proof.
  intros id now ins st device st'.
  unfold device, st', MemStorage.createDevice, MemStorage.getDevice,
    MemStorage.getAllDevices.
  cbn [fst snd MemStorage.devices MemStorage.withDevices Device.id Device.name
       Device.lastSeen Device.status Device.securityLevel Device.uptime
       Device.location].
  split; [apply JSMapFacts.get_set_same|].
  do 3 (split; [reflexivity|]).
  split.
  { unfold orString. destruct (InsertDevice.status ins) as [| |[|c s]];
      simpl; discriminate. }
  split; [intros ->; reflexivity|].
  split.
  { eexists. split; [reflexivity|].
    unfold orString. destruct (InsertDevice.securityLevel ins) as [| |[|c s]];
      simpl; discriminate. }
  split; [intros ->; reflexivity|].
  split; [intros id' Hne; now apply JSMapFacts.get_set_other|].
  split.
  { intros G. rewrite (JSMapFacts.set_absent _ _ _ G). unfold JSMap.values.
    now rewrite map_app. }
  split; [|split].
  - unfold orString. destruct (InsertDevice.status ins) as [| |[|c s]]; reflexivity.
  - unfold orString.
    destruct (InsertDevice.securityLevel ins) as [| |[|c s]]; reflexivity.
  - unfold orNullString.
    destruct (InsertDevice.location ins) as [| |[|c s]]; reflexivity.
Qed.

(** X12: [updateDevice] on an id that is not stored returns [undefined] and
    leaves the storage as it is.  On a stored id it returns the merged
    device, which [getDevice] then finds under the same key, in the same
    place of the list: every property the update holds replaces the
    stored one and every other is kept, except that [lastSeen] is the
    time of the call whatever the update says; an [id] in the update is
    written into the record while the key stays, so a device can end up
    stored under a key that is not its id. *)
Theorem updateDevice_merges :
  forall now id updates st,
    let result := fst (MemStorage.updateDevice now id updates st) in
    let st' := snd (MemStorage.updateDevice now id updates st) in
    match MemStorage.getDevice st id with
    | None => result = None /\ st' = st
    | Some device =>
        exists updated,
          result = Some updated
          /\ MemStorage.getDevice st' id = Some updated
          /\ Device.lastSeen updated = Some now
          /\ Device.id updated = spread (PartialDevice.id updates) (Device.id device)
          /\ Device.status updated
             = spread (PartialDevice.status updates) (Device.status device)
          /\ Device.name updated
             = spread (PartialDevice.name updates) (Device.name device)
          /\ Device.location updated
             = spread (PartialDevice.location updates) (Device.location device)
          /\ Device.uptime updated
             = spread (PartialDevice.uptime updates) (Device.uptime device)
          /\ Device.capabilities updated
             = spread (PartialDevice.capabilities updates) (Device.capabilities device)
          /\ Device.securityLevel updated
             = spread (PartialDevice.securityLevel updates)
                 (Device.securityLevel device)
          /\ JSMap.keys (MemStorage.devices st') = JSMap.keys (MemStorage.devices st)
          /\ (forall id', id' <> id ->
                MemStorage.getDevice st' id' = MemStorage.getDevice st id')
    end.
Proof.
  intros now id updates st result st'.
  unfold result, st', MemStorage.updateDevice, MemStorage.getDevice.
  destruct (JSMap.get (MemStorage.devices st) id) as [device|] eqn:G.
  - cbn [fst snd MemStorage.devices MemStorage.withDevices].
    eexists. split; [reflexivity|].
    split; [apply JSMapFacts.get_set_same|].
    do 8 (split; [reflexivity|]).
    split; [exact (JSMapFacts.keys_set_present _ _ _ _ G)|].
    intros id' Hne. now apply JSMapFacts.get_set_other.
  - split; reflexivity.
Qed.

(** X13: [deleteDevice] answers whether the id was stored; afterwards
    [getDevice] does not find it, the other devices are unchanged, and the
    list is one shorter if the id was stored and the same if not. *)
Theorem deleteDevice_removes :
  forall id st,
    distinctDeviceKeys st ->
    let found := fst (MemStorage.deleteDevice id st) in
    let st' := snd (MemStorage.deleteDevice id st) in
    (found = true <-> MemStorage.getDevice st id <> None)
    /\ MemStorage.getDevice st' id = None
    /\ (forall id', id' <> id ->
          MemStorage.getDevice st' id' = MemStorage.getDevice st id')
    /\ List.length (MemStorage.getAllDevices st')
       = (if found then List.length (MemStorage.getAllDevices st) - 1
          else List.length (MemStorage.getAllDevices st))%nat
    /\ (found = false -> st' = st).
Proof.
  intros id st Hnd found st'.
  unfold found, st', MemStorage.deleteDevice, MemStorage.getDevice,
    MemStorage.getAllDevices.
  pose proof (JSMapFacts.delete_found (MemStorage.devices st) id) as F.
  pose proof (JSMapFacts.get_delete_same (MemStorage.devices st) id Hnd) as S.
  pose proof (JSMapFacts.get_delete_other (MemStorage.devices st) id) as O.
  destruct (JSMap.delete (MemStorage.devices st) id) as [fd m] eqn:D.
  cbn [fst snd MemStorage.devices MemStorage.withDevices] in *.
  unfold JSMap.has in F. unfold JSMap.values. rewrite !length_map.
  destruct (JSMap.get (MemStorage.devices st) id) as [d|] eqn:G; subst fd.
  - split; [split; [discriminate|reflexivity]|].
    split; [exact S|]. split; [exact O|]. split; [|discriminate].
    pose proof (JSMapFacts.length_delete _ _ _ G) as L. rewrite D in L.
    simpl in L. lia.
  - pose proof (JSMapFacts.delete_absent _ _ G) as E. rewrite D in E.
    simpl in E. subst m.
    split; [split; [discriminate|intros H; now elim H]|].
    split; [exact G|]. split; [exact O|]. split; [reflexivity|].
    intros _. destruct st; reflexivity.
Qed.

(** X14: [getAllFLRounds] returns the stored rounds, each once, ordered by
    round number from the highest to the lowest. *)
Theorem getAllFLRounds_sorted :
  forall st,
    Permutation (JSMap.values (MemStorage.flRounds st)) (MemStorage.getAllFLRounds st)
    /\ StronglySorted
         (fun a b => (FLRound.roundNumber b <= FLRound.roundNumber a)%Z)
         (MemStorage.getAllFLRounds st).
Proof.
  intros st. unfold MemStorage.getAllFLRounds. split.
  - apply (sort_perm FLRound.roundNumber).
  - apply (sort_sorted FLRound.roundNumber).
Qed.

(** X15: [getAnomaliesByTimeRange] returns the stored anomalies detected
    between the two dates, both included; with an invalid date, or a start
    after the end, it returns the empty list. *)
Theorem getAnomaliesByTimeRange_selects :
  forall startDate endDate st,
    let result := MemStorage.getAnomaliesByTimeRange startDate endDate st in
    (forall a,
        In a result <->
        In a (JSMap.values (MemStorage.anomalies st))
        /\ exists s e, startDate = DateAt s /\ endDate = DateAt e
                       /\ (s <= getTime (Anomaly.detectedAt a) <= e)%Z)
    /\ (startDate = InvalidDate \/ endDate = InvalidDate -> result = [])
    /\ (forall s e, startDate = DateAt s -> endDate = DateAt e -> (e < s)%Z ->
          result = []).
Proof.
  intros startDate endDate st result.
  assert (M : forall a,
             In a result <->
             In a (JSMap.values (MemStorage.anomalies st))
             /\ exists s e, startDate = DateAt s /\ endDate = DateAt e
                            /\ (s <= getTime (Anomaly.detectedAt a) <= e)%Z).
  { intros a. unfold result, MemStorage.getAnomaliesByTimeRange.
    rewrite filter_In. cbv zeta. rewrite andb_true_iff.
    unfold MemStorage.timeGe, MemStorage.timeLe.
    split.
    - intros (Hin & Hs & He). split; [exact Hin|].
      destruct startDate as [|s]; [discriminate|].
      destruct endDate as [|e]; [discriminate|].
      exists s, e. apply Z.leb_le in Hs. apply Z.leb_le in He. auto.
    - intros (Hin & s & e & -> & -> & Hs & He). split; [exact Hin|].
      split; apply Z.leb_le; assumption. }
  assert (Empty : (forall a, ~ In a result) -> result = []).
  { intros H. destruct result as [|a l]; [reflexivity|].
    exfalso. apply (H a). now left. }
  split; [exact M|]. split.
  - intros H. apply Empty. intros a Ha. apply M in Ha.
    destruct Ha as (_ & s & e & Hs & He & _).
    destruct H; congruence.
  - intros s e Hs He Hlt. apply Empty. intros a Ha. apply M in Ha.
    destruct Ha as (_ & s' & e' & Hs' & He' & Hr).
    rewrite Hs in Hs'. rewrite He in He'.
    injection Hs' as <-. injection He' as <-. lia.
Qed.

(** ** Properties of the routes *)

Lemma filter_negb_length :
  forall (A : Type) (p : A -> bool) (l : list A),
    (List.length (filter p l) + List.length (filter (fun x => negb (p x)) l)
     = List.length l)%nat.
Proof.
  intros A p l. induction l as [|x l IH]; [reflexivity|].
  cbn [filter]. destruct (p x); cbn [negb List.length]; lia.
Qed.

Lemma filter_rest_length :
  forall (A : Type) (p q : A -> bool) (l : list A),
    (forall x, q x = true -> p x = false) ->
    (List.length (filter (fun x => negb (p x)) l)
     = List.length (filter q l)
       + List.length (filter (fun x => negb (p x) && negb (q x)) l))%nat.
Proof.
  intros A p q l H. induction l as [|x l IH]; [reflexivity|].
  cbn [filter]. destruct (q x) eqn:Q.
  - rewrite (H x Q). cbn [negb andb List.length]. lia.
  - destruct (p x); cbn [negb andb List.length]; lia.
Qed.

(** X8: In the status report [online] and [participating] are the numbers of
    stored devices with that status, and [offline] is the number of all
    those whose status is not "online": so online + offline is the total,
    and a participating device is counted as offline, beside every device
    whose status is neither of the two. *)
Theorem status_device_counts :
  forall now st,
    let s := statusReport now st in
    let devices := MemStorage.getAllDevices st in
    let withStatus v := filter (fun d => String_eqb (Device.status d) v) devices in
    let notOnline :=
      filter (fun d => negb (String_eqb (Device.status d) (js "online"))) devices in
    let others :=
      filter (fun d => negb (String_eqb (Device.status d) (js "online"))
                       && negb (String_eqb (Device.status d) (js "participating")))
        devices in
    devices_total s = lengthOf devices
    /\ devices_online s = lengthOf (withStatus (js "online"))
    /\ devices_participating s = lengthOf (withStatus (js "participating"))
    /\ devices_offline s = lengthOf notOnline
    /\ (forall d, In d notOnline <-> In d devices /\ Device.status d <> js "online")
    /\ (forall d, In d (withStatus (js "participating")) -> In d notOnline)
    /\ (devices_offline s = devices_participating s + lengthOf others)%Z
    /\ (devices_online s + devices_offline s = devices_total s)%Z
    /\ (0 <= devices_participating s <= devices_offline s)%Z
    /\ (0 <= devices_online s <= devices_total s)%Z.
Proof.
  intros now st s devices withStatus notOnline others.
  pose proof (filter_negb_length _
                (fun d => String_eqb (Device.status d) (js "online")) devices) as Split.
  cbv beta in Split. fold notOnline in Split. fold (withStatus (js "online")) in Split.
  assert (Part : (List.length notOnline
                  = List.length (withStatus (js "participating")) + List.length others)%nat).
  { apply (filter_rest_length _
             (fun d => String_eqb (Device.status d) (js "online"))
             (fun d => String_eqb (Device.status d) (js "participating"))).
    intros x E. apply String_eqb_eq in E. rewrite E. reflexivity. }
  assert (Off : devices_offline s = lengthOf notOnline).
  { unfold s, statusReport. cbv zeta. cbn [devices_offline]. unfold lengthOf.
    fold devices. fold (withStatus (js "online")). lia. }
  assert (On : devices_online s = lengthOf (withStatus (js "online"))) by reflexivity.
  assert (Pa : devices_participating s = lengthOf (withStatus (js "participating")))
    by reflexivity.
  assert (To : devices_total s = lengthOf devices) by reflexivity.
  split; [exact To|]. split; [exact On|]. split; [exact Pa|]. split; [exact Off|].
  split; [|split].
  - intros d. unfold notOnline. rewrite filter_In. split.
    + intros (Hin & Hs). split; [exact Hin|]. intros E. rewrite E in Hs. discriminate Hs.
    + intros (Hin & Hs). split; [exact Hin|].
      destruct (String_eqb (Device.status d) (js "online")) eqn:E; [|reflexivity].
      apply String_eqb_eq in E. contradiction.
  - intros d. unfold withStatus, notOnline. rewrite !filter_In.
    intros (Hin & Hs). split; [exact Hin|]. apply String_eqb_eq in Hs. rewrite Hs.
    reflexivity.
  - rewrite Off, On, Pa, To. unfold lengthOf. repeat split; lia.
Qed.

Lemma find_sorted :
  forall (A : Type) (R : A -> A -> Prop) (p : A -> bool) (l : list A) (x : A),
    StronglySorted R l -> find p l = Some x ->
    In x l /\ p x = true /\ forall y, In y l -> p y = true -> y = x \/ R x y.
Proof.
  intros A R p l x H. induction H as [|a l Hs IH Hall]; simpl; intros F.
  - discriminate.
  - destruct (p a) eqn:P.
    + injection F as <-. split; [now left|]. split; [exact P|].
      intros y [<-|Hy] Py; [now left|]. right.
      rewrite Forall_forall in Hall. now apply Hall.
    + destruct (IH F) as (Hin & Px & Hy). split; [now right|]. split; [exact Px|].
      intros y [<-|Hy'] Py; [congruence|]. now apply Hy.
Qed.

(** X9: In the status report [currentRound] is the highest round number among
    the stored rounds whose status is "active" (0 when there is none), and
    the performance figures are those of the round with the highest
    round number, whatever its status. *)
Theorem status_current_round :
  forall now st,
    let s := statusReport now st in
    let rounds := JSMap.values (MemStorage.flRounds st) in
    let active (r : FLRound.t) := FLRound.status r = js "active" in
    (forall r, In r rounds -> active r ->
       (FLRound.roundNumber r <= fl_currentRound s)%Z
       /\ exists r0, In r0 rounds /\ active r0
                     /\ fl_currentRound s = FLRound.roundNumber r0)
    /\ ((forall r, In r rounds -> ~ active r) ->
        fl_currentRound s = 0%Z /\ fl_activeRounds s = 0%Z)
    /\ (rounds <> [] ->
        exists r0, In r0 rounds
                   /\ (forall r, In r rounds ->
                         (FLRound.roundNumber r <= FLRound.roundNumber r0)%Z)
                   /\ performance_accuracy s = orNumber (FLRound.accuracy r0) 0.947
                   /\ performance_precision s = orNumber (FLRound.precision r0) 0.912
                   /\ performance_recall s = orNumber (FLRound.recall r0) 0.895).
Proof.
  intros now st s rounds active.
  assert (Perm : Permutation rounds (MemStorage.getAllFLRounds st))
    by apply (sort_perm FLRound.roundNumber).
  assert (Sorted : StronglySorted
                     (fun a b => (FLRound.roundNumber b <= FLRound.roundNumber a)%Z)
                     (MemStorage.getAllFLRounds st))
    by apply (sort_sorted FLRound.roundNumber).
  assert (V : fl_currentRound s
              = match find (fun r => String_eqb (FLRound.status r) (js "active"))
                        (MemStorage.getAllFLRounds st) with
                | Some r => FLRound.roundNumber r
                | None => 0%Z
                end).
  { unfold s, statusReport. cbv zeta. cbn [fl_currentRound].
    destruct (find _ _) as [r|]; [|reflexivity].
    unfold truthyInteger. destruct (Z.eqb_spec (FLRound.roundNumber r) 0);
      simpl; congruence. }
  split; [|split].
  - intros r Hin Ha. rewrite V.
    destruct (find _ (MemStorage.getAllFLRounds st)) as [r0|] eqn:F.
    + destruct (find_sorted _ _ _ _ _ Sorted F) as (Hin0 & P0 & Hmax).
      split.
      * destruct (Hmax r) as [->|Hle].
        -- eapply Permutation_in; eassumption.
        -- apply String_eqb_eq. exact Ha.
        -- lia.
        -- exact Hle.
      * exists r0. split; [|split; [|reflexivity]].
        -- eapply Permutation_in; [symmetry; exact Perm|exact Hin0].
        -- apply String_eqb_eq. exact P0.
    + exfalso.
      pose proof (find_none _ _ F r (Permutation_in _ Perm Hin)) as N.
      simpl in N. rewrite (proj2 (String_eqb_eq _ _) Ha) in N. discriminate.
  - intros Hnone. rewrite V.
    assert (F : filter (fun r => String_eqb (FLRound.status r) (js "active"))
                  (MemStorage.getAllFLRounds st) = []).
    { destruct (filter _ _) as [|r l] eqn:E; [reflexivity|]. exfalso.
      assert (Hr : In r (filter (fun r => String_eqb (FLRound.status r) (js "active"))
                           (MemStorage.getAllFLRounds st))) by (rewrite E; now left).
      apply filter_In in Hr. destruct Hr as (Hr & Pr).
      apply (Hnone r).
      - eapply Permutation_in; [symmetry; exact Perm|exact Hr].
      - apply String_eqb_eq. exact Pr. }
    split.
    + destruct (find _ _) as [r0|] eqn:F0; [|reflexivity]. exfalso.
      apply find_some in F0. destruct F0 as (Hin0 & P0).
      apply (Hnone r0).
      * eapply Permutation_in; [symmetry; exact Perm|exact Hin0].
      * apply String_eqb_eq. exact P0.
    + unfold s, statusReport. cbv zeta. cbn [fl_activeRounds].
      rewrite F. reflexivity.
  - intros Hne. unfold s, statusReport. cbv zeta.
    cbn [performance_accuracy performance_precision performance_recall].
    destruct (MemStorage.getAllFLRounds st) as [|r0 l] eqn:E.
    + exfalso. apply Hne. apply Permutation_sym in Perm.
      now apply Permutation_nil in Perm.
    + exists r0. split.
      * eapply Permutation_in; [symmetry; exact Perm|now left].
      * split; [|repeat split].
        intros r Hin. apply (Permutation_in _ Perm) in Hin.
        inversion Sorted as [|? ? Hs Hall]; subst.
        destruct Hin as [<-|Hin]; [lia|].
        rewrite Forall_forall in Hall. now apply Hall.
Qed.

(** The description of a supported result is not the empty string. *)
Lemma description_not_empty :
  forall toLowerCase toFixed toISOString now file r,
    analyzeFile toLowerCase toFixed toISOString now file = Classified r ->
    truthyString (description r) = true.
Proof.
  intros lower fixed iso now file r. unfold analyzeFile.
  destruct (negb _ && negb _); [discriminate|].
  cbv zeta. intros H. injection H as <-. cbn [description].
  rewrite replace_spaced.
  destruct (_ <? _)%float; [reflexivity|].
  destruct (negb _ && _).
  - destruct (type _); reflexivity.
  - reflexivity.
Qed.

Lemma typeString_not_empty : forall t, truthyString (typeString t) = true.
Proof. intros []; reflexivity. Qed.

Lemma severityString_not_empty : forall s, truthyString (severityString s) = true.
Proof. intros []; reflexivity. Qed.

Lemma orString_truthy :
  forall s d, truthyString s = true -> orString (Present s) d = s.
Proof. intros s d H. unfold orString. now rewrite H. Qed.

(** X7: An upload followed by its analysis on the fallback path.  The handler
    answers 201 with the stored file in status "uploaded"; after the
    callback the file is in status "analyzed" and holds the result, also
    when the media type is unsupported.  An anomaly is stored, and
    announced before the file, exactly when the type is supported and the
    category is not "normal": it carries the category, the reported
    severity (which may be "uncertain"), the displayed confidence, the
    description, and the device of the request or "upload-device". *)
Theorem upload_then_analysis :
  forall toLowerCase toFixed toISOString clock anomalyId id now file body st,
    let uploaded := uploadHandler id now (Some file) body st in
    let analysed :=
      analysisCallback toLowerCase toFixed toISOString clock anomalyId id
        (body_deviceId body) file (snd uploaded) in
    let result :=
      analyzeFile toLowerCase toFixed toISOString (atAnalysis clock)
        {| originalname := mf_originalname file; mimetype := mf_mimetype file |} in
    (exists f, fst uploaded = Status201 f
               /\ MemStorage.getUploadedFile (snd uploaded) id = Some f
               /\ UploadedFile.status f = js "uploaded"
               /\ UploadedFile.uploadedBy f <> None)
    /\ (exists f, MemStorage.getUploadedFile (fst analysed) id = Some f
                  /\ UploadedFile.status f = js "analyzed"
                  /\ UploadedFile.analysisResults f = AnalysisOf result)
    /\ match result with
       | Unsupported _ =>
           MemStorage.anomalies (fst analysed) = MemStorage.anomalies st
           /\ map messageType (snd analysed) = [js "file_analyzed"]
       | Classified r =>
           if AnomalyType_eqb (anomalyType r) normal then
             MemStorage.anomalies (fst analysed) = MemStorage.anomalies st
             /\ map messageType (snd analysed) = [js "file_analyzed"]
           else
             exists a,
               MemStorage.getAnomaly (fst analysed) anomalyId = Some a
               /\ Anomaly.type a = typeString (anomalyType r)
               /\ Anomaly.severity a = Present (severityString (severity r))
               /\ Anomaly.confidence a = confidence r
               /\ Anomaly.description a = Some (description r)
               /\ Anomaly.deviceId a
                  = Some (orString (optional (body_deviceId body)) (js "upload-device"))
               /\ Anomaly.detectedAt a = Some (atAnomaly clock)
               /\ map messageType (snd analysed)
                  = [js "anomaly_detected"; js "file_analyzed"]
               /\ map messageData (snd analysed)
                  = [AnomalyData a; FileAnalyzed id result]
       end.
Proof.
  intros lower fixed iso clock anomalyId id now file body st uploaded analysed result.
  unfold uploaded, uploadHandler, MemStorage.createUploadedFile in *.
  cbn [fst snd] in *.
  split.
  { eexists. split; [reflexivity|]. split.
    - unfold MemStorage.getUploadedFile.
      cbn [MemStorage.uploadedFiles MemStorage.withUploadedFiles].
      apply JSMapFacts.get_set_same.
    - split; [reflexivity|]. cbn [UploadedFile.uploadedBy InsertUploadedFile.uploadedBy].
      unfold orNullString, orString.
      destruct (optional (body_uploadedBy body)) as [| |[|c s]]; simpl; discriminate. }
  unfold analysed, analysisCallback. fold result.
  unfold MemStorage.updateUploadedFile.
  cbn [MemStorage.uploadedFiles MemStorage.withUploadedFiles].
  rewrite JSMapFacts.get_set_same.
  cbn [PartialUploadedFile.statusAndResults PartialUploadedFile.status
       PartialUploadedFile.analysisResults spread].
  assert (D : get_anomalyDetected result
              = match result with
                | Unsupported _ => false
                | Classified r => negb (AnomalyType_eqb (anomalyType r) normal)
                end
              /\ match result with
                 | Unsupported _ => True
                 | Classified r => truthyNumber (confidence r) = true
                 end).
  { destruct (supported (mf_mimetype file)) eqn:Hs.
    - destruct (detection_flag lower fixed iso (atAnalysis clock)
                  {| originalname := mf_originalname file;
                     mimetype := mf_mimetype file |} Hs) as (r & Hr & Hd & Ht).
      fold result in Hr. rewrite Hr. cbn [get_anomalyDetected]. auto.
    - unfold result.
      rewrite (analyzeFile_unsupported lower fixed iso (atAnalysis clock)
                 {| originalname := mf_originalname file;
                    mimetype := mf_mimetype file |} Hs).
      split; reflexivity. }
  destruct D as (D & C). rewrite D.
  destruct result as [u|r] eqn:R.
  - cbn [fst snd MemStorage.getUploadedFile MemStorage.uploadedFiles
         MemStorage.withUploadedFiles MemStorage.anomalies app map messageType].
    split; [|split; reflexivity].
    eexists. split; [apply JSMapFacts.get_set_same|]. split; reflexivity.
  - destruct (AnomalyType_eqb (anomalyType r) normal) eqn:T; cbn [negb].
    + cbn [fst snd MemStorage.getUploadedFile MemStorage.uploadedFiles
           MemStorage.withUploadedFiles MemStorage.anomalies app map messageType].
      split; [|split; reflexivity].
      eexists. split; [apply JSMapFacts.get_set_same|]. split; reflexivity.
    + unfold MemStorage.createAnomaly.
      cbn [fst snd MemStorage.getUploadedFile MemStorage.getAnomaly
           MemStorage.uploadedFiles MemStorage.anomalies MemStorage.withAnomalies
           MemStorage.withUploadedFiles app map messageType messageData].
      split.
      { eexists. split; [apply JSMapFacts.get_set_same|]. split; reflexivity. }
      eexists. split; [apply JSMapFacts.get_set_same|].
      cbn [Anomaly.type Anomaly.severity Anomaly.confidence Anomaly.description
           Anomaly.deviceId Anomaly.detectedAt InsertAnomaly.type
           InsertAnomaly.severity InsertAnomaly.confidence InsertAnomaly.description
           InsertAnomaly.deviceId get_anomalyType get_severity get_confidence
           get_description option_map optional].
      rewrite C.
      rewrite (orString_truthy _ _ (typeString_not_empty _)).
      rewrite (orString_truthy _ _ (severityString_not_empty _)).
      rewrite (orString_truthy _ _ (description_not_empty _ _ _ _ _ _ R)).
      unfold orNullString at 1.
      rewrite (description_not_empty _ _ _ _ _ _ R).
      repeat split.
      unfold orNullString, orString.
      destruct (body_deviceId body) as [[|c s]|]; reflexivity.
Qed.

(** ** Properties of the simulation services *)

Module ClientSimulatorFacts.
Import ClientSimulator.

Lemma activity_id : forall rand now c, id (activity rand now c) = id c.
Proof.
  intros rand now c. unfold activity.
  destruct (_ <? _)%float; [reflexivity|].
  destruct (_ && _); reflexivity.
Qed.

Lemma activity_status :
  forall rand now c, clientStatus (status c) -> clientStatus (status (activity rand now c)).
Proof.
  intros rand now c H. unfold activity, clientStatus.
  destruct (_ <? _)%float.
  - cbn [status]. destruct (String_eqb _ _); auto.
  - destruct (_ && _); cbn [status]; auto.
Qed.

Lemma forEachClient_ids :
  forall rand now l i, map id (forEachClient rand now i l) = map id l.
Proof.
  induction l as [|c l IH]; intros i; simpl; [reflexivity|].
  now rewrite activity_id, IH.
Qed.

Lemma forEachClient_statuses :
  forall rand now l i,
    Forall (fun c => clientStatus (status c)) l ->
    Forall (fun c => clientStatus (status c)) (forEachClient rand now i l).
Proof.
  induction l as [|c l IH]; intros i H; simpl; [constructor|].
  inversion H; subst. constructor; [now apply activity_status|now apply IH].
Qed.

Lemma simulator_run_app : forall e1 e2 sim, run (e1 ++ e2) sim = run e2 (run e1 sim).
Proof. intros. unfold run. apply fold_left_app. Qed.

Definition invariant (sim : t) : Prop :=
  map id (clients sim) = map clientId (seq 1 10)
  /\ Forall (fun c => clientStatus (status c)) (clients sim).

Lemma invariant_constructor : forall rand now, invariant (constructor rand now).
Proof.
  intros rand now. unfold invariant, constructor, initializeClients.
  cbn [clients]. split.
  - rewrite map_map. reflexivity.
  - apply Forall_map. apply Forall_forall. intros i _. cbn [status].
    unfold clientStatus. destruct (_ <? _)%float; auto.
Qed.

Lemma simulator_invariant_fire : forall e sim, invariant sim -> invariant (fire e sim).
Proof.
  intros e sim (Hid & Hst). unfold invariant. destruct e; simpl.
  - unfold startSimulation. destruct (isRunning sim); auto.
  - auto.
  - unfold simulateClientActivity. destruct (negb (isRunning sim)); [auto|].
    cbn [clients]. rewrite forEachClient_ids.
    split; [exact Hid|]. now apply forEachClient_statuses.
Qed.

Lemma simulator_invariant_run : forall events sim, invariant sim -> invariant (run events sim).
Proof.
  induction events as [|e events IH]; intros sim H; simpl; [exact H|].
  apply IH. now apply simulator_invariant_fire.
Qed.

End ClientSimulatorFacts.

(** X18: Whatever timer ticks, starts and stops follow its construction, the
    simulator keeps its ten clients "client-1" to "client-10" in order,
    each with one of the three statuses, and reports no more participating
    clients than online ones (a participating client counts as online). *)
Theorem clientSimulator_invariant :
  forall rand now events,
    let sim := ClientSimulator.run events (ClientSimulator.constructor rand now) in
    map ClientSimulator.id (ClientSimulator.clients sim)
    = map ClientSimulator.clientId (seq 1 10)
    /\ Forall (fun c => clientStatus (ClientSimulator.status c))
         (ClientSimulator.clients sim)
    /\ (0 <= ClientSimulator.getParticipatingCount sim
        <= ClientSimulator.getOnlineCount sim)%Z
    /\ (ClientSimulator.getOnlineCount sim <= 10)%Z.
Proof.
  intros rand now events sim.
  destruct (ClientSimulatorFacts.simulator_invariant_run events _
              (ClientSimulatorFacts.invariant_constructor rand now)) as (Hid & Hst).
  fold sim in Hid, Hst. split; [exact Hid|]. split; [exact Hst|].
  unfold ClientSimulator.getParticipatingCount, ClientSimulator.getOnlineCount, lengthOf.
  assert (L : List.length (ClientSimulator.clients sim) = 10%nat).
  { rewrite <- (length_map ClientSimulator.id), Hid, length_map. reflexivity. }
  pose proof (filter_length_le
                (fun c => String_eqb (ClientSimulator.status c) (js "online")
                          || String_eqb (ClientSimulator.status c) (js "participating"))
                (ClientSimulator.clients sim)) as Hle.
  assert (P : forall l : list ClientSimulator.Client,
             (List.length
                (filter (fun c => String_eqb (ClientSimulator.status c) (js "participating")) l)
              <= List.length
                   (filter (fun c => String_eqb (ClientSimulator.status c) (js "online")
                                     || String_eqb (ClientSimulator.status c)
                                          (js "participating")) l))%nat).
  { induction l as [|c l IH]; simpl; [lia|].
    destruct (String_eqb (ClientSimulator.status c) (js "participating")).
    - rewrite orb_true_r. simpl. lia.
    - rewrite orb_false_r.
      destruct (String_eqb (ClientSimulator.status c) (js "online")); simpl; lia. }
  specialize (P (ClientSimulator.clients sim)). lia.
Qed.

(** X19: One tick of the simulator changes the status of a client only along
    online -> offline, online -> participating, offline -> online and
    participating -> online: an offline client never becomes participating
    in one tick, and a participating client stays so or goes online. *)
Theorem clientSimulator_transitions :
  forall rand now sim,
    Forall2
      (fun c c' =>
         ClientSimulator.id c' = ClientSimulator.id c
         /\ (ClientSimulator.status c' = ClientSimulator.status c
             \/ (ClientSimulator.status c = js "online"
                 /\ (ClientSimulator.status c' = js "offline"
                     \/ ClientSimulator.status c' = js "participating"))
             \/ (ClientSimulator.status c <> js "online"
                 /\ ClientSimulator.status c' = js "online")))
      (ClientSimulator.clients sim)
      (ClientSimulator.clients (ClientSimulator.simulateClientActivity rand now sim)).
Proof.
  intros rand now sim. unfold ClientSimulator.simulateClientActivity.
  destruct (negb (ClientSimulator.isRunning sim)).
  - induction (ClientSimulator.clients sim); constructor; auto.
  - cbn [ClientSimulator.clients]. generalize 0%nat.
    induction (ClientSimulator.clients sim) as [|c l IH]; intros i; simpl;
      constructor; [|apply IH].
    split; [apply ClientSimulatorFacts.activity_id|].
    unfold ClientSimulator.activity.
    destruct (_ <? _)%float.
    + cbn [ClientSimulator.status].
      destruct (String_eqb (ClientSimulator.status c) (js "online")) eqn:E.
      * apply String_eqb_eq in E. auto.
      * right. right. split; [|reflexivity]. intros H.
        rewrite H in E. discriminate E.
    + destruct (_ <? _)%float; cbn [andb]; [|auto].
      destruct (String_eqb (ClientSimulator.status c) (js "online")) eqn:E; [|auto].
      apply String_eqb_eq in E. cbn [ClientSimulator.status]. auto.
Qed.

(** X20: While the simulator is not running, ticks of its timer change
    nothing: as long as no start is issued, the clients stay as they
    are. *)
Theorem clientSimulator_stopped :
  forall sim events,
    ClientSimulator.isRunning sim = false ->
    ~ In ClientSimulator.Start events ->
    ClientSimulator.run events sim = sim.
Proof.
  intros sim events. revert sim.
  induction events as [|e events IH]; intros sim Hr Hn; simpl; [reflexivity|].
  assert (F : ClientSimulator.fire e sim = sim).
  { destruct e; simpl.
    - exfalso. apply Hn. now left.
    - unfold ClientSimulator.stopSimulation. destruct sim; simpl in *. now subst.
    - unfold ClientSimulator.simulateClientActivity. now rewrite Hr. }
  rewrite F. apply IH; [exact Hr|]. intros H. apply Hn. now right.
Qed.

Module FLOrchestratorFacts.
Import FLOrchestrator.

Definition invariant (s : System) : Prop :=
  maxRounds (object s) = 20%Z
  /\ (0 <= currentRound (object s) <= maxRounds (object s))%Z
  /\ (isTraining (object s) = true -> (1 <= startsWaiting s + loopsWaiting s)%nat).

Lemma invariant_initial : invariant initial.
Proof. unfold invariant, initial. simpl. repeat split; try lia; discriminate. Qed.

Lemma trainingLoop_spec :
  forall o,
    (0 <= currentRound o <= maxRounds o)%Z ->
    let o' := fst (trainingLoop o) in
    maxRounds o' = maxRounds o
    /\ (0 <= currentRound o' <= maxRounds o')%Z
    /\ (isTraining o' = true -> snd (trainingLoop o) = true).
Proof.
  intros o H. unfold trainingLoop.
  destruct (isTraining o) eqn:T; cbn [andb].
  - destruct (currentRound o <? maxRounds o)%Z eqn:L; cbn [fst snd maxRounds
      currentRound isTraining stopTraining].
    + apply Z.ltb_lt in L. repeat split; lia.
    + repeat split; try lia; discriminate.
  - cbn [fst snd]. repeat split; try lia; congruence.
Qed.

Lemma orchestrator_invariant_fire : forall e s, invariant s -> invariant (fire e s).
Proof.
  intros e s (Hm & Hr & Hl). unfold invariant. destruct e; simpl.
  - unfold startTraining. destruct (isTraining (object s)) eqn:T.
    + cbn [object startsWaiting loopsWaiting]. auto.
    + cbn [object startsWaiting loopsWaiting maxRounds currentRound isTraining].
      repeat split; lia.
  - cbn [stopTraining maxRounds currentRound isTraining].
    repeat split; try lia; discriminate.
  - destruct (startsWaiting s) as [|n] eqn:W; [unfold invariant in *; rewrite ?W; auto|].
    pose proof (trainingLoop_spec (object s) Hr) as (Hm' & Hr' & Hg).
    destruct (trainingLoop (object s)) as [o g]. cbn [fst snd] in *.
    cbn [object startsWaiting loopsWaiting]. split; [congruence|]. split; [exact Hr'|].
    intros T. rewrite (Hg T). lia.
  - destruct (loopsWaiting s) as [|n] eqn:W; [unfold invariant in *; rewrite ?W; auto|].
    pose proof (trainingLoop_spec (object s) Hr) as (Hm' & Hr' & Hg).
    destruct (trainingLoop (object s)) as [o g]. cbn [fst snd] in *.
    cbn [object startsWaiting loopsWaiting]. split; [congruence|]. split; [exact Hr'|].
    intros T. rewrite (Hg T). lia.
Qed.

Lemma orchestrator_invariant_run : forall events s, invariant s -> invariant (run events s).
Proof.
  induction events as [|e events IH]; intros s H; simpl; [exact H|].
  apply IH. now apply orchestrator_invariant_fire.
Qed.

Lemma orchestrator_run_app : forall e1 e2 s, run (e1 ++ e2) s = run e2 (run e1 s).
Proof. intros. unfold run. apply fold_left_app. Qed.

End FLOrchestratorFacts.

(** X21: In every run of the orchestrator, however calls of start and stop
    interleave with the waiting loops, the round counter stays between 0
    and the 20 rounds of [maxRounds], and while [isTraining] is set some
    start or loop is still in flight to clear it.  Left alone after one
    start, the loop performs exactly 20 rounds and then clears
    [isTraining]. *)
Theorem flOrchestrator_rounds_bounded :
  forall events,
    let s := FLOrchestrator.run events FLOrchestrator.initial in
    (0 <= FLOrchestrator.currentRound (FLOrchestrator.object s) <= 20)%Z
    /\ FLOrchestrator.maxRounds (FLOrchestrator.object s) = 20%Z
    /\ (FLOrchestrator.isTraining (FLOrchestrator.object s) = true ->
        (1 <= FLOrchestrator.startsWaiting s + FLOrchestrator.loopsWaiting s)%nat)
    /\ FLOrchestrator.run
         ([FLOrchestrator.CallStart; FLOrchestrator.ResumeStart]
          ++ repeat FLOrchestrator.ResumeLoop 20)
         FLOrchestrator.initial
       = {| FLOrchestrator.object :=
              {| FLOrchestrator.isTraining := false;
                 FLOrchestrator.currentRound := 20;
                 FLOrchestrator.maxRounds := 20 |};
            FLOrchestrator.startsWaiting := 0;
            FLOrchestrator.loopsWaiting := 0 |}.
Proof.
  intros events s.
  destruct (FLOrchestratorFacts.orchestrator_invariant_run events _
              FLOrchestratorFacts.invariant_initial) as (Hm & Hr & Hl).
  fold s in Hm, Hr, Hl. rewrite Hm in Hr.
  repeat split; try lia; auto.
Qed.

(** X22: Nothing keeps two training loops from running at once: each stop
    followed by a start, issued while the earlier loops are still waiting,
    adds one more loop that advances the same round counter. *)
Theorem flOrchestrator_loops_unbounded :
  forall n,
    let s :=
      FLOrchestrator.run
        ([FLOrchestrator.CallStart; FLOrchestrator.ResumeStart]
         ++ List.concat (repeat restart n))
        FLOrchestrator.initial in
    FLOrchestrator.loopsWaiting s = S n
    /\ FLOrchestrator.startsWaiting s = 0%nat
    /\ FLOrchestrator.object s
       = {| FLOrchestrator.isTraining := true;
            FLOrchestrator.currentRound := 1;
            FLOrchestrator.maxRounds := 20 |}.
Proof.
  intros n s.
  assert (G : s = {| FLOrchestrator.object :=
                       {| FLOrchestrator.isTraining := true;
                          FLOrchestrator.currentRound := 1;
                          FLOrchestrator.maxRounds := 20 |};
                     FLOrchestrator.startsWaiting := 0;
                     FLOrchestrator.loopsWaiting := S n |}).
  { unfold s. clear s. induction n as [|n IH].
    - reflexivity.
    - replace (S n) with (n + 1)%nat at 1 by lia.
      rewrite repeat_app, concat_app, app_assoc, FLOrchestratorFacts.orchestrator_run_app, IH.
      reflexivity. }
  rewrite G. repeat split.
Qed.

(** ** Properties of the upload filter and of the file route *)

(** Proves a disjunction of equations one of which holds by computation. *)
Ltac pick_equal := first [reflexivity | left; reflexivity | right; pick_equal].

(** X16: The content type the file route gives to an extension passes the
    upload filter's test only for .jpg, .jpeg, .png, .gif and .mp4: the
    types it serves .avi, .mov and .mkv files with ("video/x-msvideo",
    "video/quicktime", "video/x-matroska") are refused by the filter,
    whatever the name of the file.  Range requests are honoured for .mp4,
    .avi, .mov and .mkv only. *)
Theorem served_types_and_upload_filter :
  forall ext,
    (allowedTypes_test (contentTypeFor ext) = true <->
     ext = js ".jpg" \/ ext = js ".jpeg" \/ ext = js ".png" \/ ext = js ".gif"
     \/ ext = js ".mp4")
    /\ (startsWith (contentTypeFor ext) (js "video/") = true <->
        ext = js ".mp4" \/ ext = js ".avi" \/ ext = js ".mov" \/ ext = js ".mkv")
    /\ (ext = js ".avi" \/ ext = js ".mov" \/ ext = js ".mkv" ->
        forall extname toLowerCase originalname,
          fileFilter extname toLowerCase originalname (contentTypeFor ext) = false).
Proof.
  intros ext.
  assert (C : (ext = js ".jpg" /\ contentTypeFor ext = js "image/jpeg")
              \/ (ext = js ".jpeg" /\ contentTypeFor ext = js "image/jpeg")
              \/ (ext = js ".png" /\ contentTypeFor ext = js "image/png")
              \/ (ext = js ".gif" /\ contentTypeFor ext = js "image/gif")
              \/ (ext = js ".mp4" /\ contentTypeFor ext = js "video/mp4")
              \/ (ext = js ".avi" /\ contentTypeFor ext = js "video/x-msvideo")
              \/ (ext = js ".mov" /\ contentTypeFor ext = js "video/quicktime")
              \/ (ext = js ".mkv" /\ contentTypeFor ext = js "video/x-matroska")
              \/ (contentTypeFor ext = js "application/octet-stream"
                  /\ ext <> js ".jpg" /\ ext <> js ".jpeg" /\ ext <> js ".png"
                  /\ ext <> js ".gif" /\ ext <> js ".mp4" /\ ext <> js ".avi"
                  /\ ext <> js ".mov" /\ ext <> js ".mkv")).
  { unfold contentTypeFor. cbn [existsb].
    destruct (String_eqb ext (js ".jpg")) eqn:E1;
      [apply String_eqb_eq in E1; cbn [orb]; tauto|].
    destruct (String_eqb ext (js ".jpeg")) eqn:E2;
      [apply String_eqb_eq in E2; cbn [orb]; tauto|].
    cbn [orb].
    destruct (String_eqb ext (js ".png")) eqn:E3; [apply String_eqb_eq in E3; tauto|].
    destruct (String_eqb ext (js ".gif")) eqn:E4; [apply String_eqb_eq in E4; tauto|].
    destruct (String_eqb ext (js ".mp4")) eqn:E5; [apply String_eqb_eq in E5; tauto|].
    destruct (String_eqb ext (js ".avi")) eqn:E6; [apply String_eqb_eq in E6; tauto|].
    destruct (String_eqb ext (js ".mov")) eqn:E7; [apply String_eqb_eq in E7; tauto|].
    destruct (String_eqb ext (js ".mkv")) eqn:E8; [apply String_eqb_eq in E8; tauto|].
    do 8 right. repeat split; try reflexivity; intros H; rewrite H in *; discriminate. }
  destruct C as [C|[C|[C|[C|[C|[C|[C|[C|C]]]]]]]]; destruct C as (H1 & H2).
  1-8: rewrite H2; subst ext; split; [|split];
    try (intros [H|[H|H]]; vm_compute in H; discriminate H);
    try (intros _ extname lower name; reflexivity);
    (split;
     [ intros H; vm_compute in H; try discriminate H; pick_equal
     | intros H; vm_compute; try reflexivity; exfalso;
       repeat (destruct H as [H|H]; [vm_compute in H; discriminate H|]);
       vm_compute in H; discriminate H ]).
  rewrite H1. split; [|split].
  - split; [intros H; vm_compute in H; discriminate H|]. intros H. exfalso. tauto.
  - split; [intros H; vm_compute in H; discriminate H|]. intros H. exfalso. tauto.
  - intros H. exfalso. tauto.
Qed.

(** ** Integers as Numbers

    Within [-2^53, 2^53] every integer is a Number, and the sum or the
    difference of two of them that stays in that range is computed
    exactly. *)

Section IntegerNumbers.
Local Open Scope Z_scope.

Lemma iter_pos_nat :
  forall (A : Type) (f : A -> A) p x,
    iter_pos f p x = Nat.iter (Pos.to_nat p) f x.
Proof.
  intros A f. induction p as [p IH|p IH|]; intros x; simpl iter_pos.
  - rewrite !IH. rewrite Pos2Nat.inj_xI.
    replace (S (2 * Pos.to_nat p))%nat with (Pos.to_nat p + (Pos.to_nat p + 1))%nat by lia.
    rewrite !Nat.iter_add. reflexivity.
  - rewrite !IH. rewrite Pos2Nat.inj_xO.
    replace (2 * Pos.to_nat p)%nat with (Pos.to_nat p + Pos.to_nat p)%nat by lia.
    rewrite Nat.iter_add. reflexivity.
  - reflexivity.
Qed.

Lemma Pos_iter_nat :
  forall (A : Type) (f : A -> A) p x,
    Pos.iter f x p = Nat.iter (Pos.to_nat p) f x.
Proof. intros. apply Pos2Nat.inj_iter. Qed.

Lemma shr_1_double :
  forall n q,
    Nat.iter n shr_1 {| shr_m := Zpos (Nat.iter n xO q); shr_r := false; shr_s := false |}
    = {| shr_m := Zpos q; shr_r := false; shr_s := false |}.
Proof.
  induction n as [|n IH]; intros q; [reflexivity|].
  rewrite Nat.iter_succ_r.
  change (Nat.iter (S n) xO q) with (xO (Nat.iter n xO q)).
  cbn [shr_1 orb]. apply IH.
Qed.

Lemma shift_pos_value :
  forall n q, Zpos (Nat.iter n xO q) = Zpos q * 2 ^ Z.of_nat n.
Proof.
  induction n as [|n IH]; intros q.
  - simpl. lia.
  - change (Nat.iter (S n) xO q) with (xO (Nat.iter n xO q)).
    rewrite Pos2Z.inj_xO, IH, Nat2Z.inj_succ, Z.pow_succ_r by lia. ring.
Qed.

Lemma digits2_pos_log2 :
  forall p, Zpos (digits2_pos p) = Z.log2 (Zpos p) + 1.
Proof.
  assert (S : forall p, digits2_pos p = Pos.size p)
    by (induction p; simpl; congruence).
  intros p. rewrite S. destruct p; simpl; lia.
Qed.

Lemma fexp_normal :
  forall k, -1074 <= k - 53 -> fexp prec emax k = k - 53.
Proof. intros k H. unfold fexp, SpecFloat.emin, prec, emax. lia. Qed.

Lemma shr_fexp_canonical :
  forall m e,
    Z.log2 (Zpos m) = 52 -> -1074 <= e ->
    shr_fexp prec emax (Zpos m) e loc_Exact
    = ({| shr_m := Zpos m; shr_r := false; shr_s := false |}, e).
Proof.
  intros m e L He. unfold shr_fexp.
  cbn [Zdigits2 shr_record_of_loc]. rewrite digits2_pos_log2, L.
  rewrite fexp_normal by lia.
  replace (52 + 1 + e - 53 - e) with 0 by lia. reflexivity.
Qed.

Lemma binary_round_aux_canonical :
  forall s m e,
    Z.log2 (Zpos m) = 52 -> -1074 <= e <= 971 ->
    binary_round_aux prec emax s (Zpos m) e loc_Exact = S754_finite s m e.
Proof.
  intros s m e L He. unfold binary_round_aux.
  rewrite shr_fexp_canonical by (try exact L; lia).
  cbn [shr_m loc_of_shr_record round_nearest_even].
  rewrite shr_fexp_canonical by (try exact L; lia). cbn [shr_m].
  replace (e <=? emax - prec) with true; [reflexivity|].
  symmetry. apply Z.leb_le. unfold emax, prec. lia.
Qed.

Lemma binary_round_exact :
  forall s m e,
    let e' := Z.log2 (Zpos m) + e - 52 in
    -1074 <= e -> -1074 <= e' <= 971 ->
    (e < e' -> exists q, Zpos m = Zpos q * 2 ^ (e' - e)) ->
    exists m',
      binary_round prec emax s m e = S754_finite s m' e'
      /\ Z.log2 (Zpos m') = 52
      /\ Zpos m' * 2 ^ (e' + 1074) = Zpos m * 2 ^ (e + 1074).
Proof.
  intros s m e e' He He' Hdiv. unfold binary_round.
  rewrite digits2_pos_log2, fexp_normal by (fold e'; lia).
  replace (Z.log2 (Z.pos m) + 1 + e - 53) with e' by (unfold e'; lia).
  unfold shl_align. destruct (e' - e) as [|n|d] eqn:D.
  - assert (e' = e) by lia. assert (L : Z.log2 (Zpos m) = 52) by (unfold e' in *; lia).
    exists m. rewrite binary_round_aux_canonical by (try exact L; lia).
    rewrite H. repeat split. exact L.
  - assert (E : e < e') by lia. destruct (Hdiv E) as (q & Hq).
    assert (Q : m = Nat.iter (Pos.to_nat n) xO q).
    { apply Pos2Z.inj. rewrite shift_pos_value, positive_nat_Z. exact Hq. }
    assert (L : Z.log2 (Zpos q) = 52).
    { unfold e' in D. rewrite Hq in D.
      rewrite Z.log2_mul_pow2 in D by lia. lia. }
    assert (S1 : shr_fexp prec emax (Zpos m) e loc_Exact
                 = ({| shr_m := Zpos q; shr_r := false; shr_s := false |}, e')).
    { unfold shr_fexp. cbn [Zdigits2 shr_record_of_loc]. rewrite digits2_pos_log2.
      rewrite fexp_normal by (fold e'; lia).
      replace (Z.log2 (Z.pos m) + 1 + e - 53 - e) with (Zpos n) by (unfold e' in D; lia).
      cbn [shr]. rewrite iter_pos_nat. rewrite Q. rewrite shr_1_double.
      f_equal. lia. }
    exists q. split; [|split; [exact L|]].
    + unfold binary_round_aux. rewrite S1.
      cbn [shr_m loc_of_shr_record round_nearest_even].
      rewrite shr_fexp_canonical by (try exact L; lia). cbn [shr_m].
      replace (e' <=? emax - prec) with true; [reflexivity|].
      symmetry. apply Z.leb_le. unfold emax, prec. lia.
    + rewrite Hq. replace (e' + 1074) with ((e + 1074) + Zpos n) by lia.
      rewrite (Z.pow_add_r 2 (e + 1074) (Zpos n)) by lia. ring.
  - set (m1 := Pos.iter xO m d).
    assert (V : Zpos m1 = Zpos m * 2 ^ Zpos d).
    { unfold m1. rewrite Pos_iter_nat, shift_pos_value, positive_nat_Z. reflexivity. }
    assert (L : Z.log2 (Zpos m1) = 52).
    { rewrite V, Z.log2_mul_pow2 by lia. unfold e' in D. lia. }
    exists m1. rewrite binary_round_aux_canonical by (try exact L; lia).
    repeat split; [exact L|]. rewrite V.
    replace (e + 1074) with ((e' + 1074) + Zpos d) by lia.
    rewrite (Z.pow_add_r 2 (e' + 1074) (Zpos d)) by lia. ring.
Qed.

Lemma log2_bound : forall p, Zpos p <= 2 ^ 53 -> 0 <= Z.log2 (Zpos p) <= 53.
Proof.
  intros p H. split; [apply Z.log2_nonneg|].
  rewrite <- (Z.log2_pow2 53) by lia. now apply Z.log2_le_mono.
Qed.

Lemma round_scaled :
  forall s p e m,
    Zpos p <= 2 ^ 53 -> -1074 <= e <= 0 ->
    Zpos m = Zpos p * 2 ^ (- e) ->
    exists m',
      binary_round prec emax s m e = S754_finite s m' (Z.log2 (Zpos p) - 52)
      /\ Z.log2 (Zpos m') = 52
      /\ Zpos m' * 2 ^ (Z.log2 (Zpos p) - 52 + 1074) = Zpos p * 2 ^ 1074.
Proof.
  intros s p e m Hp He Hm.
  pose proof (log2_bound p Hp) as Hl.
  assert (Lm : Z.log2 (Zpos m) = Z.log2 (Zpos p) - e).
  { rewrite Hm, Z.log2_mul_pow2 by lia. lia. }
  pose proof (binary_round_exact s m e) as R. cbv zeta in R.
  replace (Z.log2 (Z.pos m) + e - 52) with (Z.log2 (Zpos p) - 52) in R by lia.
  destruct R as (m' & R1 & R2 & R3); [lia|lia| |].
  - intros Hlt.
    destruct (Z.eq_dec (Z.log2 (Zpos p)) 53) as [E53|N53].
    + assert (P : Zpos p = 2 ^ 53).
      { apply Z.le_antisymm; [exact Hp|].
        rewrite <- E53. apply Z.log2_spec. lia. }
      exists (Z.to_pos (2 ^ 52)). rewrite E53, Hm, P.
      replace (53 - 52 - e) with (1 + - e) by lia.
      rewrite (Z.pow_add_r 2 1 (- e)) by lia.
      rewrite Z2Pos.id by reflexivity.
      change (2 ^ 53) with (2 ^ 52 * 2 ^ 1). ring.
    + exists (Z.to_pos (Zpos p * 2 ^ (52 - Z.log2 (Zpos p)))).
      rewrite Z2Pos.id by (apply Z.mul_pos_pos; [lia|apply Z.pow_pos_nonneg; lia]).
      rewrite Hm, <- Z.mul_assoc, <- Z.pow_add_r by lia.
      f_equal. f_equal. lia.
  - exists m'. split; [exact R1|]. split; [exact R2|].
    rewrite R3, Hm, <- Z.mul_assoc, <- Z.pow_add_r by lia.
    f_equal. f_equal. lia.
Qed.

Lemma round_scaled_eq :
  forall s p e m,
    Zpos p <= 2 ^ 53 -> -1074 <= e <= 0 ->
    Zpos m = Zpos p * 2 ^ (- e) ->
    binary_round prec emax s m e = binary_round prec emax s p 0.
Proof.
  intros s p e m Hp He Hm.
  destruct (round_scaled s p e m Hp He Hm) as (m1 & A1 & _ & A3).
  destruct (round_scaled s p 0 p Hp) as (m2 & B1 & _ & B3); [lia|simpl; lia|].
  rewrite A1, B1. f_equal. apply Pos2Z.inj.
  apply (Z.mul_reg_r _ _ (2 ^ (Z.log2 (Z.pos p) - 52 + 1074))); [|congruence].
  pose proof (log2_bound p Hp).
  apply Z.pow_nonzero; lia.
Qed.

Lemma normalize_scaled :
  forall n e,
    Z.abs n <= 2 ^ 53 -> -1074 <= e <= 0 ->
    binary_normalize prec emax (n * 2 ^ (- e)) e false = canon n.
Proof.
  intros n e Hn He. unfold canon.
  assert (P : 0 < 2 ^ (- e)) by (apply Z.pow_pos_nonneg; lia).
  destruct n as [|p|p].
  - reflexivity.
  - destruct (Zpos p * 2 ^ (- e)) as [|m|m] eqn:M; try lia.
    cbn [binary_normalize]. apply round_scaled_eq; [exact Hn|exact He|now symmetry].
  - destruct (Zneg p * 2 ^ (- e)) as [|m|m] eqn:M; try lia.
    cbn [binary_normalize]. apply round_scaled_eq; [exact Hn|exact He|].
    rewrite <- Pos2Z.opp_pos in M. lia.
Qed.

(** The canonical form of an integer below 2^53. *)
Lemma canon_finite :
  forall z,
    z <> 0 -> Z.abs z < 2 ^ 53 ->
    let e := Z.log2 (Z.abs z) - 52 in
    exists m,
      canon z = S754_finite (z <? 0) m e
      /\ Z.log2 (Zpos m) = 52 /\ -52 <= e <= 0
      /\ Zpos m = Z.abs z * 2 ^ (- e).
Proof.
  intros z Hz Hlt e.
  assert (G : forall s p, Zpos p < 2 ^ 53 ->
            let e := Z.log2 (Zpos p) - 52 in
            exists m, binary_round prec emax s p 0 = S754_finite s m e
                      /\ Z.log2 (Zpos m) = 52 /\ -52 <= e <= 0
                      /\ Zpos m = Zpos p * 2 ^ (- e)).
  { intros s p Hp e0.
    assert (Hl : 0 <= Z.log2 (Zpos p) < 53).
    { split; [apply Z.log2_nonneg|]. apply Z.log2_lt_pow2; lia. }
    destruct (round_scaled s p 0 p) as (m & A1 & A2 & A3); [lia|lia|simpl; lia|].
    exists m. split; [exact A1|]. split; [exact A2|]. split; [unfold e0; lia|].
    apply (Z.mul_reg_r _ _ (2 ^ (Z.log2 (Z.pos p) - 52 + 1074)));
      [apply Z.pow_nonzero; lia|].
    rewrite A3, <- Z.mul_assoc, <- Z.pow_add_r by (unfold e0; lia).
    f_equal. f_equal. unfold e0. lia. }
  destruct z as [|p|p]; [contradiction| |].
  - apply (G false p). exact Hlt.
  - apply (G true p). exact Hlt.
Qed.

Lemma canon_valid :
  forall z, Z.abs z <= 2 ^ 53 -> SpecFloat.valid_binary prec emax (canon z) = true.
Proof.
  intros z Hle. destruct (Z.eq_dec z 0) as [->|Hnz]; [reflexivity|].
  destruct (Z.eq_dec z (2 ^ 53)) as [->|Np]; [reflexivity|].
  destruct (Z.eq_dec z (- 2 ^ 53)) as [->|Nn]; [reflexivity|].
  assert (Hz : Z.abs z < 2 ^ 53) by lia.
  destruct (canon_finite z Hnz Hz) as (m & E & L & He & _). rewrite E.
  unfold SpecFloat.valid_binary, bounded, canonical_mantissa.
  rewrite digits2_pos_log2, L, fexp_normal by lia.
  apply andb_true_iff. split; [apply Z.eqb_eq; lia|apply Z.leb_le].
  unfold emax, prec. lia.
Qed.

Lemma shl_align_value :
  forall m e ez,
    ez <= e -> Zpos (fst (shl_align m e ez)) = Zpos m * 2 ^ (e - ez).
Proof.
  intros m e ez H. unfold shl_align. destruct (ez - e) as [|n|d] eqn:D; try lia.
  - cbn [fst]. replace (e - ez) with 0 by lia. simpl. lia.
  - cbn [fst]. rewrite Pos_iter_nat, shift_pos_value, positive_nat_Z.
    f_equal. f_equal. lia.
Qed.

Lemma aligned_value :
  forall z m e ez,
    Zpos m = Z.abs z * 2 ^ (- e) -> ez <= e <= 0 ->
    cond_Zopp (z <? 0) (Zpos (fst (shl_align m e ez))) = z * 2 ^ (- ez).
Proof.
  intros z m e ez Hm He.
  rewrite shl_align_value, Hm, <- Z.mul_assoc, <- Z.pow_add_r by lia.
  replace (- e + (e - ez)) with (- ez) by lia.
  unfold cond_Zopp. destruct (Z.ltb_spec z 0); lia.
Qed.

Lemma canon_opp :
  forall z s m e,
    z <> 0 -> Z.abs z < 2 ^ 53 ->
    canon z = S754_finite s m e -> canon (- z) = S754_finite (negb s) m e.
Proof.
  intros z s m e Hz Hlt E.
  destruct (canon_finite z Hz Hlt) as (m1 & E1 & _ & _ & V1).
  destruct (canon_finite (- z)) as (m2 & E2 & _ & _ & V2); [lia|lia|].
  rewrite E1 in E. injection E as <- <- <-. rewrite E2.
  rewrite Z.abs_opp in *. f_equal.
  - destruct (Z.ltb_spec z 0), (Z.ltb_spec (- z) 0); try reflexivity; lia.
  - apply Pos2Z.inj. congruence.
Qed.

Lemma SFadd_canon :
  forall x y,
    Z.abs x < 2 ^ 53 -> Z.abs y < 2 ^ 53 -> Z.abs (x + y) <= 2 ^ 53 ->
    SFadd prec emax (canon x) (canon y) = canon (x + y).
Proof.
  intros x y Hx Hy Hxy.
  destruct (Z.eq_dec x 0) as [->|Nx].
  - destruct (Z.eq_dec y 0) as [->|Ny]; [reflexivity|].
    destruct (canon_finite y Ny Hy) as (my & Ey & _). cbn [Z.add].
    rewrite Ey. reflexivity.
  - destruct (canon_finite x Nx Hx) as (mx & Ex & _ & Bx & Vx).
    destruct (Z.eq_dec y 0) as [->|Ny].
    + rewrite Z.add_0_r, Ex. reflexivity.
    + destruct (canon_finite y Ny Hy) as (my & Ey & _ & By & Vy).
      rewrite Ex, Ey. cbn [SFadd].
      rewrite (aligned_value x), (aligned_value y) by (try assumption; lia).
      rewrite <- Z.mul_add_distr_r.
      apply normalize_scaled; lia.
Qed.

Lemma SFsub_canon :
  forall x y,
    Z.abs x < 2 ^ 53 -> Z.abs y < 2 ^ 53 -> Z.abs (x - y) <= 2 ^ 53 ->
    SFsub prec emax (canon x) (canon y) = canon (x - y).
Proof.
  intros x y Hx Hy Hxy.
  destruct (Z.eq_dec x 0) as [->|Nx].
  - destruct (Z.eq_dec y 0) as [->|Ny]; [reflexivity|].
    destruct (canon_finite y Ny Hy) as (my & Ey & _). cbn [Z.sub Z.add].
    rewrite Ey. cbn [SFsub]. symmetry. now apply canon_opp.
  - destruct (canon_finite x Nx Hx) as (mx & Ex & _ & Bx & Vx).
    destruct (Z.eq_dec y 0) as [->|Ny].
    + rewrite Z.sub_0_r, Ex. reflexivity.
    + destruct (canon_finite y Ny Hy) as (my & Ey & _ & By & Vy).
      rewrite Ex, Ey. cbn [SFsub].
      rewrite (aligned_value x), (aligned_value y) by (try assumption; lia).
      rewrite <- Z.mul_sub_distr_r.
      apply normalize_scaled; lia.
Qed.

Lemma Prim2SF_numberOfZ :
  forall z, Z.abs z <= 2 ^ 53 -> Prim2SF (numberOfZ z) = canon z.
Proof. intros z H. apply Prim2SF_SF2Prim. now apply canon_valid. Qed.

Lemma numberOfZ_add :
  forall x y,
    Z.abs x < 2 ^ 53 -> Z.abs y < 2 ^ 53 -> Z.abs (x + y) <= 2 ^ 53 ->
    (numberOfZ x + numberOfZ y)%float = numberOfZ (x + y).
Proof.
  intros x y Hx Hy Hxy. apply Prim2SF_inj.
  rewrite FloatAxioms.add_spec, !Prim2SF_numberOfZ by lia.
  apply SFadd_canon; lia.
Qed.

Lemma numberOfZ_sub :
  forall x y,
    Z.abs x < 2 ^ 53 -> Z.abs y < 2 ^ 53 -> Z.abs (x - y) <= 2 ^ 53 ->
    (numberOfZ x - numberOfZ y)%float = numberOfZ (x - y).
Proof.
  intros x y Hx Hy Hxy. apply Prim2SF_inj.
  rewrite FloatAxioms.sub_spec, !Prim2SF_numberOfZ by lia.
  apply SFsub_canon; lia.
Qed.

Lemma numberOfZ_one : numberOfZ 1 = 1%float.
Proof. reflexivity. Qed.

(** NaN is absorbing on the right of a subtraction. *)
Lemma sub_nan : forall x, (x - PrimFloat.nan)%float = PrimFloat.nan.
Proof.
  intros x. apply Prim2SF_inj. rewrite FloatAxioms.sub_spec.
  change (Prim2SF PrimFloat.nan) with S754_nan.
  destruct (Prim2SF x); reflexivity.
Qed.

End IntegerNumbers.

Lemma splitOn_no_separator :
  forall sep s, ~ In sep s -> splitOn sep s = [s].
Proof.
  intros sep s. induction s as [|c s IH]; intros H; simpl; [reflexivity|].
  destruct (N.eqb_spec c sep) as [->|Hne]; [exfalso; apply H; now left|].
  rewrite IH; [reflexivity|]. intros Hin. apply H. now right.
Qed.

Lemma splitOn_first :
  forall sep a b, ~ In sep a -> splitOn sep (a ++ sep :: b) = a :: splitOn sep b.
Proof.
  intros sep a b. induction a as [|c a IH]; intros H; simpl.
  - now rewrite N.eqb_refl.
  - destruct (N.eqb_spec c sep) as [->|Hne]; [exfalso; apply H; now left|].
    rewrite IH; [reflexivity|]. intros Hin. apply H. now right.
Qed.

Lemma digitChars_no_hyphen : forall ds, ~ In 45%N (digitChars ds).
Proof.
  intros ds H. unfold digitChars in H. apply in_map_iff in H.
  destruct H as (d & Hd & _). lia.
Qed.

Lemma digitsValue_digitChars :
  forall ds acc,
    Forall (fun d => (d < 10)%N) ds ->
    digitsValue acc (digitChars ds)
    = match ds with
      | [] => acc
      | _ => Some (fold_left (fun a d => (10 * a + Z.of_N d)%Z) ds
                     (match acc with Some a => a | None => 0%Z end))
      end.
Proof.
  induction ds as [|d ds IH]; intros acc H; [reflexivity|].
  inversion H as [|? ? Hd Hds]; subst.
  cbn [digitChars map digitsValue]. fold (digitChars ds).
  replace ((48 <=? 48 + d)%N && (48 + d <=? 57)%N) with true
    by (symmetry; apply andb_true_iff; split; apply N.leb_le; lia).
  rewrite (IH _ Hds). replace (48 + d - 48)%N with d by lia.
  destruct ds; reflexivity.
Qed.

Lemma parseInt10_digitChars :
  forall ds,
    ds <> [] -> Forall (fun d => (d < 10)%N) ds ->
    parseInt10 (digitChars ds) = numberOfZ (digitsNumber ds).
Proof.
  intros [|d ds] Hne H; [contradiction|].
  pose proof (digitsValue_digitChars (d :: ds) None H) as V.
  inversion H as [|? ? Hd Hds]; subst.
  assert (P : parseInt10 (digitChars (d :: ds))
              = match digitsValue None (digitChars (d :: ds)) with
                | Some n => numberOfZ n
                | None => PrimFloat.nan
                end).
  { assert (D : (d = 0 \/ d = 1 \/ d = 2 \/ d = 3 \/ d = 4 \/ d = 5 \/ d = 6
                 \/ d = 7 \/ d = 8 \/ d = 9)%N) by lia.
    destruct D as [->|[->|[->|[->|[->|[->|[->|[->|[->| ->]]]]]]]]]; reflexivity. }
  rewrite P, V. reflexivity.
Qed.

Lemma digitsNumber_nonneg : forall ds, (0 <= digitsNumber ds)%Z.
Proof.
  intros ds. unfold digitsNumber.
  assert (G : forall acc, (0 <= acc)%Z ->
                          (0 <= fold_left (fun a d => (10 * a + Z.of_N d)%Z) ds acc)%Z).
  { induction ds as [|d ds IH]; intros acc Ha; cbn [fold_left]; [exact Ha|]. apply IH. lia. }
  apply G. lia.
Qed.

(** X17: The numbers a range request is served with.  For "bytes=a-b", with
    [a], [b] and the size of the file below 2^53, they are start = a,
    end = b and a Content-Length of b - a + 1, whatever the size of the
    file and whether or not a <= b; for "bytes=a-" the end is the last
    byte of the file; for the suffix form "bytes=-b" the start and the
    length are NaN, so the request is not served as the last b bytes; and
    from 2^53 on the numbers are rounded: "bytes=0-9007199254740993" has
    the end and the length 9007199254740992. *)
Theorem range_request_numbers :
  forall ds es size,
    ds <> [] ->
    Forall (fun d => (d < 10)%N) ds ->
    Forall (fun d => (d < 10)%N) es ->
    (digitsNumber ds < 2 ^ 53)%Z ->
    (digitsNumber es < 2 ^ 53)%Z ->
    (0 <= size < 2 ^ 53)%Z ->
    let fileSize := numberOfZ size in
    let a := digitsNumber ds in
    let b := match es with [] => (size - 1)%Z | _ => digitsNumber es end in
    rangeOf (js "bytes=" ++ digitChars ds ++ js "-" ++ digitChars es) fileSize
    = (numberOfZ a, numberOfZ b, numberOfZ (b - a + 1))
    /\ rangeOf (js "bytes=-" ++ digitChars ds) fileSize
       = (PrimFloat.nan, numberOfZ a, PrimFloat.nan)
    /\ rangeOf (js "bytes=0-9007199254740993") fileSize
       = (0, 9007199254740992, 9007199254740992)%float.
Proof.
  intros ds es size Hne Hd He Ha Hb Hsize fileSize a b.
  assert (R : forall rest, replace (js "bytes=" ++ rest) (js "bytes=") [] = rest)
    by reflexivity.
  pose proof (digitsNumber_nonneg ds) as Pa.
  pose proof (digitsNumber_nonneg es) as Pb.
  split; [|split].
  - assert (Hend : match es with
                   | [] => (fileSize - 1)%float
                   | _ => parseInt10 (digitChars es)
                   end = numberOfZ b).
    { unfold b, fileSize. destruct es as [|e es].
      - rewrite <- numberOfZ_one. apply numberOfZ_sub; lia.
      - apply parseInt10_digitChars; [discriminate|exact He]. }
    assert (Bb : (-1 <= b < 2 ^ 53)%Z) by (unfold b; destruct es; lia).
    unfold rangeOf. rewrite R.
    change (js "-" ++ digitChars es) with (45%N :: digitChars es).
    rewrite (splitOn_first _ _ _ (digitChars_no_hyphen ds)).
    rewrite (splitOn_no_separator _ _ (digitChars_no_hyphen es)).
    cbn [nth nth_error].
    rewrite (parseInt10_digitChars ds Hne Hd). fold a.
    replace (if truthyString (digitChars es)
             then parseInt10 (digitChars es) else (fileSize - 1)%float)
      with (numberOfZ b)
      by (rewrite <- Hend; destruct es; reflexivity).
    f_equal. rewrite numberOfZ_sub by (unfold a; lia).
    destruct (Z.eq_dec (b - a) (- 2 ^ 53)) as [E|NE].
    + replace (b - a + 1)%Z with (- 2 ^ 53 + 1)%Z by lia. rewrite E. reflexivity.
    + rewrite <- numberOfZ_one. apply numberOfZ_add; unfold a in *; lia.
  - unfold rangeOf.
    change (js "bytes=-" ++ digitChars ds) with (js "bytes=" ++ 45%N :: digitChars ds).
    rewrite R.
    change (splitOn 45%N (45%N :: digitChars ds))
      with ([] :: splitOn 45%N (digitChars ds)).
    rewrite (splitOn_no_separator _ _ (digitChars_no_hyphen ds)).
    cbn [nth nth_error].
    rewrite (parseInt10_digitChars ds Hne Hd). fold a.
    replace (if truthyString (digitChars ds) then numberOfZ a else (fileSize - 1)%float)
      with (numberOfZ a)
      by (destruct ds; [contradiction|reflexivity]).
    change (parseInt10 []) with PrimFloat.nan.
    rewrite sub_nan. reflexivity.
  - reflexivity.
Qed.

(** The operations on devices keep the keys of the table distinct. *)
Lemma distinctDeviceKeys_kept :
  forall st, distinctDeviceKeys st ->
    (forall id now ins, distinctDeviceKeys (snd (MemStorage.createDevice id now ins st)))
    /\ (forall now id updates,
          distinctDeviceKeys (snd (MemStorage.updateDevice now id updates st)))
    /\ (forall id, distinctDeviceKeys (snd (MemStorage.deleteDevice id st))).
Proof.
  intros st H. unfold distinctDeviceKeys in *.
  assert (S : forall (m : JSMap.t Device.t) k v,
             NoDup (JSMap.keys m) -> NoDup (JSMap.keys (JSMap.set m k v))).
  { intros m k v Hm. destruct (JSMap.get m k) as [v0|] eqn:G.
    - now rewrite (JSMapFacts.keys_set_present _ _ _ _ G).
    - rewrite (JSMapFacts.set_absent _ _ _ G). unfold JSMap.keys.
      rewrite map_app. simpl. apply NoDup_app; [exact Hm|repeat constructor; auto|].
      intros x Hx [<-|[]]. now apply JSMapFacts.get_None_keys in G. }
  assert (D : forall (m : JSMap.t Device.t) k,
             NoDup (JSMap.keys m) ->
             NoDup (JSMap.keys (snd (JSMap.delete m k)))
             /\ incl (JSMap.keys (snd (JSMap.delete m k))) (JSMap.keys m)).
  { induction m as [|[k0 v0] m IH]; intros k Hm; simpl.
    - split; [constructor|intros x []].
    - inversion Hm as [|? ? Hnin Hnd]; subst.
      destruct (String_eqb k0 k); simpl.
      + split; [exact Hnd|]. intros x Hx. now right.
      + specialize (IH k Hnd). destruct (JSMap.delete m k) as [fd rest].
        simpl in *. destruct IH as (Hrest & Hincl). split.
        * constructor; [|exact Hrest]. intros Hin. apply Hnin. now apply Hincl.
        * intros x [<-|Hx]; [now left|right; now apply Hincl]. }
  split; [|split].
  - intros id now ins. unfold MemStorage.createDevice.
    cbn [snd MemStorage.devices MemStorage.withDevices]. now apply S.
  - intros now id updates. unfold MemStorage.updateDevice.
    destruct (JSMap.get (MemStorage.devices st) id); [|exact H].
    cbn [snd MemStorage.devices MemStorage.withDevices]. now apply S.
  - intros id. unfold MemStorage.deleteDevice.
    pose proof (D (MemStorage.devices st) id H) as (Hd & _).
    destruct (JSMap.delete (MemStorage.devices st) id).
    cbn [snd MemStorage.devices MemStorage.withDevices] in *. exact Hd.
Qed.

(** ** The further properties on concrete inputs *)

(** Replaces the result [r] of a concrete call by its value. *)
Ltac evaluated Hr :=
  let E := fresh "E" in
  pose proof Hr as E; vm_compute in E; injection E as E; subst.

Lemma detection_iff_not_normal_witness :
  supported (mimetype corridor) = true
  /\ exists r, classify 0 corridor = Classified r
               /\ anomalyType r = loitering
               /\ anomalyDetected r = true.
Proof.
  split; [reflexivity|].
  destruct (detection_iff_not_normal Builtins.toLowerCase Builtins.toFixed
              Builtins.toISOString 0%Z corridor eq_refl) as (r & Hr & Hiff).
  exists r. split; [exact Hr|].
  assert (T : anomalyType r = loitering) by (evaluated Hr; reflexivity).
  split; [exact T|]. apply Hiff. rewrite T. discriminate.
Defined.

Lemma severity_never_low_witness :
  supported (mimetype corridor) = true
  /\ exists r, classify 0 corridor = Classified r
               /\ anomalyType r = loitering
               /\ severity r = uncertain
               /\ recommendedAction r = manual_review.
Proof.
  split; [reflexivity|].
  destruct (severity_never_low Builtins.toLowerCase Builtins.toFixed
              Builtins.toISOString 0%Z corridor eq_refl) as (r & Hr & _ & Hlow & _).
  exists r. split; [exact Hr|].
  assert (T : anomalyType r = loitering) by (evaluated Hr; reflexivity).
  split; [exact T|]. apply Hlow. now left.
Defined.

Lemma confidence_is_raw_unless_normal_witness :
  supported (mimetype kanji) = true
  /\ exists r, classify 0 kanji = Classified r
               /\ anomalyType r = normal
               /\ confidence r = 0.35%float.
Proof.
  split; [reflexivity|].
  destruct (confidence_is_raw_unless_normal Builtins.toLowerCase Builtins.toFixed
              Builtins.toISOString 0%Z kanji eq_refl) as (r & Hr & Hn & _).
  exists r. split; [exact Hr|].
  assert (T : anomalyType r = normal) by (evaluated Hr; reflexivity).
  split; [exact T|]. exact (Hn T).
Defined.

Lemma keyword_means_alert_witness :
  supported (mimetype clip) = true
  /\ Spec.weaponKw (Spec.keywords Builtins.toLowerCase (originalname clip)) = true
  /\ exists r, classify 0 clip = Classified r
               /\ anomalyDetected r = true
               /\ recommendedAction r = alert
               /\ (severity r = critical \/ severity r = high).
Proof.
  split; [reflexivity|]. split; [reflexivity|].
  exact (keyword_means_alert Builtins.toLowerCase Builtins.toFixed
           Builtins.toISOString 0%Z clip eq_refl eq_refl).
Defined.

Lemma integer_fields_closed_form_witness :
  supported (mimetype clip) = true
  /\ exists r, classify 0 clip = Classified r
               /\ processingTime r = 2922%Z
               /\ frames_analyzed (metadata r) = 7%Z.
Proof.
  split; [reflexivity|].
  exact (integer_fields_closed_form Builtins.toLowerCase Builtins.toFixed
           Builtins.toISOString 0%Z clip eq_refl).
Defined.

Lemma box_count_closed_form_witness :
  supported (mimetype hallway) = true
  /\ exists r, classify 0 hallway = Classified r
               /\ List.length (bounding_boxes r) = 2%nat.
Proof.
  split; [reflexivity|].
  destruct (box_count_closed_form Builtins.toLowerCase Builtins.toFixed
              Builtins.toISOString 0%Z hallway eq_refl) as (r & Hr & Hn & _).
  exists r. split; [exact Hr|]. rewrite Hn.
  assert (T : anomalyType r = weapon_detected) by (evaluated Hr; reflexivity).
  rewrite T. reflexivity.
Defined.

Lemma deleteDevice_removes_witness :
  distinctDeviceKeys twoCameras
  /\ fst (MemStorage.deleteDevice (js "id-1") twoCameras) = true
  /\ MemStorage.getDevice (snd (MemStorage.deleteDevice (js "id-1") twoCameras))
       (js "id-1") = None
  /\ List.length
       (MemStorage.getAllDevices (snd (MemStorage.deleteDevice (js "id-1") twoCameras)))
     = 1%nat.
Proof.
  assert (H : distinctDeviceKeys twoCameras).
  { unfold distinctDeviceKeys. simpl. repeat constructor; simpl.
    - intros [H|[]]. discriminate H.
    - intros []. }
  split; [exact H|].
  destruct (deleteDevice_removes (js "id-1") twoCameras H) as (_ & Hg & _ & Hl & _).
  split; [reflexivity|]. split; [exact Hg|]. exact Hl.
Defined.

Lemma clientSimulator_stopped_witness :
  let sim := ClientSimulator.constructor (fun _ => 0.05%float) (fun _ => 0%Z) in
  let events := [ClientSimulator.Tick (fun _ => 0.05%float) (fun _ => 1000%Z);
                 ClientSimulator.Stop] in
  ClientSimulator.isRunning sim = false
  /\ ~ In ClientSimulator.Start events
  /\ ClientSimulator.run events sim = sim.
Proof.
  cbv zeta.
  assert (N : ~ In ClientSimulator.Start
                [ClientSimulator.Tick (fun _ => 0.05%float) (fun _ => 1000%Z);
                 ClientSimulator.Stop]).
  { intros [H|[H|[]]]; discriminate H. }
  split; [reflexivity|]. split; [exact N|].
  exact (clientSimulator_stopped
           (ClientSimulator.constructor (fun _ => 0.05%float) (fun _ => 0%Z))
           _ eq_refl N).
Defined.

Lemma range_request_numbers_witness :
  [0%N] <> []
  /\ Forall (fun d => (d < 10)%N) [0%N]
  /\ Forall (fun d => (d < 10)%N) [4%N; 9%N; 9%N]
  /\ (digitsNumber [0%N] < 2 ^ 53)%Z
  /\ (digitsNumber [4%N; 9%N; 9%N] < 2 ^ 53)%Z
  /\ (0 <= 1000 < 2 ^ 53)%Z
  /\ rangeOf (js "bytes=0-499") 1000 = (0, 499, 500)%float
  /\ rangeOf (js "bytes=-0") 1000 = (PrimFloat.nan, 0%float, PrimFloat.nan).
Proof.
  assert (H1 : [0%N] <> []) by discriminate.
  assert (H2 : Forall (fun d => (d < 10)%N) [0%N]) by (repeat constructor).
  assert (H3 : Forall (fun d => (d < 10)%N) [4%N; 9%N; 9%N]) by (repeat constructor).
  assert (H4 : (digitsNumber [0%N] < 2 ^ 53)%Z) by reflexivity.
  assert (H5 : (digitsNumber [4%N; 9%N; 9%N] < 2 ^ 53)%Z) by reflexivity.
  assert (H6 : (0 <= 1000 < 2 ^ 53)%Z) by (split; [discriminate|reflexivity]).
  split; [exact H1|]. split; [exact H2|]. split; [exact H3|].
  split; [exact H4|]. split; [exact H5|]. split; [exact H6|].
  destruct (range_request_numbers [0%N] [4%N; 9%N; 9%N] 1000%Z H1 H2 H3 H4 H5 H6)
    as (A & B & _).
  split; [exact A|exact B].
Defined.
